(** * Quiz extensions: a shallow embedding of [utils.py] and [views.py]

    The development follows the two Python modules of the LTI tool that
    gives students extra time on Canvas quizzes:

    - [utils.py]: [extend_quiz], [get_quizzes], [search_users], [get_user],
      [get_course], [missing_quizzes];
    - [views.py]: the handlers [update] and [refresh] with the module's own
      copies of [extend_quiz] and [missing_quizzes].

    Python values are modelled at the types the docstrings give them: a quiz
    is a dictionary with an integer [id], a string [title] and an integer
    [time_limit]; a percent is an integer; identifiers are integers.  The
    code is Python 2 ([urlparse], [iteritems]), so [math.ceil] yields a
    float and the arithmetic of [extend_quiz] is IEEE-754 binary64
    arithmetic, modelled with the Standard Library's [SpecFloat].

    The LMS is a read-only oracle; the local database and the log of the
    HTTP calls made form the state that the handlers thread through. *)

From Stdlib Require Import ZArith List String Bool Lia SpecFloat.
Import ListNotations.

Open Scope string_scope.
Open Scope list_scope.
Open Scope Z_scope.

(** ** Python values *)

Inductive exn : Type :=
| HTTPError
| AttributeError
| KeyError
| ValueError
| TypeError
| OverflowError.

Inductive result (A : Type) : Type :=
| Return (a : A)
| Raise (e : exn).

Arguments Return {A} a.
Arguments Raise {A} e.

(** A key of a JSON object: missing, present with [null], or present with
    a value.  [d.get(k)] and [d.get(k, default)] tell the first two apart
    only when a default is given. *)
Inductive field (A : Type) : Type :=
| Absent
| Null
| Val (a : A).

Arguments Absent {A}.
Arguments Null {A}.
Arguments Val {A} a.

Definition get {A : Type} (f : field A) : option A :=
  match f with
  | Val a => Some a
  | Absent | Null => None
  end.

Definition get_default {A : Type} (f : field A) (default : A) : option A :=
  match f with
  | Val a => Some a
  | Absent => Some default
  | Null => None
  end.

(** ** Binary64 arithmetic *)

Definition prec : Z := 53.
Definition emax : Z := 1024.

Definition float : Type := spec_float.

(** The nearest double of an integer, ties to even. *)
Definition Z2F (z : Z) : float := binary_normalize prec emax z 0 false.

(** [float(n)], and the conversion of the integer operand of a mixed
    [int * float]: an integer beyond the range of doubles raises. *)
Definition py_float (z : Z) : result float :=
  match Z2F z with
  | S754_infinity _ => Raise OverflowError
  | x => Return x
  end.

Definition fsub : float -> float -> float := SFsub prec emax.
Definition fdiv : float -> float -> float := SFdiv prec emax.
Definition fmul : float -> float -> float := SFmul prec emax.

(** [math.ceil] on a double (the C library's [ceil]): infinities, NaN, zeros
    and the doubles without fractional bits are returned as they are. *)
Definition py_ceil (x : float) : float :=
  match x with
  | S754_finite s m e =>
      if 0 <=? e then x
      else
        let d := 2 ^ (- e) in
        let n := if s then - (Z.pos m / d) else - ((- Z.pos m) / d) in
        binary_normalize prec emax n 0 s
  | _ => x
  end.

(** Ceiling of the exact quotient [a / b] for [b > 0]. *)
Definition ceil_div (a b : Z) : Z := - ((- a) / b).

(** ** LMS objects *)

Module CanvasQuiz.
Record t : Type := mk {
  id : field Z;
  title : field string;
  time_limit : field Z
}.
End CanvasQuiz.

Module CanvasUser.
Record t : Type := mk {
  id : field Z;
  sortable_name : field string;
  sis_user_id : field string
}.
End CanvasUser.

Module CanvasCourse.
Record t : Type := mk {
  name : field string
}.
End CanvasCourse.

(** One extension POST:
    [POST courses/<course_id>/quizzes/<quiz_id>/extensions] with the body
    [{quiz_extensions: [{user_id, extra_time}, ...]}]. *)
Record extension_post : Type := mk_post {
  post_course : Z;
  post_quiz : option Z;
  quiz_extensions : list (Z * float)
}.

Inductive lms_call : Type :=
| GetCourse (course_id : Z)
| GetUser (user_id : Z)
| GetQuizzes (course_id : Z) (page : nat)
| SearchUsers (course_id per_page page : Z) (search_term : string)
| PostExtensions (p : extension_post).

(** A response of the quiz index: its body, and for a response that
    carries a [next] link the response that link leads to.  The LMS answers
    with a JSON array of quizzes or with an error object; [get_quizzes]
    also has a branch for a body that is neither, which no response of
    this type reaches. *)
Inductive page_body : Type :=
| ErrorObject
| QuizList (l : list CanvasQuiz.t).

Inductive quiz_page : Type :=
| LastPage (body : page_body)
| Page (body : page_body) (next : quiz_page).

(** A response of the user search: the decoded body and the URL of the
    link with [rel="last"], when the headers carry one. *)
Inductive search_body : Type :=
| NotJson
| SearchError
| UserList (l : list CanvasUser.t).

Record search_response : Type := mk_search {
  search_json : search_body;
  last_url : option string
}.

(** What the LMS answers. [None] stands for a response on which
    [raise_for_status] raises (404 and the like). *)
Record lms : Type := mk_lms {
  course_of : Z -> option CanvasCourse.t;
  user_of : Z -> option CanvasUser.t;
  quizzes_of : Z -> quiz_page;
  post_status : extension_post -> Z;
  search_of : Z -> Z -> Z -> string -> search_response
}.

(** ** The local database *)

(** Modelled from the spec: [models.py] is not part of the sources, so the
    four tables carry the columns of the spec's data model that the handlers
    read and write, in the order the constructors of [update] pass them.
    A table is the list of its rows in the order they were added. *)
Module Course.
Record t : Type := mk {
  canvas_id : Z;
  course_name : option string
}.
End Course.

(** Modelled from the spec: the User table of [models.py], with the
    columns [update] assigns. *)
Module User.
Record t : Type := mk {
  sortable_name : option string;
  canvas_id : option Z;
  sis_id : option string
}.
End User.

(** Modelled from the spec: the Quiz table of [models.py]. *)
Module Quiz.
Record t : Type := mk {
  canvas_id : option Z;
  course_id : Z;
  title : option string
}.
End Quiz.

(** Modelled from the spec: the Extension table of [models.py]; [active]
    is true for a row as [Extension(course_id, user_id, percent)] creates
    it. *)
Module Extension.
Record t : Type := mk {
  course_id : Z;
  user_id : Z;
  percent : Z;
  active : bool
}.
End Extension.

Record database : Type := mk_db {
  courses : list Course.t;
  users : list User.t;
  quizzes : list Quiz.t;
  extensions : list Extension.t
}.

Record world : Type := mk_world {
  db : database;
  calls : list lms_call
}.

(** ** State and exceptions *)

Definition M (A : Type) : Type := world -> result A * world.

Definition ret {A : Type} (a : A) : M A := fun w => (Return a, w).

Definition raise {A : Type} (e : exn) : M A := fun w => (Raise e, w).

Definition bind {A B : Type} (m : M A) (k : A -> M B) : M B :=
  fun w =>
    match m w with
    | (Return a, w') => k a w'
    | (Raise e, w') => (Raise e, w')
    end.

Declare Scope py_scope.
Delimit Scope py_scope with py.

Notation "x <- m ;; k" := (bind m (fun x => k))
  (at level 100, m at next level, right associativity) : py_scope.
Notation "m ;;; k" := (bind m (fun _ => k))
  (at level 100, right associativity) : py_scope.

Definition lift {A : Type} (r : result A) : M A := fun w => (r, w).

Definition request (c : lms_call) : M unit :=
  fun w => (Return tt, mk_world (db w) (calls w ++ [c])).

Definition read_db : M database := fun w => (Return (db w), w).

Definition write_db (d : database) : M unit :=
  fun w => (Return tt, mk_world d (calls w)).

(** ** Messages

    A message is a format template with the arguments of [str.format];
    rendering floats as text is left to Python. *)
Inductive pyval : Type :=
| PNone
| PInt (z : Z)
| PFloat (x : float)
| PStr (s : string).

Definition of_id (o : option Z) : pyval :=
  match o with
  | Some z => PInt z
  | None => PNone
  end.

Record message : Type := mk_message {
  template : string;
  args : list pyval
}.

(** The dictionary [extend_quiz] returns. *)
Record extension_response : Type := mk_response {
  success : bool;
  message_of : message;
  added_time : option float
}.

(** What a handler sends back. *)
Inductive response : Type :=
| Text (s : string)
| JsonError (m : message)
| JsonSuccess (m : message) (quiz_list : list (option string * float))
    (unchanged_list : list (option string))
| NoResponse.

(** The JSON object sent as the body of an update request: its [percent]
    (a JSON integer), its [user_ids], and the names of the other keys it
    has, which [update] never reads. *)
Record post_body : Type := mk_body {
  body_percent : field Z;
  body_user_ids : field (list Z);
  body_other_keys : list string
}.

(** ** Queries *)

Definition option_Z_eqb (a b : option Z) : bool :=
  match a, b with
  | Some x, Some y => x =? y
  | None, None => true
  | _, _ => false
  end.

(** [query.filter_by(...).first()] *)
Definition first {A : Type} (p : A -> bool) (l : list A) : option A :=
  find p l.

(** Assignment to the columns of the row that [first] returned. *)
Fixpoint update_first {A : Type} (p : A -> bool) (f : A -> A) (l : list A)
  : list A :=
  match l with
  | [] => []
  | x :: l' => if p x then f x :: l' else x :: update_first p f l'
  end.

(** The pattern of every write of [update]: look the row up; add a new
    row when there is none, else assign to the columns of the row found. *)
Definition upsert {A : Type} (p : A -> bool) (create : A) (assign : A -> A)
  (l : list A) : list A :=
  match first p l with
  | None => l ++ [create]
  | Some _ => update_first p assign l
  end.

Fixpoint for_each {A : Type} (body : A -> M unit) (l : list A) : M unit :=
  match l with
  | [] => ret tt
  | x :: l' => (body x ;;; for_each body l')%py
  end.

Definition by_canvas_id (course_id : Z) (c : Course.t) : bool :=
  Course.canvas_id c =? course_id.

Definition user_by_canvas_id (user_id : Z) (u : User.t) : bool :=
  option_Z_eqb (User.canvas_id u) (Some user_id).

Definition quiz_by_canvas_id (quiz_id : option Z) (q : Quiz.t) : bool :=
  option_Z_eqb (Quiz.canvas_id q) quiz_id.

Definition by_course_and_user (course_id user_id : Z) (e : Extension.t)
  : bool :=
  (Extension.course_id e =? course_id) && (Extension.user_id e =? user_id).

(** ** [extend_quiz]

    [math.ceil(time_limit * ((float(percent)-100) / 100) if percent else 0)] *)
Definition ceil_added_time (time_limit percent : Z) : result float :=
  if percent =? 0 then Return (py_ceil (Z2F 0))
  else
    match py_float percent with
    | Raise e => Raise e
    | Return p =>
        match py_float time_limit with
        | Raise e => Raise e
        | Return t =>
            Return (py_ceil (fmul t (fdiv (fsub p (Z2F 100)) (Z2F 100))))
        end
    end.

Definition no_time_limit (time_limit : option Z) : bool :=
  match time_limit with
  | None => true
  | Some t => t <? 1
  end.

Definition msg_no_time_limit (quiz_id : option Z) : message :=
  mk_message "Quiz #{} has no time limit, so there is no time to add."
    [of_id quiz_id].

Definition msg_added (added : float) (quiz_id : option Z) : message :=
  mk_message "Successfully added {} minutes to quiz #{}"
    [PFloat added; of_id quiz_id].

Definition msg_post_error (quiz_id : option Z) (status_code : Z) : message :=
  mk_message "Error creating extension for quiz #{}. Canvas status code: {}"
    [of_id quiz_id; PInt status_code].

(** ** The loop of [missing_quizzes]

    Both modules run the same loop; they differ in [key], the expression
    that reads the id of a quiz of the LMS. *)
Fixpoint missing_loop (key : CanvasQuiz.t -> result (option Z))
  (quickcheck : bool) (l : list CanvasQuiz.t)
  (missing_list : list CanvasQuiz.t) : M (list CanvasQuiz.t) :=
  match l with
  | [] => ret missing_list
  | canvas_quiz :: l' =>
      (k <- lift (key canvas_quiz) ;;
       d <- read_db ;;
       match first (quiz_by_canvas_id k) (quizzes d) with
       | Some _ => missing_loop key quickcheck l' missing_list
       | None =>
           if quickcheck then ret (missing_list ++ [canvas_quiz])
           else missing_loop key quickcheck l' (missing_list ++ [canvas_quiz])
       end)%py
  end.

(** [canvas_quiz.get('id')], as [utils.py] reads it. *)
Definition dict_get_id (canvas_quiz : CanvasQuiz.t) : result (option Z) :=
  Return (get (CanvasQuiz.id canvas_quiz)).

(** [canvas_quiz.id], as [views.py] reads it: a dictionary has no such
    attribute. *)
Definition dict_attr_id (canvas_quiz : CanvasQuiz.t) : result (option Z) :=
  Raise AttributeError.

(** ** [utils.py] *)

Module utils.
Section WithLMS.

Variable L : lms.

Definition extend_quiz (course_id : Z) (quiz : CanvasQuiz.t) (percent : Z)
  (user_id_list : list Z) : M extension_response :=
  let quiz_id := get (CanvasQuiz.id quiz) in
  let time_limit := get (CanvasQuiz.time_limit quiz) in
  if no_time_limit time_limit then
    ret (mk_response true (msg_no_time_limit quiz_id) None)
  else
    (added <- lift (ceil_added_time (match time_limit with
                                     | Some t => t
                                     | None => 0
                                     end) percent) ;;
     let post :=
       mk_post course_id quiz_id
         (map (fun user_id => (user_id, added)) user_id_list) in
     request (PostExtensions post) ;;;
     if post_status L post =? 200 then
       ret (mk_response true (msg_added added quiz_id) (Some added))
     else
       ret (mk_response false
              (msg_post_error quiz_id (post_status L post)) None))%py.

(** The [while True] loop of [get_quizzes]: one GET per page, stopping at
    an error object or at a response without a [next] link. *)
Fixpoint get_quizzes_loop (course_id : Z) (n : nat) (p : quiz_page)
  (quizzes : list CanvasQuiz.t) : M (list CanvasQuiz.t) :=
  (request (GetQuizzes course_id n) ;;;
   match p with
   | LastPage ErrorObject | Page ErrorObject _ => ret quizzes
   | LastPage (QuizList l) => ret (quizzes ++ l)
   | Page (QuizList l) next =>
       get_quizzes_loop course_id (S n) next (quizzes ++ l)
   end)%py.

Definition get_quizzes (course_id : Z) : M (list CanvasQuiz.t) :=
  get_quizzes_loop course_id 0%nat (quizzes_of L course_id) [].

Definition get_user (user_id : Z) : M CanvasUser.t :=
  (request (GetUser user_id) ;;;
   match user_of L user_id with
   | Some u => ret u
   | None => raise HTTPError
   end)%py.

Definition get_course (course_id : Z) : M CanvasCourse.t :=
  (request (GetCourse course_id) ;;;
   match course_of L course_id with
   | Some c => ret c
   | None => raise HTTPError
   end)%py.

Definition missing_quizzes (course_id : Z) (quickcheck : bool)
  : M (list CanvasQuiz.t) :=
  (quizzes <- get_quizzes course_id ;;
   missing_loop dict_get_id quickcheck quizzes [])%py.

Section SearchUsers.

(** [int(parse_qs(urlsplit(url).query)['page'][0])]: the page number a URL
    names, computed by the standard library; it raises on a URL without a
    usable [page]. *)
Variable page_of_url : string -> result Z.

Definition search_users (course_id per_page page : Z) (search_term : string)
  : M (list CanvasUser.t * Z) :=
  (request (SearchUsers course_id per_page page search_term) ;;;
   let users_response := search_of L course_id per_page page search_term in
   match search_json users_response with
   | NotJson => raise ValueError
   | SearchError => ret ([], 0)
   | UserList user_list =>
       match last_url users_response with
       | None => raise KeyError
       | Some url =>
           num_pages <- lift (page_of_url url) ;;
           ret (user_list, num_pages)
       end
   end)%py.

End SearchUsers.

End WithLMS.
End utils.

(** ** [views.py] *)

Definition with_courses (d : database) (l : list Course.t) : database :=
  mk_db l (users d) (quizzes d) (extensions d).

Definition with_quizzes (d : database) (l : list Quiz.t) : database :=
  mk_db (courses d) (users d) l (extensions d).

Definition with_users_extensions (d : database) (us : list User.t)
  (es : list Extension.t) : database :=
  mk_db (courses d) us (quizzes d) es.

(** [try: ... except requests.exceptions.HTTPError] *)
Definition catch_HTTPError {A : Type} (m : M A) : M (option A) :=
  fun w =>
    match m w with
    | (Return a, w') => (Return (Some a), w')
    | (Raise HTTPError, w') => (Return None, w')
    | (Raise e, w') => (Raise e, w')
    end.

(** [not post_json]: no JSON body, or an object without any key.  An
    object that has a key, whichever it is, is truthy. *)
Definition not_post_json (post_json : option post_body) : bool :=
  match post_json with
  | None => true
  | Some b =>
      match body_percent b, body_user_ids b, body_other_keys b with
      | Absent, Absent, [] => true
      | _, _, _ => false
      end
  end.

(** [not percent] *)
Definition not_percent (percent : option Z) : bool :=
  match percent with
  | None => true
  | Some p => p =? 0
  end.

Definition plural (n : nat) : pyval :=
  PStr (if Nat.eqb n 1 then "quiz has" else "quizzes have").

Definition msg_no_quizzes : message :=
  mk_message "Sorry, there are no quizzes for this course." [].

Definition msg_success (changed students : nat) (percent : Z)
  (unchanged : nat) : message :=
  mk_message
    ("Success! {} {} been updated for {} student(s) to have {}% time. "
     ++ "{} {} no time limit and were left unchanged.")%string
    [PInt (Z.of_nat changed); plural changed; PInt (Z.of_nat students);
     PInt percent; PInt (Z.of_nat unchanged); plural unchanged].

(** [defaultdict(list)] keyed by percent, in the order the keys are first
    inserted. *)
Fixpoint group_append (percent user_id : Z) (m : list (Z * list Z))
  : list (Z * list Z) :=
  match m with
  | [] => [(percent, [user_id])]
  | (p, user_list) :: m' =>
      if p =? percent then (p, user_list ++ [user_id]) :: m'
      else (p, user_list) :: group_append percent user_id m'
  end.

Definition group_by_percent (es : list Extension.t) : list (Z * list Z) :=
  fold_left
    (fun m extension =>
       group_append (Extension.percent extension)
         (Extension.user_id extension) m)
    es [].

(** Modelled from the spec: [course.extensions], the relationship declared
    in [models.py], as the Extension rows that reference the course. *)
Definition course_extensions (d : database) (course : Course.t)
  : list Extension.t :=
  filter (fun e => Extension.course_id e =? Course.canvas_id course)
    (extensions d).

Module views.
Section WithLMS.

Variable L : lms.

Definition extend_quiz (course_id : Z) (quiz : CanvasQuiz.t) (percent : Z)
  (user_id_list : list Z) : M extension_response :=
  let quiz_id := get (CanvasQuiz.id quiz) in
  let time_limit := get (CanvasQuiz.time_limit quiz) in
  if no_time_limit time_limit then
    ret (mk_response true (msg_no_time_limit quiz_id) None)
  else
    (added <- lift (ceil_added_time (match time_limit with
                                     | Some t => t
                                     | None => 0
                                     end) percent) ;;
     let post :=
       mk_post course_id quiz_id
         (map (fun user_id => (user_id, added)) user_id_list) in
     request (PostExtensions post) ;;;
     if post_status L post =? 200 then
       ret (mk_response true (msg_added added quiz_id) (Some added))
     else
       ret (mk_response false
              (msg_post_error quiz_id (post_status L post)) None))%py.

Definition missing_quizzes (course_id : Z) (quickcheck : bool)
  : M (list CanvasQuiz.t) :=
  (quizzes <- utils.get_quizzes L course_id ;;
   missing_loop dict_attr_id quickcheck quizzes [])%py.

(** "add/update course in db" *)
Definition save_course (course_id : Z) (course_name : option string)
  : M unit :=
  (d <- read_db ;;
   let course := Course.mk course_id course_name in
   write_db
     (with_courses d
        (upsert (by_canvas_id course_id) course (fun _ => course)
           (courses d))))%py.

(** One turn of the loop "add/update users in db", with the upsert of the
    user's extension. *)
Definition save_user (course_id percent user_id : Z) : M unit :=
  (d <- read_db ;;
   fetched <- catch_HTTPError (utils.get_user L user_id) ;;
   match fetched with
   | None => ret tt
   | Some canvas_user =>
       let sortable_name :=
         get_default (CanvasUser.sortable_name canvas_user)
           "<MISSING NAME>" in
       let canvas_user_id := get (CanvasUser.id canvas_user) in
       let sis_id := get (CanvasUser.sis_user_id canvas_user) in
       let user := User.mk sortable_name canvas_user_id sis_id in
       let users' :=
         upsert (user_by_canvas_id user_id) user (fun _ => user) (users d) in
       (* create/update extension *)
       let extensions' :=
         upsert (by_course_and_user course_id user_id)
           (Extension.mk course_id user_id percent true)
           (fun extension =>
              Extension.mk (Extension.course_id extension)
                (Extension.user_id extension) percent
                (Extension.active extension))
           (extensions d) in
       write_db (with_users_extensions d users' extensions')
   end)%py.

Definition save_users (course_id percent : Z) (user_ids : list Z) : M unit :=
  for_each (save_user course_id percent) user_ids.

(** "add/update quiz" *)
Definition save_quiz (quiz_id : option Z) (course_id : Z)
  (quiz_title : option string) : M unit :=
  (d <- read_db ;;
   let quiz_obj := Quiz.mk quiz_id course_id quiz_title in
   write_db
     (with_quizzes d
        (upsert (quiz_by_canvas_id quiz_id) quiz_obj (fun _ => quiz_obj)
           (quizzes d))))%py.

(** The loop over the quizzes of the course.  It ends either with the two
    lists it has built or, at the first failed push, with the response that
    [update] returns from inside the loop. *)
Fixpoint extend_quizzes (course_id percent : Z) (user_ids : list Z)
  (l : list CanvasQuiz.t) (quiz_time_list : list (option string * float))
  (unchanged_quiz_time_list : list (option string))
  : M (response + list (option string * float) * list (option string)) :=
  match l with
  | [] => ret (inr (quiz_time_list, unchanged_quiz_time_list))
  | quiz :: l' =>
      (let quiz_id := get (CanvasQuiz.id quiz) in
       let quiz_title :=
         get_default (CanvasQuiz.title quiz) "[UNTITLED QUIZ]" in
       save_quiz quiz_id course_id quiz_title ;;;
       extension_response <- extend_quiz course_id quiz percent user_ids ;;
       if success extension_response then
         match added_time extension_response with
         | Some added =>
             extend_quizzes course_id percent user_ids l'
               (quiz_time_list ++ [(quiz_title, added)])
               unchanged_quiz_time_list
         | None =>
             extend_quizzes course_id percent user_ids l' quiz_time_list
               (unchanged_quiz_time_list ++ [quiz_title])
         end
       else ret (inl (JsonError (message_of extension_response))))%py
  end.

(** The body of the handler [update].  [course_id] is [None] when the
    route gave none; [post_json] is what [request.get_json()] returned.
    The decorator [check_valid_user] runs before this body and is not part
    of it. *)
Definition update (course_id : option Z) (post_json : option post_body)
  : M response :=
  match course_id with
  | None => ret (Text "course_id required")
  | Some course_id =>
      match (if not_post_json post_json then None else post_json) with
      | None => ret (Text "invalid request")
      | Some body =>
          (course_json <- utils.get_course L course_id ;;
           let course_name :=
             get_default (CanvasCourse.name course_json)
               "<UNNAMED COURSE>" in
           save_course course_id course_name ;;;
           let user_ids := get_default (body_user_ids body) [] in
           let percent := get (body_percent body) in
           match (if not_percent percent then None else percent) with
           | None => ret (Text "percent required")
           | Some percent =>
               match user_ids with
               | None => raise TypeError
               | Some user_ids =>
                   save_users course_id percent user_ids ;;;
                   quizzes <- utils.get_quizzes L course_id ;;
                   if (List.length quizzes <? 1)%nat then
                     ret (JsonError msg_no_quizzes)
                   else
                     done <- extend_quizzes course_id percent user_ids
                               quizzes [] [] ;;
                     match done with
                     | inl early => ret early
                     | inr (quiz_time_list, unchanged_quiz_time_list) =>
                         ret (JsonSuccess
                                (msg_success (List.length quiz_time_list)
                                   (List.length user_ids) percent
                                   (List.length unchanged_quiz_time_list))
                                quiz_time_list unchanged_quiz_time_list)
                     end
               end
           end)%py
      end
  end.

(** [refresh] pushes, for each missing quiz, one extension call per
    percent group.  A Python 2 dictionary yields its items in an order of
    its own; the association list yields them in insertion order. *)
Definition refresh (course_id : Z) : M response :=
  (d <- read_db ;;
   match first (by_canvas_id course_id) (courses d) with
   | None => ret (Text "Course not found")
   | Some course =>
       let percent_user_map :=
         group_by_percent (course_extensions d course) in
       quizzes <- missing_quizzes course_id false ;;
       for_each
         (fun quiz =>
            for_each
              (fun '(percent, user_list) =>
                 extend_quiz course_id quiz percent user_list ;;; ret tt)
              percent_user_map)
         quizzes ;;;
       ret NoResponse
   end)%py.

End WithLMS.
End views.

(** ** [get_or_create] ([utils.py])

    [get_or_create(session, model, **kwargs)] is generic in the model.
    [table] reads the table of the model from the database and
    [with_table] puts a table back; [filter_by] is the test that
    [filter_by] with the keyword arguments makes on a row and [model] the
    row that the constructor builds from the same keyword arguments. *)
Section GetOrCreate.

Context {A : Type}.
Variable table : database -> list A.
Variable with_table : database -> list A -> database.
Variable filter_by : A -> bool.
Variable model : A.

Definition get_or_create : M (A * bool) :=
  (d <- read_db ;;
   match first filter_by (table d) with
   | Some instance => ret (instance, false)
   | None =>
       write_db (with_table d (table d ++ [model])) ;;;
       ret (model, true)
   end)%py.

End GetOrCreate.

(** ** More of [views.py]: the decorator and the student list *)

(** The keys of the Flask session that the handlers read. *)
Record session : Type := mk_session {
  lti_logged_in : option bool;
  canvas_user_id : option Z;
  is_admin : option bool
}.

(** The body of the enrollments response. *)
Inductive enrollments_body : Type :=
| EnrollmentErrors
| Enrollments (l : list Z).

(** What the decorated function returns: the error page with its message,
    or what the handler returned. *)
Inductive page (A : Type) : Type :=
| ErrorPage (message : string)
| Handled (a : A).

Arguments ErrorPage {A} message.
Arguments Handled {A} a.

(** [render_template('user_list.html', users=..., current_page_number=...,
    max_pages=...)], or the plain text of the early return. *)
Inductive filter_response : Type :=
| FilterText (s : string)
| UserListPage (users : list CanvasUser.t) (current_page_number : Z)
    (max_pages : Z).

(** The query string of a [filter] request. *)
Record filter_args : Type := mk_args {
  arg_query : option string;
  arg_page : option string;
  arg_per_page : option string
}.

(** The fields of the launch form that [lti_tool] reads. *)
Record launch_form : Type := mk_form {
  custom_canvas_course_id : option Z;
  custom_canvas_user_id : option Z;
  ext_roles : option string;
  oauth_consumer_key : option string
}.

Inductive launch_response : Type :=
| LaunchError (message : string)
| Assessment
| RedirectToQuiz (course_id : option Z).

(** [pattern in s] on strings *)
Fixpoint contains (pattern s : string) : bool :=
  String.prefix pattern s
  || match s with
     | EmptyString => false
     | String _ s' => contains pattern s'
     end.

Definition truthy_flag (o : option bool) : bool :=
  match o with
  | Some b => b
  | None => false
  end.

Definition truthy_id (o : option Z) : bool :=
  match o with
  | Some z => negb (z =? 0)
  | None => false
  end.

Definition id_or_zero (o : option Z) : Z :=
  match o with
  | Some z => z
  | None => 0
  end.

Definition was_nonce_used_in_last_x_minutes (nonce : string) (minutes : Z)
  : bool :=
  false.

Module handlers.

Section CheckValidUser.

(** The answer of the LMS to
    [GET courses/<course_id>/enrollments] for a user and the three staff
    enrollment types. *)
Variable enrollments_of : Z -> Z -> enrollments_body.

Context {A : Type}.

(** [check_valid_user(f)] applied to a request: the session, the
    [course_id] keyword argument of the route ([Absent] when the route has
    none, [Null] for [None]) and the handler [f] with its arguments.  The
    result carries the enrollment requests made, as (course, user) pairs,
    beside the outcome and the world. *)
Definition check_valid_user (s : session) (course_id : field Z) (f : M A)
  : world -> list (Z * Z) * (result (page A) * world) :=
  fun w =>
    let run_f :=
      match f w with
      | (Return a, w') => (Return (Handled a), w')
      | (Raise e, w') => (Raise e, w')
      end in
    if negb (truthy_flag (lti_logged_in s))
       || negb (truthy_id (canvas_user_id s)) then
      ([], (Return (ErrorPage "Not allowed!"), w))
    else
      match course_id with
      | Absent => ([], (Return (ErrorPage "No course_id provided."), w))
      | Null => ([], (Raise TypeError, w))
      | Val course_id =>
          match is_admin s with
          | None => ([], (Raise KeyError, w))
          | Some true => ([], run_f)
          | Some false =>
              let asked := [(course_id, id_or_zero (canvas_user_id s))] in
              match enrollments_of course_id
                      (id_or_zero (canvas_user_id s)) with
              | EnrollmentErrors | Enrollments [] =>
                  (asked,
                   (Return
                      (ErrorPage
                         ("You are not enrolled in this course as a "
                          ++ "Teacher, TA, or Designer.")%string),
                    w))
              | Enrollments (_ :: _) => (asked, run_f)
              end
          end
      end.

End CheckValidUser.

Section Filter.

Variable L : lms.

(** Standard-library functions and the configuration, taken as they are:
    the page number of a URL (see [search_users]), [str.lower], [int] on
    a string of the query, and [config.DEFAULT_PER_PAGE]. *)
Variable page_of_url : string -> result Z.
Variable lower : string -> string.
Variable py_int : string -> result Z.
Variable DEFAULT_PER_PAGE : Z.

(** [int(request.args.get(name, default))] *)
Definition int_arg (a : option string) (default : Z) : result Z :=
  match a with
  | Some s => py_int s
  | None => Return default
  end.

Definition filter (course_id : option Z) (args : filter_args)
  : M filter_response :=
  match course_id with
  | None => ret (FilterText "course_id required")
  | Some course_id =>
      (let query :=
         lower (match arg_query args with
                | Some q => q
                | None => ""
                end) in
       page <- lift (int_arg (arg_page args) 1) ;;
       per_page <- lift (int_arg (arg_per_page args) DEFAULT_PER_PAGE) ;;
       found <- utils.search_users L page_of_url course_id per_page page
                  query ;;
       let (user_list, max_pages) := found in
       match user_list with
       | [] => ret (UserListPage [] page 1)
       | _ :: _ =>
           if max_pages <? 1 then ret (UserListPage [] page 1)
           else ret (UserListPage user_list page max_pages)
       end)%py
  end.

End Filter.

Section LtiTool.

(** [config.LTI_KEY] and [config.LTI_SECRET], the one entry of
    [oauth_creds]. *)
Variable LTI_KEY : string.
Variable LTI_SECRET : string.

(** What the OAuth library and the clock answer for the request:
    [tool_provider.is_valid_request(request)],
    [time() - int(tool_provider.oauth_timestamp) > 60*60],
    [tool_provider.is_outcome_service()] and
    [tool_provider.oauth_nonce]. *)
Variable is_valid_request : bool.
Variable too_old : bool.
Variable is_outcome_service : bool.
Variable oauth_nonce : string.

(** [lti_tool] on the launch form and the session: its response and the
    session it leaves.  ([launch_params], which it also stores, is not a
    key of [session].) *)
Definition lti_tool (form : launch_form) (s : session)
  : result launch_response * session :=
  let course_id := custom_canvas_course_id form in
  let user_id := custom_canvas_user_id form in
  match ext_roles form with
  | None => (Raise KeyError, s)
  | Some roles =>
      if negb (contains "Administrator" roles)
         && negb (contains "Instructor" roles) then
        (Return (LaunchError "Must be an Administrator or Instructor"), s)
      else
        let s1 :=
          mk_session (lti_logged_in s) (canvas_user_id s)
            (Some (contains "Administrator" roles)) in
        match oauth_consumer_key form with
        | None | Some "" => (Return (LaunchError "No consumer key"), s1)
        | Some key =>
            if String.eqb key LTI_KEY
               && negb (String.eqb LTI_SECRET "") then
              if negb is_valid_request then
                (Return (LaunchError "The OAuth signature was invalid"), s1)
              else if too_old then
                (Return (LaunchError "Your request is too old."), s1)
              else if was_nonce_used_in_last_x_minutes oauth_nonce 60 then
                (Return (LaunchError "Why are you reusing the nonce?"), s1)
              else
                let s2 :=
                  mk_session (Some true) user_id (is_admin s1) in
                (Return (if is_outcome_service then Assessment
                         else RedirectToQuiz course_id),
                 s2)
            else
              (Return (LaunchError "Consumer key wasn't recognized"), s1)
        end
  end.

End LtiTool.

End handlers.

(** ** [reports.py]: the tallies

    The script runs the same loop over the courses and over the users: it
    counts the extensions of each item, skips the items without any, counts
    how many items have each number of extensions and keeps the item with
    the most.  [num_extensions] is the count for an item.  What the script
    prints on the way (for a course, its quizzes and a line per extension
    with the name of its user) is left out. *)
Module reports.

Section Tally.

Context {A : Type}.
Variable num_extensions : A -> nat.

(** [freqs[k] += 1] on a [defaultdict(int)] *)
Fixpoint incr (k : nat) (freqs : list (nat * nat)) : list (nat * nat) :=
  match freqs with
  | [] => [(k, 1%nat)]
  | (k', v) :: freqs' =>
      if Nat.eqb k' k then (k', S v) :: freqs'
      else (k', v) :: incr k freqs'
  end.

(** One turn of the loop; [largest] is the dictionary
    [{'size': ..., 'course': ...}]. *)
Definition turn (state : list (nat * nat) * (nat * option A)) (item : A)
  : list (nat * nat) * (nat * option A) :=
  let n := num_extensions item in
  if Nat.eqb n 0 then state
  else
    (incr n (fst state),
     if Nat.ltb (fst (snd state)) n then (n, Some item) else snd state).

Definition tally (items : list A)
  : list (nat * nat) * (nat * option A) :=
  fold_left turn items ([], (0%nat, None)).

(** The line "... with ... extensions" of the summary reads an attribute of
    the largest item. *)
Definition largest_line (name : A -> option string)
  (largest : nat * option A) : result (option string * nat) :=
  match snd largest with
  | Some item => Return (name item, fst largest)
  | None => Raise AttributeError
  end.

End Tally.

(** [course.extensions.count()], or the count of the extensions that are
    not at 100 percent when [INCLUDE_100] is off. *)
Definition course_num_extensions (INCLUDE_100 : bool) (d : database)
  (course : Course.t) : nat :=
  List.length
    (if INCLUDE_100 then course_extensions d course
     else List.filter (fun e => negb (Extension.percent e =? 100))
            (course_extensions d course)).

(** The course part of the report.  [in_terms] is the test
    [c.canvas_term_id in TERMS]; the column and the list of terms ([TERMS]
    of [report_config]) are not in the sources. *)
Definition course_report (in_terms : Course.t -> bool) (INCLUDE_100 : bool)
  (d : database) : list (nat * nat) * (nat * option Course.t) :=
  tally (course_num_extensions INCLUDE_100 d)
    (List.filter in_terms (courses d)).

End reports.

(** ** Specification vocabulary *)

(** The added time the documentation promises: the ceiling of the exact
    value [time_limit * (percent - 100) / 100], as a double. *)
Definition exact_added_time (time_limit percent : Z) : float :=
  Z2F (ceil_div (time_limit * (percent - 100)) 100).

(** The quizzes the LMS lists for a course: the pages up to the first
    error object. *)
Fixpoint page_quizzes (p : quiz_page) : list CanvasQuiz.t :=
  match p with
  | LastPage ErrorObject | Page ErrorObject _ => []
  | LastPage (QuizList l) => l
  | Page (QuizList l) next => l ++ page_quizzes next
  end.

(** The GETs that listing makes, numbered from [n]. *)
Fixpoint page_calls (course_id : Z) (n : nat) (p : quiz_page)
  : list lms_call :=
  match p with
  | LastPage _ | Page ErrorObject _ => [GetQuizzes course_id n]
  | Page (QuizList _) next =>
      GetQuizzes course_id n :: page_calls course_id (S n) next
  end.

(** A quiz of the LMS without a local row of the same [canvas_id]. *)
Definition is_missing (d : database) (q : CanvasQuiz.t) : bool :=
  negb (existsb (quiz_by_canvas_id (get (CanvasQuiz.id q))) (quizzes d)).

Definition ext_key (e : Extension.t) : Z * Z :=
  (Extension.course_id e, Extension.user_id e).

(** At most one Extension row per (course, user) pair. *)
Definition unique_extensions (d : database) : Prop :=
  NoDup (map ext_key (extensions d)).

Definition is_post (c : lms_call) : bool :=
  match c with
  | PostExtensions _ => true
  | _ => false
  end.

(** The POST that [extend_quiz] sends for a quiz, once the added time is
    known. *)
Definition post_for (course_id : Z) (quiz : CanvasQuiz.t) (added : float)
  (user_id_list : list Z) : extension_post :=
  mk_post course_id (get (CanvasQuiz.id quiz))
    (map (fun user_id => (user_id, added)) user_id_list).

(** A computation that writes nothing to the database. *)
Definition keeps_db {A : Type} (m : M A) : Prop :=
  forall w, db (snd (m w)) = db w.

(** An invariant of the database that a computation maintains. *)
Definition preserves {A : Type} (P : database -> Prop) (m : M A) : Prop :=
  forall w, P (db w) -> P (db (snd (m w))).

(** ** Scenarios, after the repository's tests *)

Definition empty_db : database := mk_db [] [] [] [].

Definition no_course : Z -> option CanvasCourse.t := fun _ => None.
Definition no_user : Z -> option CanvasUser.t := fun _ => None.
Definition no_search : Z -> Z -> Z -> string -> search_response :=
  fun _ _ _ _ => mk_search SearchError None.

Definition a_quiz (id : Z) (title : string) (time_limit : field Z)
  : CanvasQuiz.t :=
  CanvasQuiz.mk (Val id) (Val title) time_limit.

Definition example_course : Z -> option CanvasCourse.t :=
  fun c => if c =? 1 then Some (CanvasCourse.mk (Val "Example Course"))
           else None.

(** A quiz of 100 minutes and a student who is granted 107% time. *)
Definition rounding_lms : lms :=
  mk_lms no_course no_user
    (fun _ => LastPage (QuizList [a_quiz 2 "A Quiz" (Val 100)]))
    (fun _ => 200) no_search.

(** [test_refresh_inactive_user]: course 1 with two timed quizzes, and one
    extension whose user the LMS no longer knows. *)
Definition inactive_user_lms : lms :=
  mk_lms example_course no_user
    (fun _ => LastPage (QuizList [a_quiz 1 "Quiz 1" (Val 10);
                                  a_quiz 2 "Quiz 2" (Val 30)]))
    (fun _ => 200) no_search.

Definition inactive_user_db : database :=
  mk_db [Course.mk 1 (Some "Example Course")]
    [User.mk (Some "Missing User") (Some 9001) None]
    []
    [Extension.mk 1 9001 150 true].

(** [test_update_no_percent] *)
Definition no_percent_body : post_body :=
  mk_body Absent (Val [11; 12]) [].

(** A body with neither [percent] nor [user_ids]: [{"other": 1}]. *)
Definition other_key_body : post_body := mk_body Absent Absent ["other"].

Definition no_percent_lms : lms :=
  mk_lms example_course no_user (fun _ => LastPage (QuizList []))
    (fun _ => 200) no_search.

(** [test_missing_quizzes]: three quizzes in the LMS, the second one known
    locally. *)
Definition three_quizzes_lms : lms :=
  mk_lms example_course no_user
    (fun _ => LastPage (QuizList [a_quiz 1 "Quiz 1" Absent;
                                  a_quiz 2 "Quiz 2" Absent;
                                  a_quiz 3 "Quiz 3" Absent]))
    (fun _ => 200) no_search.

Definition quiz_2_db : database :=
  mk_db [] [] [Quiz.mk (Some 2) 1 (Some "Quiz 2")] [].

(** [test_search_students_no_last_link]: one user, no [Link] header. *)
Definition no_last_link_lms : lms :=
  mk_lms no_course no_user (fun _ => LastPage ErrorObject) (fun _ => 200)
    (fun _ _ _ _ =>
       mk_search
         (UserList [CanvasUser.mk (Val 1) (Val "John Smith") Absent]) None).

(** [test_update_extension_error]: users 11 and 13 exist, user 12 does not;
    quiz 5 is pushed, the push for quiz 4 is refused with a 404. *)
Definition extension_error_users : Z -> option CanvasUser.t :=
  fun u =>
    if u =? 11 then Some (CanvasUser.mk (Val 11) (Val "Joe Schmoe") Absent)
    else if u =? 13 then
      Some (CanvasUser.mk (Val 13) (Val "Jack Smith") Absent)
    else None.

Definition extension_error_quizzes : list CanvasQuiz.t :=
  [a_quiz 5 "Quiz 5" (Val 30);
   CanvasQuiz.mk (Val 7) (Val "Quiz 7") Absent;
   a_quiz 4 "Quiz 4" (Val 10);
   a_quiz 6 "Quiz 6" Null].

Definition extension_error_lms : lms :=
  mk_lms example_course extension_error_users
    (fun _ => LastPage (QuizList extension_error_quizzes))
    (fun p => match post_quiz p with
              | Some 4 => 404
              | _ => 200
              end)
    no_search.

Definition extension_error_db : database :=
  mk_db [Course.mk 1 (Some "Example Course")]
    [User.mk (Some "Joe Schmoe") (Some 11) None;
     User.mk (Some "Jack Smith") (Some 13) None]
    []
    [Extension.mk 1 11 100 true; Extension.mk 1 13 100 true].

Definition extension_error_body : post_body :=
  mk_body (Val 200) (Val [11; 12; 13]) [].

(** ** Vocabulary for the further properties *)

(** The responses with the bodies [bodies], each linked to the next by its
    [next] link, followed by the response [last]. *)
Fixpoint chain (bodies : list page_body) (last : quiz_page) : quiz_page :=
  match bodies with
  | [] => last
  | body :: bodies' => Page body (chain bodies' last)
  end.

(** [percent_user_map.get(percent)] *)
Fixpoint lookup_percent (percent : Z) (m : list (Z * list Z))
  : option (list Z) :=
  match m with
  | [] => None
  | (p, user_list) :: m' =>
      if p =? percent then Some user_list else lookup_percent percent m'
  end.

(** A quiz with a time limit of at least one minute. *)
Definition timed (quiz : CanvasQuiz.t) : bool :=
  negb (no_time_limit (get (CanvasQuiz.time_limit quiz))).

(** The title [update] reports a quiz under. *)
Definition title_of (quiz : CanvasQuiz.t) : option string :=
  get_default (CanvasQuiz.title quiz) "[UNTITLED QUIZ]".

(** A computation that only adds calls to the log, each of them in [Q]. *)
Definition adds_calls {A : Type} (Q : lms_call -> Prop) (m : M A) : Prop :=
  forall w,
    exists more, calls (snd (m w)) = calls w ++ more /\ Forall Q more.

(** What [update] sends: no call but extension POSTs for the course, each
    listing the user ids [user_ids] in order. *)
Definition update_call (course_id : Z) (user_ids : list Z) (c : lms_call)
  : Prop :=
  match c with
  | PostExtensions p =>
      post_course p = course_id /\ map fst (quiz_extensions p) = user_ids
  | _ => True
  end.

(** The entry of [quiz_list] a timed quiz is reported with. *)
Definition reported (L : lms) (course_id percent : Z) (user_ids : list Z)
  (quiz : CanvasQuiz.t) (entry : option string * float) : Prop :=
  fst entry = title_of quiz
  /\ exists t,
       CanvasQuiz.time_limit quiz = Val t
       /\ 1 <= t
       /\ ceil_added_time t percent = Return (snd entry)
       /\ post_status L (post_for course_id quiz (snd entry) user_ids) = 200.


(** The LMS answers a user fetch with the user that was asked for. *)
Definition coherent_users (L : lms) : Prop :=
  forall user_id canvas_user,
    user_of L user_id = Some canvas_user ->
    get (CanvasUser.id canvas_user) = Some user_id.

(** [test_update]: as [test_update_extension_error], with every push
    accepted. *)
Definition test_update_lms : lms :=
  mk_lms example_course extension_error_users
    (fun _ => LastPage (QuizList [a_quiz 4 "Quiz 4" (Val 10);
                                  a_quiz 5 "Quiz 5" (Val 30);
                                  a_quiz 6 "Quiz 6" Null;
                                  CanvasQuiz.mk (Val 7) (Val "Quiz 7") Absent]))
    (fun _ => 200) no_search.

(** Two pages of quizzes, then an error object whose [next] link leads to a
    page that is never asked for. *)
Definition broken_pages_lms : lms :=
  mk_lms example_course no_user
    (fun _ =>
       chain [QuizList [a_quiz 1 "Quiz 1" Absent];
              QuizList [a_quiz 2 "Quiz 2" Absent; a_quiz 3 "Quiz 3" Absent]]
         (Page ErrorObject (LastPage (QuizList [a_quiz 4 "Quiz 4" Absent]))))
    (fun _ => 200) no_search.

(** The User row [update] writes for a user of the LMS. *)
Definition user_row (canvas_user : CanvasUser.t) : User.t :=
  User.mk
    (get_default (CanvasUser.sortable_name canvas_user) "<MISSING NAME>")
    (get (CanvasUser.id canvas_user))
    (get (CanvasUser.sis_user_id canvas_user)).

(** The rows of a user are up to date: the lookups of [update] find the
    User row the LMS data gives and an Extension row with the percent. *)
Definition user_saved (L : lms) (course_id percent user_id : Z)
  (d : database) : Prop :=
  match user_of L user_id with
  | None => True
  | Some canvas_user =>
      first (user_by_canvas_id user_id) (users d)
      = Some (user_row canvas_user)
      /\ exists e,
           first (by_course_and_user course_id user_id) (extensions d)
           = Some e
           /\ Extension.percent e = percent
  end.


(** [test_search_students]: two students, and a [last] link. *)
Definition two_students : list CanvasUser.t :=
  [CanvasUser.mk (Val 1) (Val "John Smith") Absent;
   CanvasUser.mk (Val 2) (Val "Jane Doe") Absent].

Definition search_lms : lms :=
  mk_lms no_course no_user (fun _ => LastPage ErrorObject) (fun _ => 200)
    (fun _ _ _ _ =>
       mk_search (UserList two_students)
         (Some "http://example.com/api/v1/courses/1/search_users?page=99")).

(** [freqs.get(k)] *)
Fixpoint lookup_freq (k : nat) (freqs : list (nat * nat)) : option nat :=
  match freqs with
  | [] => None
  | (k', v) :: freqs' =>
      if Nat.eqb k' k then Some v else lookup_freq k freqs'
  end.

(** The number of items with [k] extensions. *)
Definition count_with {A : Type} (num_extensions : A -> nat) (k : nat)
  (items : list A) : nat :=
  List.length (List.filter (fun x => Nat.eqb (num_extensions x) k) items).

(** What the loop of the report holds about the largest item after the
    items [l]: the size is the largest count, there is no item exactly when
    that is zero, and the item kept is the first one with that count. *)
Definition largest_of {A : Type} (num_extensions : A -> nat) (l : list A)
  (largest : nat * option A) : Prop :=
  fst largest = list_max (map num_extensions l)
  /\ (snd largest = None <-> fst largest = 0%nat)
  /\ forall item,
       snd largest = Some item ->
       exists before after,
         l = before ++ item :: after
         /\ num_extensions item = fst largest
         /\ Forall (fun x => (num_extensions x < fst largest)%nat) before.

(** What it holds about the frequencies: a key per count that occurs,
    except zero, with the number of items of that count. *)
Definition frequencies_of {A : Type} (num_extensions : A -> nat)
  (l : list A) (freqs : list (nat * nat)) : Prop :=
  NoDup (map fst freqs)
  /\ forall k,
       lookup_freq k freqs
       = if Nat.eqb k 0 || Nat.eqb (count_with num_extensions k l) 0
         then None
         else Some (count_with num_extensions k l).

(** The launch that [lti_tool] accepts: a staff role, the configured key
    with a secret, a valid signature, a fresh timestamp. *)
Definition launch_accepted (LTI_KEY LTI_SECRET : string)
  (is_valid_request too_old : bool) (form : launch_form) : Prop :=
  (exists roles,
     ext_roles form = Some roles
     /\ (contains "Administrator" roles = true
         \/ contains "Instructor" roles = true))
  /\ oauth_consumer_key form = Some LTI_KEY
  /\ LTI_KEY <> ""
  /\ LTI_SECRET <> ""
  /\ is_valid_request = true
  /\ too_old = false.

(** A launch form that claims the administrator role and carries no
    consumer key. *)
Definition unsigned_admin_form : launch_form :=
  mk_form (Some 1) (Some 42)
    (Some "urn:lti:instrole:ims/lis/Administrator") None.

(** ** Running the monad *)

Lemma bind_Return {A B : Type} (m : M A) (k : A -> M B) (w w' : world)
  (a : A) :
  m w = (Return a, w') -> bind m k w = k a w'.
Proof. intros H. unfold bind. rewrite H. reflexivity. Qed.

Lemma bind_Raise {A B : Type} (m : M A) (k : A -> M B) (w w' : world)
  (e : exn) :
  m w = (Raise e, w') -> bind m k w = (Raise e, w').
Proof. intros H. unfold bind. rewrite H. reflexivity. Qed.

(** The two copies of [extend_quiz] are the same function. *)
Lemma extend_quiz_copies (L : lms) :
  views.extend_quiz L = utils.extend_quiz L.
Proof. reflexivity. Qed.

(** ** Extension arithmetic *)

Example added_time_10_200 : ceil_added_time 10 200 = Return (Z2F 10).
Proof. vm_compute. reflexivity. Qed.

Example added_time_30_200 : ceil_added_time 30 200 = Return (Z2F 30).
Proof. vm_compute. reflexivity. Qed.

Example added_time_30_150 : ceil_added_time 30 150 = Return (Z2F 15).
Proof. vm_compute. reflexivity. Qed.

Example added_time_25_130 :
  ceil_added_time 25 130 = Return (Z2F 8) /\ exact_added_time 25 130 = Z2F 8.
Proof. vm_compute. split; reflexivity. Qed.

(** On the percents whose surplus is a multiple of a quarter the double
    arithmetic is exact, for every time limit up to eight hours. *)
Example added_time_exact_on_quarters :
  forallb
    (fun t =>
       forallb
         (fun p =>
            match ceil_added_time t p with
            | Return x => SFeqb x (exact_added_time t p)
            | Raise _ => false
            end)
         [100; 125; 150; 175; 200; 250; 300; 400])
    (map Z.of_nat (seq 1 480))
  = true.
Proof. vm_compute. reflexivity. Qed.

(** C1: the added time of [extend_quiz] is promised to be
    [ceil(time_limit * (percent - 100) / 100)].  The two examples of the
    specification hold, yet for a quiz of 100 minutes at 107 percent the
    exact value is 7 and [extend_quiz] posts and returns 8: the quotient
    [7.0 / 100] is not a double and its product with 100 rounds above 7. *)
Theorem extend_quiz_added_time_rounds_up :
  exact_added_time 100 107 = Z2F 7
  /\ ceil_added_time 100 107 = Return (Z2F 8)
  /\ utils.extend_quiz rounding_lms 1 (a_quiz 2 "A Quiz" (Val 100)) 107 [1]
       (mk_world empty_db [])
     = (Return (mk_response true (msg_added (Z2F 8) (Some 2))
                  (Some (Z2F 8))),
        mk_world empty_db
          [PostExtensions (mk_post 1 (Some 2) [(1, Z2F 8)])])
  /\ ceil_added_time 10 200 = Return (exact_added_time 10 200)
  /\ ceil_added_time 30 200 = Return (exact_added_time 30 200).
Proof. vm_compute. repeat split; reflexivity. Qed.

(** A quiz with a time limit that is pushed successfully reports the time
    it added, which sets it apart from the quizzes without a limit. *)
Lemma extend_quiz_real_delta (L : lms) (course_id : Z) (quiz : CanvasQuiz.t)
  (percent t : Z) (user_id_list : list Z) (w w' : world)
  (r : extension_response) :
  CanvasQuiz.time_limit quiz = Val t ->
  1 <= t ->
  utils.extend_quiz L course_id quiz percent user_id_list w = (Return r, w') ->
  success r = true ->
  exists added,
    ceil_added_time t percent = Return added
    /\ added_time r = Some added
    /\ calls w' =
       calls w ++ [PostExtensions (post_for course_id quiz added user_id_list)].
Proof.
  intros Ht Hle Hrun Hok.
  unfold utils.extend_quiz in Hrun. rewrite Ht in Hrun. simpl in Hrun.
  assert (Hlt : (t <? 1) = false) by (apply Z.ltb_ge; lia).
  rewrite Hlt in Hrun.
  unfold bind, lift in Hrun.
  destruct (ceil_added_time t percent) as [added | e]; [| discriminate].
  simpl in Hrun.
  destruct (post_status L _ =? 200); inversion Hrun; subst; simpl in *.
  - exists added. repeat split.
  - discriminate.
Qed.

(** C2: for a quiz whose [time_limit] is absent, [None] or below 1,
    [extend_quiz] (either copy) returns success with [added_time = None]
    whatever the course, percent and users are, and leaves the log of LMS
    calls as it found it: no extension POST is sent. *)
Theorem extend_quiz_no_time_limit (L : lms) (course_id : Z)
  (quiz : CanvasQuiz.t) (percent : Z) (user_id_list : list Z) (w : world) :
  CanvasQuiz.time_limit quiz = Absent
  \/ CanvasQuiz.time_limit quiz = Null
  \/ (exists t, CanvasQuiz.time_limit quiz = Val t /\ t < 1) ->
  let r :=
    mk_response true (msg_no_time_limit (get (CanvasQuiz.id quiz))) None in
  success r = true
  /\ added_time r = None
  /\ utils.extend_quiz L course_id quiz percent user_id_list w = (Return r, w)
  /\ views.extend_quiz L course_id quiz percent user_id_list w = (Return r, w).
Proof.
  intros H r.
  assert (Hno : no_time_limit (get (CanvasQuiz.time_limit quiz)) = true).
  { destruct H as [H | [H | [t [H Ht]]]]; rewrite H; simpl; trivial.
    apply Z.ltb_lt. exact Ht. }
  repeat split.
  - unfold utils.extend_quiz. rewrite Hno. reflexivity.
  - unfold views.extend_quiz. rewrite Hno. reflexivity.
Qed.

Lemma extend_quiz_no_time_limit_witness :
  utils.extend_quiz extension_error_lms 1
    (CanvasQuiz.mk (Val 7) (Val "Quiz 7") Absent) 200 [11; 12; 13]
    (mk_world extension_error_db [])
  = (Return (mk_response true (msg_no_time_limit (Some 7)) None),
     mk_world extension_error_db []).
Proof.
  apply (extend_quiz_no_time_limit extension_error_lms 1
           (CanvasQuiz.mk (Val 7) (Val "Quiz 7") Absent) 200 [11; 12; 13]
           (mk_world extension_error_db [])).
  left. reflexivity.
Defined.

(** ** Listing quizzes *)

Lemma get_quizzes_loop_run (course_id : Z) (p : quiz_page) :
  forall (n : nat) (acc : list CanvasQuiz.t) (w : world),
    utils.get_quizzes_loop course_id n p acc w
    = (Return (acc ++ page_quizzes p),
       mk_world (db w) (calls w ++ page_calls course_id n p)).
Proof.
  induction p as [body | body next IH]; intros n acc w.
  - destruct body; simpl; unfold bind, request, ret; simpl;
      rewrite ?app_nil_r; reflexivity.
  - destruct body; simpl; unfold bind, request, ret; simpl.
    + rewrite app_nil_r. reflexivity.
    + fold (utils.get_quizzes_loop course_id (S n) next (acc ++ l)).
      rewrite IH. simpl. rewrite <- !app_assoc. reflexivity.
Qed.

Lemma get_quizzes_run (L : lms) (course_id : Z) (w : world) :
  utils.get_quizzes L course_id w
  = (Return (page_quizzes (quizzes_of L course_id)),
     mk_world (db w)
       (calls w ++ page_calls course_id 0 (quizzes_of L course_id))).
Proof. unfold utils.get_quizzes. apply get_quizzes_loop_run. Qed.

(** ** Missing quizzes *)

Lemma option_Z_eqb_eq (a b : option Z) : option_Z_eqb a b = true <-> a = b.
Proof.
  destruct a as [x |], b as [y |]; simpl; split; intros H;
    try discriminate; try reflexivity.
  - apply Z.eqb_eq in H. congruence.
  - inversion H. apply Z.eqb_refl.
Qed.

Lemma first_existsb {A : Type} (p : A -> bool) (l : list A) :
  match first p l with
  | Some _ => true
  | None => false
  end = existsb p l.
Proof.
  unfold first. induction l as [| x l IH]; simpl; [reflexivity |].
  destruct (p x); simpl; [reflexivity | exact IH].
Qed.

Lemma is_missing_iff (d : database) (q : CanvasQuiz.t) :
  is_missing d q = true
  <-> ~ exists row,
        In row (quizzes d) /\ Quiz.canvas_id row = get (CanvasQuiz.id q).
Proof.
  unfold is_missing. rewrite negb_true_iff. split.
  - intros H [row [Hin Heq]].
    assert (Hex : existsb (quiz_by_canvas_id (get (CanvasQuiz.id q)))
                    (quizzes d) = true).
    { apply existsb_exists. exists row. split; [exact Hin |].
      apply option_Z_eqb_eq. exact Heq. }
    congruence.
  - intros H.
    destruct (existsb _ (quizzes d)) eqn:E; [| reflexivity].
    exfalso. apply H. apply existsb_exists in E.
    destruct E as [row [Hin Heq]]. exists row. split; [exact Hin |].
    apply option_Z_eqb_eq. exact Heq.
Qed.

Lemma missing_loop_step (quickcheck : bool) (q : CanvasQuiz.t)
  (l acc : list CanvasQuiz.t) (w : world) :
  missing_loop dict_get_id quickcheck (q :: l) acc w
  = if is_missing (db w) q then
      if quickcheck then (Return (acc ++ [q]), w)
      else missing_loop dict_get_id quickcheck l (acc ++ [q]) w
    else missing_loop dict_get_id quickcheck l acc w.
Proof.
  simpl. unfold bind, lift, read_db, dict_get_id, is_missing. simpl.
  rewrite <- first_existsb.
  destruct (first _ (quizzes (db w))); simpl; [reflexivity |].
  destruct quickcheck; reflexivity.
Qed.

Lemma missing_loop_all (l : list CanvasQuiz.t) :
  forall (acc : list CanvasQuiz.t) (w : world),
    missing_loop dict_get_id false l acc w
    = (Return (acc ++ filter (is_missing (db w)) l), w).
Proof.
  induction l as [| q l IH]; intros acc w.
  - simpl. rewrite app_nil_r. reflexivity.
  - rewrite missing_loop_step. simpl filter.
    destruct (is_missing (db w) q); rewrite IH; [| reflexivity].
    rewrite <- app_assoc. reflexivity.
Qed.

Lemma missing_loop_quick (l : list CanvasQuiz.t) :
  forall (acc : list CanvasQuiz.t) (w : world),
    missing_loop dict_get_id true l acc w
    = (Return (acc ++ firstn 1 (filter (is_missing (db w)) l)), w).
Proof.
  induction l as [| q l IH]; intros acc w.
  - simpl. rewrite app_nil_r. reflexivity.
  - rewrite missing_loop_step. simpl filter.
    destruct (is_missing (db w) q); [reflexivity | apply IH].
Qed.

Lemma utils_missing_quizzes_run (L : lms) (course_id : Z)
  (quickcheck : bool) (w : world) :
  let missing :=
    filter (is_missing (db w)) (page_quizzes (quizzes_of L course_id)) in
  utils.missing_quizzes L course_id quickcheck w
  = (Return (if quickcheck then firstn 1 missing else missing),
     mk_world (db w)
       (calls w ++ page_calls course_id 0 (quizzes_of L course_id))).
Proof.
  intros missing. unfold utils.missing_quizzes.
  rewrite (bind_Return _ _ _ _ _ (get_quizzes_run L course_id w)).
  destruct quickcheck.
  - rewrite missing_loop_quick. reflexivity.
  - rewrite missing_loop_all. reflexivity.
Qed.

(** C4: [utils.missing_quizzes] returns the quizzes of the LMS list that
    have no local Quiz row with the same [canvas_id], in the order of the
    LMS list; with [quickcheck] it returns the first of them only, so at
    most one entry.  The Quiz table is left as it was. *)
Theorem missing_quizzes_spec (L : lms) (course_id : Z) (w : world) :
  let lms_list := page_quizzes (quizzes_of L course_id) in
  let missing := filter (is_missing (db w)) lms_list in
  (forall q,
     In q missing
     <-> In q lms_list
         /\ ~ exists row,
               In row (quizzes (db w))
               /\ Quiz.canvas_id row = get (CanvasQuiz.id q))
  /\ fst (utils.missing_quizzes L course_id false w) = Return missing
  /\ fst (utils.missing_quizzes L course_id true w)
     = Return (firstn 1 missing)
  /\ (List.length (firstn 1 missing) <= 1)%nat
  /\ (forall quickcheck,
        db (snd (utils.missing_quizzes L course_id quickcheck w)) = db w).
Proof.
  intros lms_list missing. repeat split.
  - apply filter_In in H. tauto.
  - apply filter_In in H. destruct H as [_ H].
    apply is_missing_iff. exact H.
  - intros [Hin Hno]. apply filter_In. split; [exact Hin |].
    apply is_missing_iff. exact Hno.
  - rewrite utils_missing_quizzes_run. reflexivity.
  - rewrite utils_missing_quizzes_run. reflexivity.
  - apply firstn_le_length.
  - intros quickcheck. rewrite utils_missing_quizzes_run. reflexivity.
Qed.

Example test_missing_quizzes :
  fst (utils.missing_quizzes three_quizzes_lms 1 false
         (mk_world quiz_2_db []))
  = Return [a_quiz 1 "Quiz 1" Absent; a_quiz 3 "Quiz 3" Absent].
Proof. reflexivity. Qed.

Example test_missing_quizzes_quickcheck :
  fst (utils.missing_quizzes three_quizzes_lms 1 true
         (mk_world quiz_2_db []))
  = Return [a_quiz 1 "Quiz 1" Absent].
Proof. reflexivity. Qed.

(** [views.missing_quizzes] reads [canvas_quiz.id] on the first quiz of the
    list and raises there; it returns only when the LMS lists no quiz. *)
Lemma views_missing_quizzes_run (L : lms) (course_id : Z)
  (quickcheck : bool) (w : world) :
  views.missing_quizzes L course_id quickcheck w
  = (match page_quizzes (quizzes_of L course_id) with
     | [] => Return []
     | _ :: _ => Raise AttributeError
     end,
     mk_world (db w)
       (calls w ++ page_calls course_id 0 (quizzes_of L course_id))).
Proof.
  unfold views.missing_quizzes.
  rewrite (bind_Return _ _ _ _ _ (get_quizzes_run L course_id w)).
  destruct (page_quizzes (quizzes_of L course_id)); reflexivity.
Qed.

(** C9: the two definitions of [missing_quizzes] are claimed to return the
    same list on plain dictionaries.  With three quizzes in the LMS and the
    second one stored locally, the one of [utils.py] returns quizzes 1 and
    3, and the one of [views.py] raises [AttributeError] on the first
    quiz. *)
Theorem missing_quizzes_copies_differ :
  utils.missing_quizzes three_quizzes_lms 1 false (mk_world quiz_2_db [])
  = (Return [a_quiz 1 "Quiz 1" Absent; a_quiz 3 "Quiz 3" Absent],
     mk_world quiz_2_db [GetQuizzes 1 0])
  /\ views.missing_quizzes three_quizzes_lms 1 false (mk_world quiz_2_db [])
     = (Raise AttributeError, mk_world quiz_2_db [GetQuizzes 1 0]).
Proof. split; reflexivity. Qed.

(** ** Searching users *)

(** C10: [search_users] is not total.  A response whose body is a list of
    users and whose headers carry no [last] link makes it raise [KeyError]
    when it extracts the page count; the result [([], 0)] is returned
    whatever the headers are exactly when the body is an error object. *)
Theorem search_users_not_total :
  (forall page_of_url w,
     search_of no_last_link_lms 1 10 1 ""
     = mk_search (UserList [CanvasUser.mk (Val 1) (Val "John Smith") Absent])
         None
     /\ fst (utils.search_users no_last_link_lms page_of_url 1 10 1 "" w)
        = Raise KeyError)
  /\ (forall L page_of_url course_id per_page page search_term w user_list,
        search_of L course_id per_page page search_term
        = mk_search (UserList user_list) None ->
        fst (utils.search_users L page_of_url course_id per_page page
               search_term w)
        = Raise KeyError)
  /\ (forall body,
        (forall L page_of_url course_id per_page page search_term w,
           search_json (search_of L course_id per_page page search_term)
           = body ->
           fst (utils.search_users L page_of_url course_id per_page page
                  search_term w)
           = Return ([], 0))
        <-> body = SearchError).
Proof.
  split; [| split].
  - intros page_of_url w. split; reflexivity.
  - intros L page_of_url course_id per_page page search_term w user_list H.
    unfold utils.search_users, bind, request. simpl. rewrite H. reflexivity.
  - intros body. split.
    + intros H.
      specialize (H (mk_lms no_course no_user (fun _ => LastPage ErrorObject)
                       (fun _ => 200) (fun _ _ _ _ => mk_search body None))
                    (fun _ => Return 1) 1 10 1 "" (mk_world empty_db [])
                    eq_refl).
      destruct body; try reflexivity; discriminate H.
    + intros -> L page_of_url course_id per_page page search_term w H.
      unfold utils.search_users, bind, request. simpl. rewrite H.
      reflexivity.
Qed.

Lemma search_users_not_total_witness :
  fst (utils.search_users no_last_link_lms (fun _ => Return 99) 1 10 1 ""
         (mk_world empty_db []))
  = Raise KeyError.
Proof.
  destruct search_users_not_total as [_ [H _]].
  apply (H no_last_link_lms (fun _ => Return 99) 1 10 1 ""
           (mk_world empty_db [])
           [CanvasUser.mk (Val 1) (Val "John Smith") Absent]).
  reflexivity.
Defined.

(** ** Computations that leave the database alone *)

Lemma keeps_db_ret {A : Type} (a : A) : keeps_db (ret a).
Proof. intros w. reflexivity. Qed.

Lemma keeps_db_raise {A : Type} (e : exn) : keeps_db (@raise A e).
Proof. intros w. reflexivity. Qed.

Lemma keeps_db_lift {A : Type} (r : result A) : keeps_db (lift r).
Proof. intros w. reflexivity. Qed.

Lemma keeps_db_request (c : lms_call) : keeps_db (request c).
Proof. intros w. reflexivity. Qed.

Lemma keeps_db_read_db : keeps_db read_db.
Proof. intros w. reflexivity. Qed.

Lemma keeps_db_bind {A B : Type} (m : M A) (k : A -> M B) :
  keeps_db m -> (forall a, keeps_db (k a)) -> keeps_db (bind m k).
Proof.
  intros Hm Hk w. unfold bind. specialize (Hm w).
  destruct (m w) as [[a | e] w']; simpl in *.
  - rewrite Hk. exact Hm.
  - exact Hm.
Qed.

Lemma keeps_db_for_each {A : Type} (body : A -> M unit) (l : list A) :
  (forall a, keeps_db (body a)) -> keeps_db (for_each body l).
Proof.
  intros H. induction l as [| x l IH]; simpl.
  - apply keeps_db_ret.
  - apply keeps_db_bind; [apply H | intros _; exact IH].
Qed.

Lemma keeps_db_extend_quiz (L : lms) (course_id : Z) (quiz : CanvasQuiz.t)
  (percent : Z) (user_id_list : list Z) :
  keeps_db (views.extend_quiz L course_id quiz percent user_id_list).
Proof.
  unfold views.extend_quiz.
  destruct (no_time_limit _); [apply keeps_db_ret |].
  apply keeps_db_bind; [apply keeps_db_lift |]. intros added.
  apply keeps_db_bind; [apply keeps_db_request |]. intros _.
  destruct (post_status L _ =? 200); apply keeps_db_ret.
Qed.

Lemma keeps_db_views_missing_quizzes (L : lms) (course_id : Z)
  (quickcheck : bool) :
  keeps_db (views.missing_quizzes L course_id quickcheck).
Proof. intros w. rewrite views_missing_quizzes_run. reflexivity. Qed.

(** [refresh] reads the Extension table and never writes to it. *)
Lemma refresh_keeps_db (L : lms) (course_id : Z) :
  keeps_db (views.refresh L course_id).
Proof.
  unfold views.refresh.
  apply keeps_db_bind; [apply keeps_db_read_db |]. intros d.
  destruct (first (by_canvas_id course_id) (courses d)) as [course |];
    [| apply keeps_db_ret].
  apply keeps_db_bind; [apply keeps_db_views_missing_quizzes |].
  intros quizzes.
  apply keeps_db_bind; [| intros _; apply keeps_db_ret].
  apply keeps_db_for_each. intros quiz.
  apply keeps_db_for_each. intros [percent user_list].
  apply keeps_db_bind; [apply keeps_db_extend_quiz |].
  intros _. apply keeps_db_ret.
Qed.

(** C3: [refresh] is to deactivate an extension whose user the LMS no
    longer knows and to leave it out of the percent groups.  In the
    scenario of [test_refresh_inactive_user] the LMS answers 404 for user
    9001, the only extension of course 1; [refresh] groups that user under
    the extension's percent, asks the LMS for the quizzes only, and ends
    with every row as it was, the extension still active. *)
Theorem refresh_leaves_extension_active :
  user_of inactive_user_lms 9001 = None
  /\ extensions inactive_user_db = [Extension.mk 1 9001 150 true]
  /\ group_by_percent
       (course_extensions inactive_user_db
          (Course.mk 1 (Some "Example Course")))
     = [(150, [9001])]
  /\ views.refresh inactive_user_lms 1 (mk_world inactive_user_db [])
     = (Raise AttributeError, mk_world inactive_user_db [GetQuizzes 1 0])
  /\ map Extension.active
       (extensions
          (db (snd (views.refresh inactive_user_lms 1
                      (mk_world inactive_user_db [])))))
     = [true].
Proof. repeat split; reflexivity. Qed.

(** ** The stages of [update] *)

Lemma get_course_run (L : lms) (course_id : Z) (w : world) :
  utils.get_course L course_id w
  = (match course_of L course_id with
     | Some c => Return c
     | None => Raise HTTPError
     end,
     mk_world (db w) (calls w ++ [GetCourse course_id])).
Proof.
  unfold utils.get_course, bind, request. simpl.
  destruct (course_of L course_id); reflexivity.
Qed.

Lemma save_course_run (course_id : Z) (course_name : option string)
  (w : world) :
  views.save_course course_id course_name w
  = (Return tt,
     mk_world
       (with_courses (db w)
          (upsert (by_canvas_id course_id)
             (Course.mk course_id course_name)
             (fun _ => Course.mk course_id course_name) (courses (db w))))
       (calls w)).
Proof. reflexivity. Qed.

Lemma save_user_skip (L : lms) (course_id percent user_id : Z) (w : world) :
  user_of L user_id = None ->
  views.save_user L course_id percent user_id w
  = (Return tt, mk_world (db w) (calls w ++ [GetUser user_id])).
Proof.
  intros H.
  unfold views.save_user, bind, read_db, catch_HTTPError, utils.get_user,
    request.
  simpl. rewrite H. reflexivity.
Qed.

Lemma save_user_found (L : lms) (course_id percent user_id : Z) (w : world)
  (canvas_user : CanvasUser.t) :
  user_of L user_id = Some canvas_user ->
  let user :=
    User.mk
      (get_default (CanvasUser.sortable_name canvas_user) "<MISSING NAME>")
      (get (CanvasUser.id canvas_user))
      (get (CanvasUser.sis_user_id canvas_user)) in
  views.save_user L course_id percent user_id w
  = (Return tt,
     mk_world
       (with_users_extensions (db w)
          (upsert (user_by_canvas_id user_id) user (fun _ => user)
             (users (db w)))
          (upsert (by_course_and_user course_id user_id)
             (Extension.mk course_id user_id percent true)
             (fun extension =>
                Extension.mk (Extension.course_id extension)
                  (Extension.user_id extension) percent
                  (Extension.active extension))
             (extensions (db w))))
       (calls w ++ [GetUser user_id])).
Proof.
  intros H user.
  unfold views.save_user, bind, read_db, catch_HTTPError, utils.get_user,
    request.
  simpl. rewrite H. reflexivity.
Qed.

Lemma save_user_returns (L : lms) (course_id percent user_id : Z)
  (w : world) :
  fst (views.save_user L course_id percent user_id w) = Return tt
  /\ calls (snd (views.save_user L course_id percent user_id w))
     = calls w ++ [GetUser user_id].
Proof.
  destruct (user_of L user_id) as [canvas_user |] eqn:E.
  - rewrite (save_user_found _ _ _ _ _ _ E). split; reflexivity.
  - rewrite (save_user_skip _ _ _ _ _ E). split; reflexivity.
Qed.

Lemma save_users_cons (L : lms) (course_id percent user_id : Z)
  (user_ids : list Z) (w : world) :
  views.save_users L course_id percent (user_id :: user_ids) w
  = views.save_users L course_id percent user_ids
      (snd (views.save_user L course_id percent user_id w)).
Proof.
  unfold views.save_users. simpl. unfold bind.
  destruct (save_user_returns L course_id percent user_id w) as [H _].
  destruct (views.save_user L course_id percent user_id w) as [r w'].
  simpl in *. rewrite H. reflexivity.
Qed.

(** The loop over the user ids always runs to its end: it makes one GET
    per id and nothing else. *)
Lemma save_users_returns (L : lms) (course_id percent : Z)
  (user_ids : list Z) :
  forall w,
    fst (views.save_users L course_id percent user_ids w) = Return tt
    /\ calls (snd (views.save_users L course_id percent user_ids w))
       = calls w ++ map GetUser user_ids.
Proof.
  induction user_ids as [| u user_ids IH]; intros w.
  - simpl. rewrite app_nil_r. split; reflexivity.
  - rewrite save_users_cons.
    destruct (IH (snd (views.save_user L course_id percent u w)))
      as [H1 H2].
    split; [exact H1 |]. rewrite H2.
    destruct (save_user_returns L course_id percent u w) as [_ H3].
    rewrite H3. rewrite <- app_assoc. reflexivity.
Qed.

Lemma save_users_run (L : lms) (course_id percent : Z) (user_ids : list Z)
  (w : world) :
  views.save_users L course_id percent user_ids w
  = (Return tt, snd (views.save_users L course_id percent user_ids w)).
Proof.
  destruct (save_users_returns L course_id percent user_ids w) as [H _].
  destruct (views.save_users L course_id percent user_ids w) as [r w'].
  simpl in *. rewrite H. reflexivity.
Qed.

(** ** Malformed requests *)

Lemma update_no_json (L : lms) (course_id : Z) (post_json : option post_body)
  (w : world) :
  not_post_json post_json = true ->
  views.update L (Some course_id) post_json w
  = (Return (Text "invalid request"), w).
Proof. intros H. unfold views.update. rewrite H. reflexivity. Qed.

Lemma update_no_percent (L : lms) (course_id : Z) (body : post_body)
  (course_json : CanvasCourse.t) (w : world) :
  not_post_json (Some body) = false ->
  not_percent (get (body_percent body)) = true ->
  course_of L course_id = Some course_json ->
  views.update L (Some course_id) (Some body) w
  = (Return (Text "percent required"),
     snd (views.save_course course_id
            (get_default (CanvasCourse.name course_json) "<UNNAMED COURSE>")
            (snd (utils.get_course L course_id w)))).
Proof.
  intros Hjson Hpercent Hcourse. unfold views.update. rewrite Hjson.
  assert (Hc : utils.get_course L course_id w
               = (Return course_json,
                  snd (utils.get_course L course_id w))).
  { rewrite get_course_run, Hcourse. reflexivity. }
  rewrite (bind_Return _ _ _ _ _ Hc).
  rewrite (bind_Return _ _ _ _ _ (save_course_run _ _ _)).
  rewrite Hpercent. reflexivity.
Qed.

(** The request of [test_update_no_percent]: the body has user ids and no
    percent.  [update] answers "percent required" after it has fetched the
    course from the LMS and stored it. *)
Lemma update_no_percent_calls_lms :
  views.update no_percent_lms (Some 1) (Some no_percent_body)
    (mk_world empty_db [])
  = (Return (Text "percent required"),
     mk_world (mk_db [Course.mk 1 (Some "Example Course")] [] [] [])
       [GetCourse 1])
  /\ calls (snd (views.update no_percent_lms (Some 1) (Some no_percent_body)
                   (mk_world empty_db [])))
     <> calls (mk_world empty_db []).
Proof. split; [reflexivity | discriminate]. Qed.

(** C6, amended: a request without a JSON body, or with an object without
    any key as body, is answered "invalid request" with no LMS call and no
    write at all.  A request whose body is an object with some key and no
    percent (it has [user_ids], or any other key such as in [{"other": 1}])
    is answered "percent required" once the course has been fetched from the
    LMS, which is the only LMS call made, and its row stored: no user is
    fetched, no quiz listed, no extension posted, and the User, Quiz and
    Extension tables are as they were. *)
Theorem update_rejects_malformed_input (L : lms) (course_id : Z)
  (w : world) :
  views.update L (Some course_id) None w
  = (Return (Text "invalid request"), w)
  /\ views.update L (Some course_id) (Some (mk_body Absent Absent [])) w
     = (Return (Text "invalid request"), w)
  /\ (forall body course_json,
        body_percent body = Absent ->
        body_user_ids body <> Absent \/ body_other_keys body <> [] ->
        course_of L course_id = Some course_json ->
        let course :=
          Course.mk course_id
            (get_default (CanvasCourse.name course_json)
               "<UNNAMED COURSE>") in
        exists d,
          views.update L (Some course_id) (Some body) w
          = (Return (Text "percent required"),
             mk_world d (calls w ++ [GetCourse course_id]))
          /\ courses d
             = upsert (by_canvas_id course_id) course (fun _ => course)
                 (courses (db w))
          /\ users d = users (db w)
          /\ quizzes d = quizzes (db w)
          /\ extensions d = extensions (db w)).
Proof.
  split; [| split].
  - apply update_no_json. reflexivity.
  - apply update_no_json. reflexivity.
  - intros body course_json Hpercent Hkeys Hcourse course.
    assert (Hjson : not_post_json (Some body) = false).
    { unfold not_post_json. rewrite Hpercent.
      destruct (body_user_ids body); [| reflexivity | reflexivity].
      destruct (body_other_keys body); [| reflexivity].
      destruct Hkeys as [Hkeys | Hkeys]; contradiction Hkeys; reflexivity. }
    eexists. split.
    + rewrite (update_no_percent L course_id body course_json w Hjson);
        [| rewrite Hpercent; reflexivity | exact Hcourse].
      rewrite save_course_run, get_course_run. simpl. reflexivity.
    + repeat split.
Qed.

Lemma update_rejects_malformed_input_witness :
  exists d,
    views.update no_percent_lms (Some 1) (Some other_key_body)
      (mk_world empty_db [])
    = (Return (Text "percent required"), mk_world d [GetCourse 1])
    /\ courses d = [Course.mk 1 (Some "Example Course")]
    /\ users d = []
    /\ quizzes d = []
    /\ extensions d = [].
Proof.
  destruct (update_rejects_malformed_input no_percent_lms 1
              (mk_world empty_db [])) as [_ [_ H]].
  apply (H other_key_body (CanvasCourse.mk (Val "Example Course")));
    [reflexivity | right; discriminate | reflexivity].
Defined.

(** ** Upserts *)

Section Upsert.

Context {A K : Type}.
Variables (key : A -> K) (k0 : K) (p : A -> bool) (create : A)
  (assign : A -> A).
Hypothesis p_key : forall x, p x = true <-> key x = k0.
Hypothesis create_key : key create = k0.
Hypothesis assign_key : forall x, p x = true -> key (assign x) = key x.

Lemma map_update_first (l : list A) :
  map key (update_first p assign l) = map key l.
Proof.
  induction l as [| x l IH]; simpl; [reflexivity |].
  destruct (p x) eqn:Hx; simpl.
  - rewrite (assign_key x Hx). reflexivity.
  - rewrite IH. reflexivity.
Qed.

Lemma first_none_key (l : list A) : first p l = None -> ~ In k0 (map key l).
Proof.
  intros Hnone Hin. apply in_map_iff in Hin. destruct Hin as [x [Hk Hx]].
  pose proof (find_none p l Hnone x Hx) as Hp.
  apply p_key in Hk. congruence.
Qed.

Lemma upsert_NoDup (l : list A) :
  NoDup (map key l) -> NoDup (map key (upsert p create assign l)).
Proof.
  intros Hnd. unfold upsert. destruct (first p l) eqn:E.
  - rewrite map_update_first. exact Hnd.
  - rewrite map_app. simpl. apply NoDup_app.
    + exact Hnd.
    + constructor; [intros [] | constructor].
    + intros k Hin [Hk | []]. subst k.
      rewrite create_key in Hin. exact (first_none_key l E Hin).
Qed.

Lemma upsert_length (l : list A) :
  List.length (upsert p create assign l)
  = (List.length l + if existsb p l then 0 else 1)%nat.
Proof.
  unfold upsert. rewrite <- first_existsb. destruct (first p l).
  - rewrite Nat.add_0_r.
    clear. induction l as [| x l IH]; simpl; [reflexivity |].
    destruct (p x); simpl; [reflexivity | rewrite IH; reflexivity].
  - rewrite length_app. reflexivity.
Qed.

Lemma upsert_exists (l : list A) :
  exists x, In x (upsert p create assign l) /\ key x = k0.
Proof.
  unfold upsert. destruct (first p l) as [y |] eqn:E.
  - revert E. unfold first.
    induction l as [| x l IH]; simpl; [discriminate |].
    destruct (p x) eqn:Hx; intros E.
    + exists (assign x). split; [left; reflexivity |].
      rewrite (assign_key x Hx). apply p_key. exact Hx.
    + destruct (IH E) as [z [Hin Hz]]. exists z. split; [right |]; trivial.
  - exists create. split; [| exact create_key].
    apply in_or_app. right. left. reflexivity.
Qed.

(** With at most one row per key, the row of the key is, after the upsert,
    either the new row or a row that was assigned to. *)
Lemma upsert_row (l : list A) :
  NoDup (map key l) ->
  forall x, In x (upsert p create assign l) -> key x = k0 ->
            x = create \/ exists y, In y l /\ x = assign y.
Proof.
  intros Hnd x Hin Hk. unfold upsert in Hin.
  destruct (first p l) eqn:E.
  - right. clear E. induction l as [| y l IH]; simpl in *; [contradiction |].
    inversion Hnd as [| ? ? Hnotin Hnd']; subst.
    destruct (p y) eqn:Hy.
    + destruct Hin as [Hx | Hx].
      * exists y. split; [left; reflexivity | symmetry; exact Hx].
      * exfalso. apply Hnotin. apply p_key in Hy. rewrite Hy, <- Hk.
        apply in_map. exact Hx.
    + destruct Hin as [Hx | Hx].
      * subst y. apply p_key in Hk. congruence.
      * destruct (IH Hnd' Hx) as [z [Hz Hxz]].
        exists z. split; [right |]; trivial.
  - apply in_app_or in Hin. destruct Hin as [Hx | [Hx | []]].
    + exfalso. apply (first_none_key l E). rewrite <- Hk.
      apply in_map. exact Hx.
    + left. symmetry. exact Hx.
Qed.

(** An upsert removes no key. *)
Lemma upsert_keeps_keys (l : list A) (k : K) :
  In k (map key l) -> In k (map key (upsert p create assign l)).
Proof.
  intros H. unfold upsert. destruct (first p l).
  - rewrite map_update_first. exact H.
  - rewrite map_app. apply in_or_app. left. exact H.
Qed.

Lemma upsert_has_key (l : list A) :
  In k0 (map key (upsert p create assign l)).
Proof.
  destruct (upsert_exists l) as [x [Hin Hk]]. rewrite <- Hk.
  apply in_map. exact Hin.
Qed.

End Upsert.

Lemma by_course_and_user_key (course_id user_id : Z) (e : Extension.t) :
  by_course_and_user course_id user_id e = true
  <-> ext_key e = (course_id, user_id).
Proof.
  unfold by_course_and_user, ext_key. rewrite andb_true_iff, !Z.eqb_eq.
  split; [intros [-> ->]; reflexivity | intros H; inversion H; split; trivial].
Qed.

(** ** Invariants of the database *)

Lemma keeps_preserves {A : Type} (P : database -> Prop) (m : M A) :
  keeps_db m -> preserves P m.
Proof. intros H w Hw. rewrite H. exact Hw. Qed.

Lemma preserves_bind {A B : Type} (P : database -> Prop) (m : M A)
  (k : A -> M B) :
  preserves P m -> (forall a, preserves P (k a)) -> preserves P (bind m k).
Proof.
  intros Hm Hk w Hw. unfold bind. specialize (Hm w Hw).
  destruct (m w) as [[a | e] w']; simpl in *.
  - apply Hk. exact Hm.
  - exact Hm.
Qed.

Lemma preserves_for_each {A : Type} (P : database -> Prop)
  (body : A -> M unit) (l : list A) :
  (forall a, preserves P (body a)) -> preserves P (for_each body l).
Proof.
  intros H. induction l as [| x l IH]; simpl.
  - apply keeps_preserves, keeps_db_ret.
  - apply preserves_bind; [apply H | intros _; exact IH].
Qed.

Lemma keeps_db_get_quizzes (L : lms) (course_id : Z) :
  keeps_db (utils.get_quizzes L course_id).
Proof. intros w. rewrite get_quizzes_run. reflexivity. Qed.

Lemma keeps_db_get_course (L : lms) (course_id : Z) :
  keeps_db (utils.get_course L course_id).
Proof. intros w. rewrite get_course_run. reflexivity. Qed.

Lemma save_course_unique (course_id : Z) (course_name : option string) :
  preserves unique_extensions (views.save_course course_id course_name).
Proof. intros w H. rewrite save_course_run. exact H. Qed.

Lemma save_quiz_unique (quiz_id : option Z) (course_id : Z)
  (quiz_title : option string) :
  preserves unique_extensions (views.save_quiz quiz_id course_id quiz_title).
Proof. intros w H. exact H. Qed.

Lemma save_user_unique (L : lms) (course_id percent user_id : Z) :
  preserves unique_extensions (views.save_user L course_id percent user_id).
Proof.
  intros w H. destruct (user_of L user_id) as [canvas_user |] eqn:E.
  - rewrite (save_user_found _ _ _ _ _ _ E). unfold unique_extensions. simpl.
    apply (upsert_NoDup ext_key (course_id, user_id)).
    + apply by_course_and_user_key.
    + reflexivity.
    + reflexivity.
    + exact H.
  - rewrite (save_user_skip _ _ _ _ _ E). exact H.
Qed.

Lemma extend_quizzes_unique (L : lms) (course_id percent : Z)
  (user_ids : list Z) (l : list CanvasQuiz.t) :
  forall quiz_time_list unchanged_quiz_time_list,
    preserves unique_extensions
      (views.extend_quizzes L course_id percent user_ids l quiz_time_list
         unchanged_quiz_time_list).
Proof.
  induction l as [| quiz l IH]; intros quiz_time_list unchanged; simpl.
  - apply keeps_preserves, keeps_db_ret.
  - apply preserves_bind; [apply save_quiz_unique |]. intros _.
    apply preserves_bind;
      [apply keeps_preserves, keeps_db_extend_quiz |].
    intros r. destruct (success r).
    + destruct (added_time r); apply IH.
    + apply keeps_preserves, keeps_db_ret.
Qed.

Lemma update_unique (L : lms) (course_id : option Z)
  (post_json : option post_body) :
  preserves unique_extensions (views.update L course_id post_json).
Proof.
  unfold views.update.
  destruct course_id as [course_id |];
    [| apply keeps_preserves, keeps_db_ret].
  destruct (if not_post_json post_json then None else post_json)
    as [body |]; [| apply keeps_preserves, keeps_db_ret].
  apply preserves_bind; [apply keeps_preserves, keeps_db_get_course |].
  intros course_json.
  apply preserves_bind; [apply save_course_unique |]. intros _.
  destruct (if not_percent (get (body_percent body)) then None
            else get (body_percent body)) as [percent |];
    [| apply keeps_preserves, keeps_db_ret].
  destruct (get_default (body_user_ids body) []) as [user_ids |];
    [| apply keeps_preserves, keeps_db_raise].
  apply preserves_bind.
  { apply preserves_for_each. intros u. apply save_user_unique. }
  intros _.
  apply preserves_bind; [apply keeps_preserves, keeps_db_get_quizzes |].
  intros quizzes.
  destruct (List.length quizzes <? 1)%nat;
    [apply keeps_preserves, keeps_db_ret |].
  apply preserves_bind; [apply extend_quizzes_unique |].
  intros [early | [quiz_time_list unchanged]];
    apply keeps_preserves, keeps_db_ret.
Qed.

(** C7: every run of [update] keeps at most one Extension row per
    (course, user) pair.  The upsert of a fetched user's extension looks the
    pair up first: an existing row has its percent assigned in place, a row
    is added only when there is none; afterwards the pair has a row, and
    every row of the pair carries the requested percent. *)
Theorem update_keeps_extensions_unique (L : lms) (course_id : option Z)
  (post_json : option post_body) (w : world) :
  unique_extensions (db w) ->
  unique_extensions (db (snd (views.update L course_id post_json w)))
  /\ (forall course percent user_id canvas_user,
        user_of L user_id = Some canvas_user ->
        let before := extensions (db w) in
        let after :=
          extensions (db (snd (views.save_user L course percent user_id w)))
        in
        NoDup (map ext_key after)
        /\ List.length after
           = (List.length before
              + if existsb (by_course_and_user course user_id) before
                then 0 else 1)%nat
        /\ (exists e, In e after /\ ext_key e = (course, user_id))
        /\ (forall e,
              In e after -> ext_key e = (course, user_id) ->
              Extension.percent e = percent)).
Proof.
  intros H. split; [apply update_unique; exact H |].
  intros course percent user_id canvas_user Hu before after.
  subst before after. rewrite (save_user_found _ _ _ _ _ _ Hu). simpl.
  split; [| split; [| split]].
  - apply (upsert_NoDup ext_key (course, user_id));
      [apply by_course_and_user_key | reflexivity | reflexivity | exact H].
  - apply upsert_length.
  - apply (upsert_exists ext_key (course, user_id));
      [apply by_course_and_user_key | reflexivity | reflexivity].
  - intros e Hin Hk.
    destruct (upsert_row ext_key (course, user_id)
                (by_course_and_user course user_id)
                (Extension.mk course user_id percent true)
                (fun extension =>
                   Extension.mk (Extension.course_id extension)
                     (Extension.user_id extension) percent
                     (Extension.active extension))
                (by_course_and_user_key course user_id) eq_refl
                _ H e Hin Hk) as [-> | [y [_ ->]]];
      reflexivity.
Qed.

Lemma update_keeps_extensions_unique_witness :
  unique_extensions
    (db (snd (views.update extension_error_lms (Some 1)
                (Some extension_error_body)
                (mk_world extension_error_db [])))).
Proof.
  apply (update_keeps_extensions_unique extension_error_lms (Some 1)
           (Some extension_error_body) (mk_world extension_error_db [])).
  unfold unique_extensions. simpl.
  constructor.
  - simpl. intros [H | []]. discriminate H.
  - constructor; [intros [] | constructor].
Defined.

(** ** Users the LMS does not know *)

Lemma filter_upsert_other {A : Type} (p q : A -> bool) (create : A)
  (assign : A -> A) (l : list A) :
  (forall x, p x = true -> q x = false) ->
  (forall x, p x = true -> q (assign x) = false) ->
  q create = false ->
  filter q (upsert p create assign l) = filter q l.
Proof.
  intros Hp Ha Hc. unfold upsert. destruct (first p l).
  - induction l as [| x l IH]; simpl; [reflexivity |].
    destruct (p x) eqn:Hx; simpl.
    + rewrite (Ha x Hx), (Hp x Hx). reflexivity.
    + rewrite IH. reflexivity.
  - rewrite filter_app. simpl. rewrite Hc. apply app_nil_r.
Qed.

Lemma save_user_db (L : lms) (course_id percent user_id : Z)
  (w1 w2 : world) :
  db w1 = db w2 ->
  db (snd (views.save_user L course_id percent user_id w1))
  = db (snd (views.save_user L course_id percent user_id w2)).
Proof.
  intros H. destruct (user_of L user_id) as [canvas_user |] eqn:E.
  - rewrite !(save_user_found _ _ _ _ _ _ E). simpl. rewrite H. reflexivity.
  - rewrite !(save_user_skip _ _ _ _ _ E). exact H.
Qed.

Lemma save_users_db (L : lms) (course_id percent : Z) (user_ids : list Z) :
  forall w1 w2,
    db w1 = db w2 ->
    db (snd (views.save_users L course_id percent user_ids w1))
    = db (snd (views.save_users L course_id percent user_ids w2)).
Proof.
  induction user_ids as [| u user_ids IH]; intros w1 w2 H.
  - exact H.
  - rewrite !save_users_cons. apply IH. apply save_user_db. exact H.
Qed.

Lemma save_users_app (L : lms) (course_id percent : Z) (l1 l2 : list Z) :
  forall w,
    views.save_users L course_id percent (l1 ++ l2) w
    = views.save_users L course_id percent l2
        (snd (views.save_users L course_id percent l1 w)).
Proof.
  induction l1 as [| u l1 IH]; intros w.
  - reflexivity.
  - simpl app. rewrite !save_users_cons. apply IH.
Qed.

Lemma save_user_other_extensions (L : lms) (course_id percent u v : Z)
  (w : world) :
  user_of L u = None ->
  filter (fun e => Extension.user_id e =? u)
    (extensions (db (snd (views.save_user L course_id percent v w))))
  = filter (fun e => Extension.user_id e =? u) (extensions (db w)).
Proof.
  intros Hu. destruct (user_of L v) as [canvas_user |] eqn:E.
  - assert (Hne : v <> u) by congruence.
    rewrite (save_user_found _ _ _ _ _ _ E). simpl.
    apply filter_upsert_other.
    + intros x Hx. apply by_course_and_user_key in Hx.
      inversion Hx. apply Z.eqb_neq. congruence.
    + intros x Hx. apply by_course_and_user_key in Hx.
      inversion Hx. simpl. apply Z.eqb_neq. congruence.
    + simpl. apply Z.eqb_neq. exact Hne.
  - rewrite (save_user_skip _ _ _ _ _ E). reflexivity.
Qed.

Lemma save_user_other_users (L : lms) (course_id percent u v : Z)
  (w : world) :
  (forall x canvas_user,
     user_of L x = Some canvas_user ->
     get (CanvasUser.id canvas_user) = Some x) ->
  user_of L u = None ->
  filter (user_by_canvas_id u)
    (users (db (snd (views.save_user L course_id percent v w))))
  = filter (user_by_canvas_id u) (users (db w)).
Proof.
  intros Hid Hu. destruct (user_of L v) as [canvas_user |] eqn:E.
  - assert (Hne : v <> u) by congruence.
    assert (Hnew : option_Z_eqb (get (CanvasUser.id canvas_user)) (Some u)
                   = false).
    { rewrite (Hid v canvas_user E). simpl. apply Z.eqb_neq. exact Hne. }
    rewrite (save_user_found _ _ _ _ _ _ E). simpl.
    apply filter_upsert_other.
    + intros x Hx. unfold user_by_canvas_id in *.
      apply option_Z_eqb_eq in Hx. rewrite Hx. simpl.
      apply Z.eqb_neq. exact Hne.
    + intros x _. exact Hnew.
    + exact Hnew.
  - rewrite (save_user_skip _ _ _ _ _ E). reflexivity.
Qed.

(** C8: in [update], a user id whose fetch from the LMS fails is skipped.
    Its turn of the loop makes the GET and writes nothing; the loop goes on
    to the remaining ids and ends as it would without that id; no
    Extension row of that user is added or changed by the whole loop, and
    no User row either when the LMS answers each fetch with the user
    asked for. *)
Theorem update_skips_missing_users (L : lms) (course_id percent : Z)
  (user_id : Z) :
  user_of L user_id = None ->
  (forall w,
     views.save_user L course_id percent user_id w
     = (Return tt, mk_world (db w) (calls w ++ [GetUser user_id])))
  /\ (forall before after w,
        fst (views.save_users L course_id percent
               (before ++ user_id :: after) w)
        = Return tt
        /\ db (snd (views.save_users L course_id percent
                      (before ++ user_id :: after) w))
           = db (snd (views.save_users L course_id percent
                        (before ++ after) w)))
  /\ (forall user_ids w,
        filter (fun e => Extension.user_id e =? user_id)
          (extensions
             (db (snd (views.save_users L course_id percent user_ids w))))
        = filter (fun e => Extension.user_id e =? user_id)
            (extensions (db w)))
  /\ ((forall x canvas_user,
         user_of L x = Some canvas_user ->
         get (CanvasUser.id canvas_user) = Some x) ->
      forall user_ids w,
        filter (user_by_canvas_id user_id)
          (users
             (db (snd (views.save_users L course_id percent user_ids w))))
        = filter (user_by_canvas_id user_id) (users (db w))).
Proof.
  intros Hu. split; [| split; [| split]].
  - intros w. apply save_user_skip. exact Hu.
  - intros before after w. split.
    + apply save_users_returns.
    + rewrite !save_users_app, save_users_cons.
      apply save_users_db. rewrite (save_user_skip _ _ _ _ _ Hu).
      reflexivity.
  - intros user_ids. induction user_ids as [| v user_ids IH]; intros w.
    + reflexivity.
    + rewrite save_users_cons, IH.
      apply save_user_other_extensions. exact Hu.
  - intros Hid user_ids.
    induction user_ids as [| v user_ids IH]; intros w.
    + reflexivity.
    + rewrite save_users_cons, IH.
      apply save_user_other_users; assumption.
Qed.

Lemma update_skips_missing_users_witness :
  views.save_user extension_error_lms 1 200 12
    (mk_world extension_error_db [])
  = (Return tt, mk_world extension_error_db [GetUser 12]).
Proof.
  apply (update_skips_missing_users extension_error_lms 1 200 12).
  reflexivity.
Defined.

(** The users stage of [test_update]: 11 and 13 are stored with their
    extension at 200 percent, 12 leaves no trace but its GET. *)
Example save_users_test_update :
  views.save_users extension_error_lms 1 200 [11; 12; 13]
    (mk_world extension_error_db [])
  = (Return tt,
     mk_world
       (mk_db [Course.mk 1 (Some "Example Course")]
          [User.mk (Some "Joe Schmoe") (Some 11) None;
           User.mk (Some "Jack Smith") (Some 13) None]
          []
          [Extension.mk 1 11 200 true; Extension.mk 1 13 200 true])
       [GetUser 11; GetUser 12; GetUser 13]).
Proof. reflexivity. Qed.

(** ** Pushing extensions *)

Lemma extend_quiz_timed (L : lms) (course_id : Z) (quiz : CanvasQuiz.t)
  (percent t : Z) (user_id_list : list Z) (added : float) (w : world) :
  CanvasQuiz.time_limit quiz = Val t ->
  1 <= t ->
  ceil_added_time t percent = Return added ->
  let push := post_for course_id quiz added user_id_list in
  utils.extend_quiz L course_id quiz percent user_id_list w
  = (Return
       (if post_status L push =? 200 then
          mk_response true (msg_added added (get (CanvasQuiz.id quiz)))
            (Some added)
        else
          mk_response false
            (msg_post_error (get (CanvasQuiz.id quiz)) (post_status L push))
            None),
     mk_world (db w) (calls w ++ [PostExtensions push])).
Proof.
  intros Ht Hle Hadd push. unfold utils.extend_quiz.
  rewrite Ht. simpl.
  assert (Hlt : (t <? 1) = false) by (apply Z.ltb_ge; lia).
  rewrite Hlt. unfold bind, lift, request. rewrite Hadd. simpl.
  fold (post_for course_id quiz added user_id_list). fold push.
  destruct (post_status L push =? 200); reflexivity.
Qed.

Lemma save_quiz_run (quiz_id : option Z) (course_id : Z)
  (quiz_title : option string) (w : world) :
  views.save_quiz quiz_id course_id quiz_title w
  = (Return tt,
     mk_world
       (with_quizzes (db w)
          (upsert (quiz_by_canvas_id quiz_id)
             (Quiz.mk quiz_id course_id quiz_title)
             (fun _ => Quiz.mk quiz_id course_id quiz_title)
             (quizzes (db w))))
       (calls w)).
Proof. reflexivity. Qed.

(** One turn of the loop over the quizzes. *)
Lemma extend_quizzes_cons (L : lms) (course_id percent : Z)
  (user_ids : list Z) (quiz : CanvasQuiz.t) (l : list CanvasQuiz.t)
  (quiz_time_list : list (option string * float))
  (unchanged : list (option string)) (w : world) :
  let quiz_title := get_default (CanvasQuiz.title quiz) "[UNTITLED QUIZ]" in
  views.extend_quizzes L course_id percent user_ids (quiz :: l)
    quiz_time_list unchanged w
  = match views.extend_quiz L course_id quiz percent user_ids
            (snd (views.save_quiz (get (CanvasQuiz.id quiz)) course_id
                    quiz_title w)) with
    | (Return r, w') =>
        if success r then
          match added_time r with
          | Some added =>
              views.extend_quizzes L course_id percent user_ids l
                (quiz_time_list ++ [(quiz_title, added)]) unchanged w'
          | None =>
              views.extend_quizzes L course_id percent user_ids l
                quiz_time_list (unchanged ++ [quiz_title]) w'
          end
        else (Return (inl (JsonError (message_of r))), w')
    | (Raise e, w') => (Raise e, w')
    end.
Proof.
  intros quiz_title. simpl views.extend_quizzes.
  rewrite (bind_Return _ _ _ _ _ (save_quiz_run _ _ _ _)).
  rewrite save_quiz_run. unfold bind, snd.
  destruct (views.extend_quiz L course_id quiz percent user_ids _)
    as [[r | e] w']; [| reflexivity].
  destruct (success r); [| reflexivity].
  destruct (added_time r); reflexivity.
Qed.

(** The loop over a list in two parts: the second part runs, from where
    the first part ended, only if the first part ended without a failed
    push. *)
Lemma extend_quizzes_app (L : lms) (course_id percent : Z)
  (user_ids : list Z) (l1 l2 : list CanvasQuiz.t) :
  forall quiz_time_list unchanged w,
    views.extend_quizzes L course_id percent user_ids (l1 ++ l2)
      quiz_time_list unchanged w
    = match views.extend_quizzes L course_id percent user_ids l1
              quiz_time_list unchanged w with
      | (Return (inr (changed', unchanged')), w') =>
          views.extend_quizzes L course_id percent user_ids l2 changed'
            unchanged' w'
      | stopped => stopped
      end.
Proof.
  induction l1 as [| quiz l1 IH]; intros quiz_time_list unchanged w.
  - reflexivity.
  - simpl app. rewrite !extend_quizzes_cons.
    destruct (views.extend_quiz L course_id quiz percent user_ids _)
      as [[r | e] w']; [| reflexivity].
    destruct (success r); [| reflexivity].
    destruct (added_time r); apply IH.
Qed.

Lemma quiz_by_canvas_id_key (quiz_id : option Z) (row : Quiz.t) :
  quiz_by_canvas_id quiz_id row = true <-> Quiz.canvas_id row = quiz_id.
Proof. apply option_Z_eqb_eq. Qed.

Lemma save_quiz_keeps (quiz_id k : option Z) (course_id : Z)
  (quiz_title : option string) (w : world) :
  In k (map Quiz.canvas_id (quizzes (db w))) ->
  In k (map Quiz.canvas_id
          (quizzes (db (snd (views.save_quiz quiz_id course_id quiz_title
                               w))))).
Proof.
  intros H. rewrite save_quiz_run. simpl.
  apply (upsert_keeps_keys Quiz.canvas_id (quiz_by_canvas_id quiz_id));
    [| exact H].
  intros x Hx. apply quiz_by_canvas_id_key in Hx. rewrite Hx. reflexivity.
Qed.

Lemma save_quiz_stores (quiz_id : option Z) (course_id : Z)
  (quiz_title : option string) (w : world) :
  In quiz_id
    (map Quiz.canvas_id
       (quizzes (db (snd (views.save_quiz quiz_id course_id quiz_title w))))).
Proof.
  rewrite save_quiz_run. simpl.
  apply (upsert_has_key Quiz.canvas_id quiz_id).
  - apply quiz_by_canvas_id_key.
  - reflexivity.
  - intros x Hx. apply quiz_by_canvas_id_key in Hx. rewrite Hx. reflexivity.
Qed.

(** [extend_quiz] writes nothing and only adds to the log of calls. *)
Lemma extend_quiz_world (L : lms) (course_id : Z) (quiz : CanvasQuiz.t)
  (percent : Z) (user_id_list : list Z) (w : world) :
  exists more,
    snd (views.extend_quiz L course_id quiz percent user_id_list w)
    = mk_world (db w) (calls w ++ more).
Proof.
  unfold views.extend_quiz.
  destruct (no_time_limit _).
  - exists []. rewrite app_nil_r. destruct w. reflexivity.
  - unfold bind, lift, request.
    destruct (ceil_added_time _ percent) as [added | e]; simpl.
    + eexists. destruct (post_status L _ =? 200); reflexivity.
    + exists []. rewrite app_nil_r. destruct w. reflexivity.
Qed.

(** Whatever way the loop ends, the Quiz rows and the calls that were
    there when it started are there when it ends. *)
Lemma extend_quizzes_keeps (L : lms) (course_id percent : Z)
  (user_ids : list Z) (l : list CanvasQuiz.t) :
  forall quiz_time_list unchanged w,
    let w' :=
      snd (views.extend_quizzes L course_id percent user_ids l
             quiz_time_list unchanged w) in
    (forall k,
       In k (map Quiz.canvas_id (quizzes (db w))) ->
       In k (map Quiz.canvas_id (quizzes (db w'))))
    /\ (forall c, In c (calls w) -> In c (calls w')).
Proof.
  induction l as [| quiz l IH]; intros quiz_time_list unchanged w w'.
  - split; intros x H; exact H.
  - subst w'. rewrite extend_quizzes_cons.
    set (ws := snd (views.save_quiz _ _ _ w)).
    destruct (extend_quiz_world L course_id quiz percent user_ids ws)
      as [more Hw].
    assert (Hrows : forall k,
               In k (map Quiz.canvas_id (quizzes (db w))) ->
               In k (map Quiz.canvas_id (quizzes (db ws))))
      by (intros k; apply save_quiz_keeps).
    destruct (views.extend_quiz L course_id quiz percent user_ids ws)
      as [[r | e] w1].
    + simpl in Hw. subst w1.
      assert (Hstep :
                (forall k,
                   In k (map Quiz.canvas_id (quizzes (db w))) ->
                   In k (map Quiz.canvas_id
                           (quizzes (db (mk_world (db ws)
                                           (calls ws ++ more))))))
                /\ (forall c,
                      In c (calls w) ->
                      In c (calls (mk_world (db ws) (calls ws ++ more))))).
      { split; [exact Hrows |].
        intros c Hc. simpl. apply in_or_app. left. exact Hc. }
      destruct Hstep as [Hk Hc].
      destruct (success r).
      * destruct (added_time r);
          (match goal with
           | |- context [views.extend_quizzes L course_id percent user_ids l
                           ?a ?b ?v] =>
               destruct (IH a b v) as [IHk IHc]
           end; split; intros x Hx; [apply IHk, Hk | apply IHc, Hc];
           exact Hx).
      * split; [exact Hk | exact Hc].
    + simpl in Hw. subst w1. split; [exact Hrows |].
      intros c Hc. simpl. apply in_or_app. left. exact Hc.
Qed.

(** When the loop gets through a list, every quiz of the list has its Quiz
    row and every timed quiz of the list its POST in the log. *)
Lemma extend_quizzes_done (L : lms) (course_id percent : Z)
  (user_ids : list Z) (l : list CanvasQuiz.t) :
  forall quiz_time_list unchanged w lists,
    let w' :=
      snd (views.extend_quizzes L course_id percent user_ids l
             quiz_time_list unchanged w) in
    fst (views.extend_quizzes L course_id percent user_ids l quiz_time_list
           unchanged w)
    = Return (inr lists) ->
    (forall q,
       In q l ->
       In (get (CanvasQuiz.id q)) (map Quiz.canvas_id (quizzes (db w'))))
    /\ (forall q t added,
          In q l ->
          CanvasQuiz.time_limit q = Val t ->
          1 <= t ->
          ceil_added_time t percent = Return added ->
          In (PostExtensions (post_for course_id q added user_ids))
            (calls w')).
Proof.
  induction l as [| quiz l IH]; intros quiz_time_list unchanged w lists w' H.
  - split; [intros q [] | intros q t added []].
  - subst w'. rewrite extend_quizzes_cons in *.
    set (ws := snd (views.save_quiz _ _ _ w)) in *.
    assert (Hrow : In (get (CanvasQuiz.id quiz))
                     (map Quiz.canvas_id (quizzes (db ws))))
      by apply save_quiz_stores.
    assert (Hpost : forall t added,
               CanvasQuiz.time_limit quiz = Val t ->
               1 <= t ->
               ceil_added_time t percent = Return added ->
               In (PostExtensions (post_for course_id quiz added user_ids))
                 (calls (snd (views.extend_quiz L course_id quiz percent
                                user_ids ws)))).
    { intros t added Ht Hle Hadd. rewrite extend_quiz_copies.
      rewrite (extend_quiz_timed L course_id quiz percent t user_ids added
                 ws Ht Hle Hadd).
      simpl. apply in_or_app. right. left. reflexivity. }
    destruct (extend_quiz_world L course_id quiz percent user_ids ws)
      as [more Hw].
    destruct (views.extend_quiz L course_id quiz percent user_ids ws)
      as [[r | e] w1]; [| discriminate H].
    simpl in Hw, Hpost. subst w1.
    destruct (success r); [| discriminate H].
    destruct (added_time r);
      (match type of H with
       | fst (views.extend_quizzes L course_id percent user_ids l ?a ?b ?v)
         = _ =>
           destruct (IH a b v lists H) as [IHk IHp];
           destruct (extend_quizzes_keeps L course_id percent user_ids l
                       a b v) as [Kk Kc]
       end;
       split;
       [ intros q [<- | Hq]; [apply Kk; exact Hrow | apply IHk; exact Hq]
       | intros q t added [<- | Hq] Ht Hle Hadd;
         [ apply Kc; apply (Hpost t added Ht Hle Hadd)
         | apply (IHp q t added Hq Ht Hle Hadd) ] ]).
Qed.

Lemma get_course_ok (L : lms) (course_id : Z) (c : CanvasCourse.t)
  (w : world) :
  course_of L course_id = Some c ->
  utils.get_course L course_id w
  = (Return c, snd (utils.get_course L course_id w)).
Proof. intros H. rewrite get_course_run, H. reflexivity. Qed.

Lemma save_course_ok (course_id : Z) (course_name : option string)
  (w : world) :
  views.save_course course_id course_name w
  = (Return tt, snd (views.save_course course_id course_name w)).
Proof. reflexivity. Qed.

Lemma get_quizzes_ok (L : lms) (course_id : Z) (w : world) :
  utils.get_quizzes L course_id w
  = (Return (page_quizzes (quizzes_of L course_id)),
     snd (utils.get_quizzes L course_id w)).
Proof. rewrite get_quizzes_run. reflexivity. Qed.

(** C5: when the LMS refuses the extension POST of a quiz, [extend_quiz]
    returns the failure [{success: False, message, added_time: None}] whose
    message carries the quiz id and the status code, and [update] returns
    that message from inside its loop.  The world it leaves is the one the
    quizzes before the failing one left, with the Quiz row of the failing
    quiz stored and its single POST logged: the earlier rows and pushes
    stand, nothing is sent twice, and the quizzes after it are neither
    stored nor pushed. *)
Theorem update_stops_at_failed_push (L : lms) (course_id percent t : Z)
  (body : post_body) (user_ids : list Z) (course_json : CanvasCourse.t)
  (pre post : list CanvasQuiz.t) (quiz : CanvasQuiz.t) (added : float)
  (w : world) :
  not_post_json (Some body) = false ->
  get (body_percent body) = Some percent ->
  percent <> 0 ->
  get_default (body_user_ids body) [] = Some user_ids ->
  course_of L course_id = Some course_json ->
  page_quizzes (quizzes_of L course_id) = pre ++ quiz :: post ->
  CanvasQuiz.time_limit quiz = Val t ->
  1 <= t ->
  ceil_added_time t percent = Return added ->
  let push := post_for course_id quiz added user_ids in
  post_status L push <> 200 ->
  let failure :=
    mk_response false
      (msg_post_error (get (CanvasQuiz.id quiz)) (post_status L push))
      None in
  let w1 :=
    snd (utils.get_quizzes L course_id
           (snd (views.save_users L course_id percent user_ids
                   (snd (views.save_course course_id
                           (get_default (CanvasCourse.name course_json)
                              "<UNNAMED COURSE>")
                           (snd (utils.get_course L course_id w))))))) in
  let w2 :=
    snd (views.extend_quizzes L course_id percent user_ids pre [] [] w1) in
  (exists lists,
     fst (views.extend_quizzes L course_id percent user_ids pre [] [] w1)
     = Return (inr lists)) ->
  let quiz_obj :=
    Quiz.mk (get (CanvasQuiz.id quiz)) course_id
      (get_default (CanvasQuiz.title quiz) "[UNTITLED QUIZ]") in
  let final := snd (views.update L (Some course_id) (Some body) w) in
  (forall w0,
     utils.extend_quiz L course_id quiz percent user_ids w0
     = (Return failure, mk_world (db w0) (calls w0 ++ [PostExtensions push]))
     /\ views.extend_quiz L course_id quiz percent user_ids w0
        = (Return failure,
           mk_world (db w0) (calls w0 ++ [PostExtensions push])))
  /\ views.update L (Some course_id) (Some body) w
     = (Return (JsonError (message_of failure)),
        mk_world
          (with_quizzes (db w2)
             (upsert (quiz_by_canvas_id (get (CanvasQuiz.id quiz))) quiz_obj
                (fun _ => quiz_obj) (quizzes (db w2))))
          (calls w2 ++ [PostExtensions push]))
  /\ (forall q,
        In q pre ->
        In (get (CanvasQuiz.id q))
          (map Quiz.canvas_id (quizzes (db final))))
  /\ (forall q t' added',
        In q pre ->
        CanvasQuiz.time_limit q = Val t' ->
        1 <= t' ->
        ceil_added_time t' percent = Return added' ->
        In (PostExtensions (post_for course_id q added' user_ids))
          (calls final)).
Proof.
  intros Hjson Hpercent Hnz Hids Hcourse Hpage Ht Hle Hadd push Hstatus
    failure w1 w2 [lists Hpre] quiz_obj final.
  assert (Hfail : forall w0,
             views.extend_quiz L course_id quiz percent user_ids w0
             = (Return failure,
                mk_world (db w0) (calls w0 ++ [PostExtensions push]))).
  { intros w0. rewrite extend_quiz_copies.
    rewrite (extend_quiz_timed L course_id quiz percent t user_ids added w0
               Ht Hle Hadd).
    fold push. apply Z.eqb_neq in Hstatus. rewrite Hstatus. reflexivity. }
  split.
  { intros w0. split; [rewrite <- extend_quiz_copies |]; apply Hfail. }
  assert (Hupdate :
            views.update L (Some course_id) (Some body) w
            = (Return (JsonError (message_of failure)),
               mk_world
                 (with_quizzes (db w2)
                    (upsert (quiz_by_canvas_id (get (CanvasQuiz.id quiz)))
                       quiz_obj (fun _ => quiz_obj) (quizzes (db w2))))
                 (calls w2 ++ [PostExtensions push]))).
  2: {
    destruct (extend_quizzes_done L course_id percent user_ids pre [] [] w1
                lists Hpre) as [Hrows Hposts].
    fold w2 in Hrows, Hposts.
    split; [exact Hupdate |]. subst final. rewrite Hupdate. simpl.
    split.
    - intros q Hq.
      apply (upsert_keeps_keys Quiz.canvas_id
               (quiz_by_canvas_id (get (CanvasQuiz.id quiz)))).
      + intros x Hx. apply quiz_by_canvas_id_key in Hx. rewrite Hx.
        reflexivity.
      + apply Hrows. exact Hq.
    - intros q t' added' Hq Ht' Hle' Hadd'. apply in_or_app. left.
      apply (Hposts q t' added' Hq Ht' Hle' Hadd'). }
  unfold views.update. rewrite Hjson.
  rewrite (bind_Return _ _ _ _ _ (get_course_ok L course_id course_json w
                                    Hcourse)).
  rewrite (bind_Return _ _ _ _ _ (save_course_ok _ _ _)).
  rewrite Hpercent, Hids.
  assert (Hp : not_percent (Some percent) = false)
    by (apply Z.eqb_neq; exact Hnz).
  rewrite Hp.
  rewrite (bind_Return _ _ _ _ _ (save_users_run _ _ _ _ _)).
  rewrite (bind_Return _ _ _ _ _ (get_quizzes_ok _ _ _)).
  rewrite Hpage.
  assert (Hlen : (List.length (pre ++ quiz :: post) <? 1)%nat = false).
  { apply Nat.ltb_ge. rewrite length_app. simpl. lia. }
  rewrite Hlen.
  fold w1.
  assert (Hloop :
            views.extend_quizzes L course_id percent user_ids
              (pre ++ quiz :: post) [] [] w1
            = (Return (inl (JsonError (message_of failure))),
               mk_world
                 (with_quizzes (db w2)
                    (upsert (quiz_by_canvas_id (get (CanvasQuiz.id quiz)))
                       quiz_obj (fun _ => quiz_obj) (quizzes (db w2))))
                 (calls w2 ++ [PostExtensions push]))).
  { rewrite extend_quizzes_app. subst w2.
    destruct (views.extend_quizzes L course_id percent user_ids pre [] [] w1)
      as [r w'].
    simpl in Hpre. subst r. destruct lists as [changed unchanged].
    rewrite extend_quizzes_cons, Hfail. reflexivity. }
  rewrite (bind_Return _ _ _ _ _ Hloop). reflexivity.
Qed.

Lemma update_stops_at_failed_push_witness :
  fst (views.update extension_error_lms (Some 1) (Some extension_error_body)
         (mk_world extension_error_db []))
  = Return (JsonError (msg_post_error (Some 4) 404))
  /\ filter is_post
       (calls (snd (views.update extension_error_lms (Some 1)
                      (Some extension_error_body)
                      (mk_world extension_error_db []))))
     = [PostExtensions
          (mk_post 1 (Some 5) [(11, Z2F 30); (12, Z2F 30); (13, Z2F 30)]);
        PostExtensions
          (mk_post 1 (Some 4) [(11, Z2F 10); (12, Z2F 10); (13, Z2F 10)])]
  /\ map Quiz.canvas_id
       (quizzes (db (snd (views.update extension_error_lms (Some 1)
                            (Some extension_error_body)
                            (mk_world extension_error_db [])))))
     = [Some 5; Some 7; Some 4].
Proof.
  destruct (update_stops_at_failed_push extension_error_lms 1 200 10
              extension_error_body [11; 12; 13]
              (CanvasCourse.mk (Val "Example Course"))
              [a_quiz 5 "Quiz 5" (Val 30);
               CanvasQuiz.mk (Val 7) (Val "Quiz 7") Absent]
              [a_quiz 6 "Quiz 6" Null]
              (a_quiz 4 "Quiz 4" (Val 10)) (Z2F 10)
              (mk_world extension_error_db [])) as [_ H].
  - reflexivity.
  - reflexivity.
  - lia.
  - reflexivity.
  - reflexivity.
  - reflexivity.
  - reflexivity.
  - lia.
  - vm_compute. reflexivity.
  - vm_compute. discriminate.
  - eexists. vm_compute. reflexivity.
  - destruct H as [H _]. rewrite H. vm_compute. repeat split; reflexivity.
Defined.

(** * Further properties of the code *)

(** ** Pagination of the quiz index *)

Lemma page_quizzes_chain (lists : list (list CanvasQuiz.t))
  (last : quiz_page) :
  page_quizzes (chain (map QuizList lists) last)
  = List.concat lists ++ page_quizzes last.
Proof.
  induction lists as [| l lists IH]; simpl; [reflexivity |].
  rewrite IH, app_assoc. reflexivity.
Qed.

Lemma page_calls_chain (course_id : Z) (lists : list (list CanvasQuiz.t))
  (last : quiz_page) :
  forall n,
    page_calls course_id n (chain (map QuizList lists) last)
    = map (GetQuizzes course_id) (seq n (List.length lists))
      ++ page_calls course_id (n + List.length lists) last.
Proof.
  induction lists as [| l lists IH]; intros n; simpl.
  - rewrite Nat.add_0_r. reflexivity.
  - rewrite IH. rewrite Nat.add_succ_r. reflexivity.
Qed.

(** X1: [get_quizzes] follows the [next] links page by page.  When every
    page is a list it returns the quizzes of all pages in order, with one
    GET per page.  When a page is an error object it stops there: it
    returns the quizzes of the pages before it (not an empty list), and a
    [next] link of the error page is not followed. *)
Theorem get_quizzes_pagination (L : lms) (course_id : Z)
  (lists : list (list CanvasQuiz.t)) (w : world) :
  (forall l,
     quizzes_of L course_id
     = chain (map QuizList lists) (LastPage (QuizList l)) ->
     utils.get_quizzes L course_id w
     = (Return (List.concat lists ++ l),
        mk_world (db w)
          (calls w
           ++ map (GetQuizzes course_id) (seq 0 (S (List.length lists))))))
  /\ (forall stop,
        quizzes_of L course_id = chain (map QuizList lists) stop ->
        (stop = LastPage ErrorObject
         \/ exists next, stop = Page ErrorObject next) ->
        utils.get_quizzes L course_id w
        = (Return (List.concat lists),
           mk_world (db w)
             (calls w
              ++ map (GetQuizzes course_id)
                   (seq 0 (S (List.length lists)))))).
Proof.
  split.
  - intros l H. rewrite get_quizzes_run, H.
    rewrite page_quizzes_chain, page_calls_chain.
    rewrite seq_S, map_app. reflexivity.
  - intros stop H Hstop. rewrite get_quizzes_run, H.
    rewrite page_quizzes_chain, page_calls_chain.
    rewrite seq_S, map_app.
    destruct Hstop as [-> | [next ->]]; simpl; rewrite app_nil_r;
      reflexivity.
Qed.

Lemma get_quizzes_pagination_witness :
  utils.get_quizzes broken_pages_lms 1 (mk_world empty_db [])
  = (Return [a_quiz 1 "Quiz 1" Absent; a_quiz 2 "Quiz 2" Absent;
             a_quiz 3 "Quiz 3" Absent],
     mk_world empty_db [GetQuizzes 1 0; GetQuizzes 1 1; GetQuizzes 1 2]).
Proof.
  destruct (get_quizzes_pagination broken_pages_lms 1
              [[a_quiz 1 "Quiz 1" Absent];
               [a_quiz 2 "Quiz 2" Absent; a_quiz 3 "Quiz 3" Absent]]
              (mk_world empty_db [])) as [_ H].
  apply (H (Page ErrorObject
              (LastPage (QuizList [a_quiz 4 "Quiz 4" Absent])))).
  - reflexivity.
  - right. eexists. reflexivity.
Defined.

(** ** Grouping extensions by percent *)

Lemma lookup_group_append (percent user_id p : Z) (m : list (Z * list Z)) :
  lookup_percent p (group_append percent user_id m)
  = if p =? percent then
      Some (match lookup_percent p m with
            | Some user_list => user_list ++ [user_id]
            | None => [user_id]
            end)
    else lookup_percent p m.
Proof.
  induction m as [| [q user_list] m IH]; simpl.
  - rewrite (Z.eqb_sym percent p). destruct (p =? percent); reflexivity.
  - destruct (q =? percent) eqn:Hq; simpl.
    + apply Z.eqb_eq in Hq. subst q.
      rewrite (Z.eqb_sym percent p). destruct (p =? percent); reflexivity.
    + destruct (q =? p) eqn:Hp.
      * apply Z.eqb_eq in Hp. subst q. rewrite Hq. reflexivity.
      * exact IH.
Qed.

Lemma keys_group_append (percent user_id : Z) (m : list (Z * list Z)) :
  map fst (group_append percent user_id m)
  = if existsb (Z.eqb percent) (map fst m) then map fst m
    else map fst m ++ [percent].
Proof.
  induction m as [| [q user_list] m IH]; simpl; [reflexivity |].
  rewrite (Z.eqb_sym percent q).
  destruct (q =? percent); simpl; [reflexivity |].
  rewrite IH. destruct (existsb _ (map fst m)); reflexivity.
Qed.

Lemma NoDup_group_append (percent user_id : Z) (m : list (Z * list Z)) :
  NoDup (map fst m) -> NoDup (map fst (group_append percent user_id m)).
Proof.
  intros H. rewrite keys_group_append.
  destruct (existsb (Z.eqb percent) (map fst m)) eqn:E; [exact H |].
  apply NoDup_app; [exact H | constructor; [intros [] | constructor] |].
  intros k Hk [Hp | []]. subst k.
  assert (Hex : existsb (Z.eqb percent) (map fst m) = true).
  { apply existsb_exists. exists percent. split; [exact Hk |].
    apply Z.eqb_refl. }
  congruence.
Qed.

Lemma group_fold (es : list Extension.t) :
  forall (m : list (Z * list Z)) (p : Z),
    let grouped :=
      fold_left
        (fun m extension =>
           group_append (Extension.percent extension)
             (Extension.user_id extension) m)
        es m in
    let users_at :=
      map Extension.user_id
        (List.filter (fun e => Extension.percent e =? p) es) in
    (NoDup (map fst m) -> NoDup (map fst grouped))
    /\ lookup_percent p grouped
       = match lookup_percent p m, users_at with
         | None, [] => None
         | None, _ :: _ => Some users_at
         | Some user_list, _ => Some (user_list ++ users_at)
         end.
Proof.
  induction es as [| e es IH]; intros m p grouped users_at.
  - subst grouped users_at. simpl. split; [trivial |].
    destruct (lookup_percent p m); [rewrite app_nil_r |]; reflexivity.
  - subst grouped users_at. simpl fold_left.
    destruct (IH (group_append (Extension.percent e) (Extension.user_id e) m)
                p) as [IHnd IHl].
    split.
    + intros H. apply IHnd. apply NoDup_group_append. exact H.
    + rewrite IHl, lookup_group_append. simpl List.filter.
      rewrite (Z.eqb_sym (Extension.percent e) p).
      destruct (p =? Extension.percent e); simpl.
      * destruct (lookup_percent p m); [rewrite <- app_assoc |]; reflexivity.
      * reflexivity.
Qed.

(** X2: the percent groups that [refresh] builds.  Every percent is a key
    at most once; a percent is a key exactly when some extension of the
    course carries it, and its group then lists the users of those
    extensions, one entry per extension, in the order of the table. *)
Theorem group_by_percent_spec (es : list Extension.t) (p : Z) :
  let users_at :=
    map Extension.user_id
      (List.filter (fun e => Extension.percent e =? p) es) in
  NoDup (map fst (group_by_percent es))
  /\ lookup_percent p (group_by_percent es)
     = match users_at with
       | [] => None
       | _ :: _ => Some users_at
       end
  /\ (In p (map fst (group_by_percent es))
      <-> exists e, In e es /\ Extension.percent e = p).
Proof.
  intros users_at. unfold group_by_percent.
  destruct (group_fold es [] p) as [Hnd Hl]. simpl in Hl.
  split; [apply Hnd; constructor |]. split; [exact Hl |].
  assert (Hkey : forall m,
             In p (map fst m) <-> lookup_percent p m <> None).
  { induction m as [| [q user_list] m IH]; simpl.
    - split; [intros [] | intros H; apply H; reflexivity].
    - destruct (q =? p) eqn:Hq.
      + apply Z.eqb_eq in Hq. split; [discriminate | left; exact Hq].
      + apply Z.eqb_neq in Hq. rewrite <- IH.
        split; [intros [H | H]; [contradiction | exact H] | right; trivial]. }
  rewrite Hkey, Hl. fold users_at. split.
  - intros H. destruct users_at as [| u us] eqn:E; [contradiction |].
    assert (Hin : In u (map Extension.user_id
                          (List.filter (fun e => Extension.percent e =? p)
                             es)))
      by (fold users_at; rewrite E; left; reflexivity).
    apply in_map_iff in Hin. destruct Hin as [e [_ He]].
    apply filter_In in He. destruct He as [He Hp].
    exists e. split; [exact He | apply Z.eqb_eq; exact Hp].
  - intros [e [He Hp]].
    assert (Hin : In (Extension.user_id e) users_at).
    { apply in_map. apply filter_In. split; [exact He |].
      apply Z.eqb_eq. exact Hp. }
    destruct users_at; [contradiction | discriminate].
Qed.

(** ** What [refresh] does *)

Lemma page_calls_no_post (course_id : Z) (p : quiz_page) :
  forall n, List.filter is_post (page_calls course_id n p) = [].
Proof.
  induction p as [body | body next IH]; intros n.
  - reflexivity.
  - destruct body; simpl; [reflexivity | apply IH].
Qed.

(** X3: [refresh] has three outcomes.  Without a local row for the course
    it answers "Course not found" and calls nothing.  With one, it lists
    the quizzes of the LMS and then either finds none and ends without a
    response, or raises [AttributeError] in [missing_quizzes] on the first
    quiz.  In no case does it send an extension POST or write a row,
    whatever extensions the course has. *)
Theorem refresh_never_pushes (L : lms) (course_id : Z) (w : world) :
  views.refresh L course_id w
  = match first (by_canvas_id course_id) (courses (db w)) with
    | None => (Return (Text "Course not found"), w)
    | Some _ =>
        (match page_quizzes (quizzes_of L course_id) with
         | [] => Return NoResponse
         | _ :: _ => Raise AttributeError
         end,
         mk_world (db w)
           (calls w ++ page_calls course_id 0 (quizzes_of L course_id)))
    end
  /\ List.filter is_post (calls (snd (views.refresh L course_id w)))
     = List.filter is_post (calls w)
  /\ db (snd (views.refresh L course_id w)) = db w.
Proof.
  assert (H : views.refresh L course_id w
              = match first (by_canvas_id course_id) (courses (db w)) with
                | None => (Return (Text "Course not found"), w)
                | Some _ =>
                    (match page_quizzes (quizzes_of L course_id) with
                     | [] => Return NoResponse
                     | _ :: _ => Raise AttributeError
                     end,
                     mk_world (db w)
                       (calls w
                        ++ page_calls course_id 0 (quizzes_of L course_id)))
                end).
  { unfold views.refresh, bind at 1, read_db.
    destruct (first (by_canvas_id course_id) (courses (db w)));
      [| reflexivity].
    unfold bind at 1. rewrite views_missing_quizzes_run.
    destruct (page_quizzes (quizzes_of L course_id)); reflexivity. }
  split; [exact H |]. rewrite H.
  destruct (first (by_canvas_id course_id) (courses (db w))).
  - simpl. rewrite filter_app, page_calls_no_post, app_nil_r.
    split; reflexivity.
  - split; reflexivity.
Qed.

(** ** The calls a computation adds *)

Lemma adds_calls_same {A : Type} (Q : lms_call -> Prop) (m : M A) :
  (forall w, calls (snd (m w)) = calls w) -> adds_calls Q m.
Proof.
  intros H w. exists []. rewrite app_nil_r. split; [apply H | constructor].
Qed.

Lemma adds_calls_request (Q : lms_call -> Prop) (c : lms_call) :
  Q c -> adds_calls Q (request c).
Proof.
  intros H w. exists [c]. split; [reflexivity |].
  constructor; [exact H | constructor].
Qed.

Lemma adds_calls_bind {A B : Type} (Q : lms_call -> Prop) (m : M A)
  (k : A -> M B) :
  adds_calls Q m -> (forall a, adds_calls Q (k a)) -> adds_calls Q (bind m k).
Proof.
  intros Hm Hk w. unfold bind. destruct (Hm w) as [more [Hc HQ]].
  destruct (m w) as [[a | e] w']; simpl in *.
  - destruct (Hk a w') as [more' [Hc' HQ']].
    exists (more ++ more'). rewrite Hc', Hc, app_assoc.
    split; [reflexivity | apply Forall_app; split; assumption].
  - exists more. split; assumption.
Qed.

Lemma adds_calls_for_each {A : Type} (Q : lms_call -> Prop)
  (body : A -> M unit) (l : list A) :
  (forall a, adds_calls Q (body a)) -> adds_calls Q (for_each body l).
Proof.
  intros H. induction l as [| x l IH]; simpl.
  - apply adds_calls_same. reflexivity.
  - apply adds_calls_bind; [apply H | intros _; exact IH].
Qed.

Lemma adds_calls_catch {A : Type} (Q : lms_call -> Prop) (m : M A) :
  adds_calls Q m -> adds_calls Q (catch_HTTPError m).
Proof.
  intros H w. destruct (H w) as [more [Hc HQ]]. exists more.
  split; [| exact HQ]. unfold catch_HTTPError.
  destruct (m w) as [[a | []] w']; exact Hc.
Qed.

Lemma adds_calls_extend_quiz (L : lms) (course_id : Z) (quiz : CanvasQuiz.t)
  (percent : Z) (user_ids : list Z) :
  adds_calls (update_call course_id user_ids)
    (views.extend_quiz L course_id quiz percent user_ids).
Proof.
  unfold views.extend_quiz.
  destruct (no_time_limit _); [apply adds_calls_same; reflexivity |].
  apply adds_calls_bind; [apply adds_calls_same; reflexivity |].
  intros added. apply adds_calls_bind.
  - apply adds_calls_request. simpl. split; [reflexivity |].
    rewrite map_map. simpl. apply map_id.
  - intros _. destruct (post_status L _ =? 200);
      apply adds_calls_same; reflexivity.
Qed.

Lemma adds_calls_get_quizzes (Q : lms_call -> Prop) (L : lms)
  (course_id : Z) :
  (forall n, Q (GetQuizzes course_id n)) ->
  adds_calls Q (utils.get_quizzes L course_id).
Proof.
  intros H w. rewrite get_quizzes_run. eexists. split; [reflexivity |].
  generalize 0%nat. induction (quizzes_of L course_id) as [b | b next IH];
    intros n.
  - simpl. constructor; [apply H | constructor].
  - destruct b; simpl; constructor; try apply H; [constructor | apply IH].
Qed.

Lemma adds_calls_save_user (Q : lms_call -> Prop) (L : lms)
  (course_id percent user_id : Z) :
  Q (GetUser user_id) ->
  adds_calls Q (views.save_user L course_id percent user_id).
Proof.
  intros H w. exists [GetUser user_id].
  split; [apply save_user_returns |]. constructor; [exact H | constructor].
Qed.

Lemma adds_calls_extend_quizzes (L : lms) (course_id percent : Z)
  (user_ids : list Z) (l : list CanvasQuiz.t) :
  forall quiz_time_list unchanged,
    adds_calls (update_call course_id user_ids)
      (views.extend_quizzes L course_id percent user_ids l quiz_time_list
         unchanged).
Proof.
  induction l as [| quiz l IH]; intros quiz_time_list unchanged; simpl.
  - apply adds_calls_same. reflexivity.
  - apply adds_calls_bind; [apply adds_calls_same; reflexivity |].
    intros _. apply adds_calls_bind; [apply adds_calls_extend_quiz |].
    intros r. destruct (success r).
    + destruct (added_time r); apply IH.
    + apply adds_calls_same. reflexivity.
Qed.

Lemma adds_calls_update (L : lms) (course_id : Z) (body : post_body)
  (user_ids : list Z) :
  get_default (body_user_ids body) [] = Some user_ids ->
  adds_calls (update_call course_id user_ids)
    (views.update L (Some course_id) (Some body)).
Proof.
  intros Hids. unfold views.update.
  destruct (if not_post_json (Some body) then None else Some body)
    as [body' |] eqn:E; [| apply adds_calls_same; reflexivity].
  assert (body' = body) by (destruct (not_post_json _); congruence).
  subst body'.
  apply adds_calls_bind.
  { intros w. rewrite get_course_run. eexists. split; [reflexivity |].
    constructor; [exact I | constructor]. }
  intros course_json.
  apply adds_calls_bind; [apply adds_calls_same; reflexivity |]. intros _.
  destruct (if not_percent (get (body_percent body)) then None
            else get (body_percent body)) as [percent |];
    [| apply adds_calls_same; reflexivity].
  rewrite Hids.
  apply adds_calls_bind.
  { apply adds_calls_for_each. intros u. apply adds_calls_save_user.
    exact I. }
  intros _.
  apply adds_calls_bind; [apply adds_calls_get_quizzes; intros n; exact I |].
  intros quizzes.
  destruct (List.length quizzes <? 1)%nat;
    [apply adds_calls_same; reflexivity |].
  apply adds_calls_bind; [apply adds_calls_extend_quizzes |].
  intros [early | [quiz_time_list unchanged]];
    apply adds_calls_same; reflexivity.
Qed.

(** X4: every extension POST that [update] sends is for the course of the
    request and lists exactly the user ids of the request, in their order.
    A user id whose fetch from the LMS failed, and which has no User or
    Extension row, is in that list like the others. *)
Theorem update_posts_every_requested_user (L : lms) (course_id : Z)
  (body : post_body) (user_ids : list Z) (w : world) (p : extension_post) :
  get_default (body_user_ids body) [] = Some user_ids ->
  In (PostExtensions p)
    (calls (snd (views.update L (Some course_id) (Some body) w))) ->
  In (PostExtensions p) (calls w)
  \/ (post_course p = course_id /\ map fst (quiz_extensions p) = user_ids).
Proof.
  intros Hids Hin.
  destruct (adds_calls_update L course_id body user_ids Hids w)
    as [more [Hc HQ]].
  rewrite Hc in Hin. apply in_app_or in Hin.
  destruct Hin as [Hin | Hin]; [left; exact Hin | right].
  rewrite Forall_forall in HQ. exact (HQ _ Hin).
Qed.

Lemma update_posts_every_requested_user_witness :
  post_course (mk_post 1 (Some 5) [(11, Z2F 30); (12, Z2F 30); (13, Z2F 30)])
  = 1
  /\ map fst
       (quiz_extensions
          (mk_post 1 (Some 5) [(11, Z2F 30); (12, Z2F 30); (13, Z2F 30)]))
     = [11; 12; 13].
Proof.
  destruct (update_posts_every_requested_user test_update_lms 1
              extension_error_body [11; 12; 13]
              (mk_world extension_error_db [])
              (mk_post 1 (Some 5) [(11, Z2F 30); (12, Z2F 30); (13, Z2F 30)]))
    as [H | H].
  - reflexivity.
  - vm_compute. right. right. right. right. right. right. left. reflexivity.
  - destruct H.
  - exact H.
Defined.

(** ** A successful [update] *)

Lemma bind_inv {A B : Type} (m : M A) (k : A -> M B) (w w' : world) (b : B) :
  bind m k w = (Return b, w') ->
  exists a w1, m w = (Return a, w1) /\ k a w1 = (Return b, w').
Proof.
  unfold bind. destruct (m w) as [[a | e] w1]; intros H.
  - exists a, w1. split; [reflexivity | exact H].
  - discriminate H.
Qed.

Lemma extend_quiz_untimed (L : lms) (course_id : Z) (quiz : CanvasQuiz.t)
  (percent : Z) (user_ids : list Z) (w : world) :
  timed quiz = false ->
  views.extend_quiz L course_id quiz percent user_ids w
  = (Return
       (mk_response true (msg_no_time_limit (get (CanvasQuiz.id quiz))) None),
     w).
Proof.
  unfold timed. intros H. apply negb_false_iff in H.
  unfold views.extend_quiz. rewrite H. reflexivity.
Qed.

Lemma timed_limit (quiz : CanvasQuiz.t) :
  timed quiz = true ->
  exists t, CanvasQuiz.time_limit quiz = Val t /\ 1 <= t.
Proof.
  unfold timed, no_time_limit. intros H. apply negb_true_iff in H.
  destruct (CanvasQuiz.time_limit quiz) as [| | t]; simpl in H;
    try discriminate.
  exists t. split; [reflexivity |]. apply Z.ltb_ge in H. lia.
Qed.

Lemma extend_quiz_raises (L : lms) (course_id : Z) (quiz : CanvasQuiz.t)
  (percent t : Z) (user_ids : list Z) (e : exn) (w : world) :
  CanvasQuiz.time_limit quiz = Val t ->
  1 <= t ->
  ceil_added_time t percent = Raise e ->
  views.extend_quiz L course_id quiz percent user_ids w = (Raise e, w).
Proof.
  intros Ht Hle Hadd. unfold views.extend_quiz. rewrite Ht. simpl.
  assert (Hlt : (t <? 1) = false) by (apply Z.ltb_ge; lia).
  rewrite Hlt. unfold bind, lift. rewrite Hadd. reflexivity.
Qed.

(** The loop leaves early with an error response only. *)
Lemma extend_quizzes_early (L : lms) (course_id percent : Z)
  (user_ids : list Z) (l : list CanvasQuiz.t) :
  forall quiz_time_list unchanged w early w',
    views.extend_quizzes L course_id percent user_ids l quiz_time_list
      unchanged w
    = (Return (inl early), w') ->
    exists m, early = JsonError m.
Proof.
  induction l as [| quiz l IH]; intros quiz_time_list unchanged w early w' H.
  - discriminate H.
  - rewrite extend_quizzes_cons in H.
    destruct (views.extend_quiz L course_id quiz percent user_ids _)
      as [[r | e] w1]; [| discriminate H].
    destruct (success r).
    + destruct (added_time r); apply (IH _ _ _ _ _ H).
    + inversion H. eexists. reflexivity.
Qed.

(** What the two lists hold when the loop gets through a list. *)
Lemma extend_quizzes_report (L : lms) (course_id percent : Z)
  (user_ids : list Z) (l : list CanvasQuiz.t) :
  forall quiz_time_list unchanged w changed' unchanged' w',
    views.extend_quizzes L course_id percent user_ids l quiz_time_list
      unchanged w
    = (Return (inr (changed', unchanged')), w') ->
    exists entries,
      changed' = quiz_time_list ++ entries
      /\ unchanged'
         = unchanged
           ++ map title_of (List.filter (fun q => negb (timed q)) l)
      /\ Forall2 (reported L course_id percent user_ids)
           (List.filter timed l) entries
      /\ List.length (List.filter is_post (calls w'))
         = (List.length (List.filter is_post (calls w))
            + List.length entries)%nat.
Proof.
  induction l as [| quiz l IH];
    intros quiz_time_list unchanged w changed' unchanged' w' H.
  - inversion H. subst. exists []. rewrite !app_nil_r, Nat.add_0_r.
    repeat split. constructor.
  - rewrite extend_quizzes_cons in H. simpl List.filter.
    set (ws := snd (views.save_quiz _ _ _ w)) in H.
    assert (Hws : calls ws = calls w) by reflexivity.
    clearbody ws.
    destruct (timed quiz) eqn:Htimed; simpl negb; cbv iota.
    + destruct (timed_limit quiz Htimed) as [t [Ht Hle]].
      destruct (ceil_added_time t percent) as [added | e] eqn:Hadd.
      * rewrite extend_quiz_copies in H.
        rewrite (extend_quiz_timed L course_id quiz percent t user_ids
                   added ws Ht Hle Hadd) in H.
        destruct (post_status L (post_for course_id quiz added user_ids)
                  =? 200) eqn:Hstatus; simpl in H; [| discriminate H].
        destruct (IH _ _ _ _ _ _ H) as [entries [H1 [H2 [H3 H4]]]].
        exists ((title_of quiz, added) :: entries).
        rewrite H1, H2, <- app_assoc. repeat split.
        -- constructor; [| exact H3].
           split; [reflexivity |]. exists t. simpl.
           repeat split; try assumption. apply Z.eqb_eq. exact Hstatus.
        -- rewrite H4. simpl. rewrite Hws, filter_app, length_app. simpl.
           lia.
      * rewrite (extend_quiz_raises L course_id quiz percent t user_ids e
                   ws Ht Hle Hadd) in H.
        discriminate H.
    + rewrite (extend_quiz_untimed L course_id quiz percent user_ids ws
                 Htimed) in H.
      simpl in H.
      destruct (IH _ _ _ _ _ _ H) as [entries [H1 [H2 [H3 H4]]]].
      exists entries. rewrite H1, H2, <- app_assoc. simpl.
      repeat split; [exact H3 | rewrite H4, Hws; reflexivity].
Qed.

Lemma map_GetUser_no_post (user_ids : list Z) :
  List.filter is_post (map GetUser user_ids) = [].
Proof. induction user_ids; simpl; trivial. Qed.

Lemma filter_timed_length (l : list CanvasQuiz.t) :
  (List.length (List.filter timed l)
   + List.length (List.filter (fun q => negb (timed q)) l))%nat
  = List.length l.
Proof.
  induction l as [| q l IH]; simpl; [reflexivity |].
  destruct (timed q); simpl; lia.
Qed.

(** What a success response of [update] tells about the request (its
    percent being a JSON integer), the quizzes of the LMS and the calls
    made. *)
Lemma update_success_inv (L : lms) (course_id : Z) (body : post_body)
  (w w' : world) (m : message) (quiz_list : list (option string * float))
  (unchanged_list : list (option string)) :
  views.update L (Some course_id) (Some body) w
  = (Return (JsonSuccess m quiz_list unchanged_list), w') ->
  let lms_quizzes := page_quizzes (quizzes_of L course_id) in
  exists percent user_ids,
    get (body_percent body) = Some percent
    /\ percent <> 0
    /\ get_default (body_user_ids body) [] = Some user_ids
    /\ lms_quizzes <> []
    /\ m = msg_success (List.length quiz_list) (List.length user_ids)
             percent (List.length unchanged_list)
    /\ Forall2 (reported L course_id percent user_ids)
         (List.filter timed lms_quizzes) quiz_list
    /\ unchanged_list
       = map title_of (List.filter (fun q => negb (timed q)) lms_quizzes)
    /\ (List.length quiz_list + List.length unchanged_list)%nat
       = List.length lms_quizzes
    /\ (forall q,
          In q lms_quizzes ->
          In (get (CanvasQuiz.id q))
            (map Quiz.canvas_id (quizzes (db w'))))
    /\ List.length (List.filter is_post (calls w'))
       = (List.length (List.filter is_post (calls w))
          + List.length quiz_list)%nat.
Proof.
  intros H lms_quizzes. unfold views.update in H.
  destruct (not_post_json (Some body)); [discriminate H |].
  apply bind_inv in H. destruct H as (course_json & w1 & Hcourse & H).
  apply bind_inv in H. destruct H as ([] & w2 & Hsave & H).
  destruct (get (body_percent body)) as [percent |] eqn:Hpercent;
    [| discriminate H].
  unfold not_percent in H.
  destruct (percent =? 0) eqn:Hnz; [discriminate H |].
  destruct (get_default (body_user_ids body) []) as [user_ids |] eqn:Hids;
    [| discriminate H].
  apply bind_inv in H. destruct H as ([] & w3 & Husers & H).
  apply bind_inv in H. destruct H as (qs & w4 & Hquizzes & H).
  rewrite get_quizzes_run in Hquizzes.
  injection Hquizzes as Hqs Hw4. subst qs. fold lms_quizzes in H.
  destruct (List.length lms_quizzes <? 1)%nat eqn:Hlen; [discriminate H |].
  apply bind_inv in H. destruct H as (done & w5 & Hloop & H).
  destruct done as [early | [changed unchanged]].
  { destruct (extend_quizzes_early _ _ _ _ _ _ _ _ _ _ Hloop) as [msg ->].
    discriminate H. }
  injection H as Hm Hql Hul Hw'. subst m changed unchanged w5.
  destruct (extend_quizzes_report _ _ _ _ _ _ _ _ _ _ _ Hloop)
    as [entries [H1 [H2 [H3 H4]]]].
  simpl in H1, H2. subst quiz_list unchanged_list.
  exists percent, user_ids.
  assert (Hcalls : List.filter is_post (calls w4)
                   = List.filter is_post (calls w)).
  { rewrite <- Hw4. simpl.
    rewrite filter_app, page_calls_no_post, app_nil_r.
    pose proof (save_users_returns L course_id percent user_ids w2)
      as [_ Hu].
    rewrite Husers in Hu. simpl in Hu. rewrite Hu.
    rewrite filter_app, map_GetUser_no_post, app_nil_r.
    rewrite save_course_run in Hsave. injection Hsave as Hw2.
    rewrite <- Hw2. simpl.
    rewrite get_course_run in Hcourse. injection Hcourse as _ Hw1.
    rewrite <- Hw1. simpl.
    rewrite filter_app. simpl. apply app_nil_r. }
  repeat split.
  - apply Z.eqb_neq. exact Hnz.
  - intros Hnil. rewrite Hnil in Hlen. discriminate Hlen.
  - exact H3.
  - rewrite length_map. apply Forall2_length in H3. rewrite <- H3.
    apply filter_timed_length.
  - intros q Hq.
    pose proof (extend_quizzes_done L course_id percent user_ids
                  lms_quizzes [] [] w4
                  (entries,
                   map title_of
                     (List.filter (fun q => negb (timed q)) lms_quizzes)))
      as Hdone.
    rewrite Hloop in Hdone. destruct (Hdone eq_refl) as [Hrows _].
    apply Hrows. exact Hq.
  - rewrite H4, Hcalls. reflexivity.
Qed.



(** X6: after a successful [update] no quiz of the course is missing: the
    missing-quiz lookup of [utils.py], run next against the same LMS,
    returns the empty list, with or without [quickcheck]. *)
Theorem update_leaves_no_quiz_missing (L : lms) (course_id : Z)
  (body : post_body) (w w' : world) (m : message)
  (quiz_list : list (option string * float))
  (unchanged_list : list (option string)) (quickcheck : bool) :
  views.update L (Some course_id) (Some body) w
  = (Return (JsonSuccess m quiz_list unchanged_list), w') ->
  fst (utils.missing_quizzes L course_id quickcheck w') = Return [].
Proof.
  intros H.
  destruct (update_success_inv _ _ _ _ _ _ _ _ H)
    as (percent & user_ids & _ & _ & _ & _ & _ & _ & _ & _ & Hrows & _).
  rewrite utils_missing_quizzes_run. simpl.
  assert (Hnone : List.filter (is_missing (db w'))
                    (page_quizzes (quizzes_of L course_id)) = []).
  { induction (page_quizzes (quizzes_of L course_id)) as [| q l IH];
      [reflexivity |].
    simpl. assert (Hq : is_missing (db w') q = false).
    { unfold is_missing. apply negb_false_iff. apply existsb_exists.
      specialize (Hrows q (or_introl eq_refl)).
      apply in_map_iff in Hrows. destruct Hrows as [row [Hk Hin]].
      exists row. split; [exact Hin |].
      apply quiz_by_canvas_id_key. exact Hk. }
    rewrite Hq. apply IH. intros q' Hq'. apply Hrows. right. exact Hq'. }
  rewrite Hnone. destruct quickcheck; reflexivity.
Qed.

Lemma update_leaves_no_quiz_missing_witness :
  fst (utils.missing_quizzes test_update_lms 1 false
         (snd (views.update test_update_lms (Some 1)
                 (Some extension_error_body)
                 (mk_world extension_error_db []))))
  = Return [].
Proof.
  apply (update_leaves_no_quiz_missing test_update_lms 1 extension_error_body
           (mk_world extension_error_db []) _ (msg_success 2 3 200 2)
           [(Some "Quiz 4", Z2F 10); (Some "Quiz 5", Z2F 30)]
           [Some "Quiz 6"; Some "Quiz 7"] false).
  vm_compute. reflexivity.
Defined.

(** ** What [update] has stored when it answers *)

Lemma first_upsert_const {A : Type} (p : A -> bool) (row : A) (l : list A) :
  p row = true -> first p (upsert p row (fun _ => row) l) = Some row.
Proof.
  intros Hrow. unfold upsert, first. destruct (find p l) as [a |] eqn:E.
  - revert a E. induction l as [| x l IH]; simpl; intros a E;
      [discriminate E |].
    destruct (p x) eqn:Hx; simpl.
    + rewrite Hrow. reflexivity.
    + rewrite Hx. apply (IH a E).
  - induction l as [| x l IH]; simpl in *.
    + rewrite Hrow. reflexivity.
    + destruct (p x); [discriminate E | apply IH; exact E].
Qed.

Lemma save_user_courses (L : lms) (course_id percent user_id : Z)
  (w : world) :
  courses (db (snd (views.save_user L course_id percent user_id w)))
  = courses (db w)
  /\ quizzes (db (snd (views.save_user L course_id percent user_id w)))
     = quizzes (db w).
Proof.
  destruct (user_of L user_id) as [canvas_user |] eqn:E.
  - rewrite (save_user_found _ _ _ _ _ _ E). split; reflexivity.
  - rewrite (save_user_skip _ _ _ _ _ E). split; reflexivity.
Qed.

Lemma save_users_courses (L : lms) (course_id percent : Z)
  (user_ids : list Z) :
  forall w,
    courses (db (snd (views.save_users L course_id percent user_ids w)))
    = courses (db w)
    /\ quizzes (db (snd (views.save_users L course_id percent user_ids w)))
       = quizzes (db w).
Proof.
  induction user_ids as [| u user_ids IH]; intros w.
  - split; reflexivity.
  - rewrite save_users_cons.
    destruct (IH (snd (views.save_user L course_id percent u w))) as [H1 H2].
    destruct (save_user_courses L course_id percent u w) as [H3 H4].
    rewrite H1, H2, H3, H4. split; reflexivity.
Qed.

Lemma extend_quizzes_courses (L : lms) (course_id percent : Z)
  (user_ids : list Z) (cs : list Course.t) (l : list CanvasQuiz.t) :
  forall quiz_time_list unchanged,
    preserves (fun d => courses d = cs)
      (views.extend_quizzes L course_id percent user_ids l quiz_time_list
         unchanged).
Proof.
  induction l as [| quiz l IH]; intros quiz_time_list unchanged; simpl.
  - apply keeps_preserves, keeps_db_ret.
  - apply preserves_bind; [intros w H; exact H |]. intros _.
    apply preserves_bind;
      [apply keeps_preserves, keeps_db_extend_quiz |].
    intros r. destruct (success r).
    + destruct (added_time r); apply IH.
    + apply keeps_preserves, keeps_db_ret.
Qed.

(** X7: once the course has been fetched, [update] has stored it, however
    the request ends (rejected for its percent, answered with an error or
    with success, or ended by an exception): the lookup by [canvas_id]
    returns the row with the name the LMS gave, with "<UNNAMED COURSE>"
    when the LMS gave no name and with NULL when it gave [null]. *)
Theorem update_stores_course (L : lms) (course_id : Z) (body : post_body)
  (course_json : CanvasCourse.t) (w : world) :
  not_post_json (Some body) = false ->
  course_of L course_id = Some course_json ->
  first (by_canvas_id course_id)
    (courses (db (snd (views.update L (Some course_id) (Some body) w))))
  = Some (Course.mk course_id
            (match CanvasCourse.name course_json with
             | Val name => Some name
             | Absent => Some "<UNNAMED COURSE>"
             | Null => None
             end)).
Proof.
  intros Hjson Hcourse. unfold views.update. rewrite Hjson.
  rewrite (bind_Return _ _ _ _ _ (get_course_ok L course_id course_json w
                                    Hcourse)).
  rewrite (bind_Return _ _ _ _ _ (save_course_ok _ _ _)).
  set (w2 := snd (views.save_course _ _ _)).
  assert (Hw2 : first (by_canvas_id course_id) (courses (db w2))
                = Some (Course.mk course_id
                          (match CanvasCourse.name course_json with
                           | Val name => Some name
                           | Absent => Some "<UNNAMED COURSE>"
                           | Null => None
                           end))).
  { subst w2. rewrite save_course_run. simpl.
    replace (get_default (CanvasCourse.name course_json) "<UNNAMED COURSE>")
      with (match CanvasCourse.name course_json with
            | Val name => Some name
            | Absent => Some "<UNNAMED COURSE>"
            | Null => None
            end)
      by (destruct (CanvasCourse.name course_json); reflexivity).
    apply first_upsert_const. apply Z.eqb_refl. }
  clearbody w2. rewrite <- Hw2. f_equal.
  match goal with
  | |- courses (db (snd (?rest w2))) = _ =>
      assert (Hrest : preserves (fun d => courses d = courses (db w2)) rest)
  end.
  { destruct (if not_percent (get (body_percent body)) then None
              else get (body_percent body)) as [percent |];
      [| apply keeps_preserves, keeps_db_ret].
    destruct (get_default (body_user_ids body) []) as [user_ids |];
      [| apply keeps_preserves, keeps_db_raise].
    apply preserves_bind.
    { intros w0 H0. rewrite <- H0. apply save_users_courses. }
    intros _.
    apply preserves_bind; [apply keeps_preserves, keeps_db_get_quizzes |].
    intros quizzes.
    destruct (List.length quizzes <? 1)%nat;
      [apply keeps_preserves, keeps_db_ret |].
    apply preserves_bind; [apply extend_quizzes_courses |].
    intros [early | [quiz_time_list unchanged]];
      apply keeps_preserves, keeps_db_ret. }
  apply Hrest. reflexivity.
Qed.

Lemma update_stores_course_witness :
  first (by_canvas_id 1)
    (courses (db (snd (views.update no_percent_lms (Some 1)
                         (Some no_percent_body) (mk_world empty_db [])))))
  = Some (Course.mk 1 (Some "Example Course")).
Proof.
  apply (update_stores_course no_percent_lms 1 no_percent_body
           (CanvasCourse.mk (Val "Example Course")) (mk_world empty_db []));
    reflexivity.
Defined.

Lemma save_user_keeps_key (L : lms) (course_id percent user_id : Z)
  (w : world) (k : Z * Z) :
  In k (map ext_key (extensions (db w))) ->
  In k (map ext_key
          (extensions
             (db (snd (views.save_user L course_id percent user_id w))))).
Proof.
  intros H. destruct (user_of L user_id) as [canvas_user |] eqn:E.
  - rewrite (save_user_found _ _ _ _ _ _ E). simpl.
    apply (upsert_keeps_keys ext_key
             (by_course_and_user course_id user_id));
      [reflexivity | exact H].
  - rewrite (save_user_skip _ _ _ _ _ E). exact H.
Qed.

Lemma save_user_stores_key (L : lms) (course_id percent user_id : Z)
  (w : world) (canvas_user : CanvasUser.t) :
  user_of L user_id = Some canvas_user ->
  In (course_id, user_id)
    (map ext_key
       (extensions
          (db (snd (views.save_user L course_id percent user_id w))))).
Proof.
  intros E. rewrite (save_user_found _ _ _ _ _ _ E). simpl.
  apply (upsert_has_key ext_key (course_id, user_id));
    [apply by_course_and_user_key | reflexivity | reflexivity].
Qed.

Lemma save_users_keeps_key (L : lms) (course_id percent : Z)
  (user_ids : list Z) (k : Z * Z) :
  forall w,
    In k (map ext_key (extensions (db w))) ->
    In k (map ext_key
            (extensions
               (db (snd (views.save_users L course_id percent user_ids
                           w))))).
Proof.
  induction user_ids as [| u user_ids IH]; intros w H; [exact H |].
  rewrite save_users_cons. apply IH. apply save_user_keeps_key. exact H.
Qed.

(** The loop over the user ids leaves an Extension row for every id of the
    list that the LMS knows. *)
Lemma save_users_stores_key (L : lms) (course_id percent : Z)
  (user_ids : list Z) :
  forall w user_id canvas_user,
    In user_id user_ids ->
    user_of L user_id = Some canvas_user ->
    In (course_id, user_id)
      (map ext_key
         (extensions
            (db (snd (views.save_users L course_id percent user_ids w))))).
Proof.
  induction user_ids as [| u user_ids IH];
    intros w user_id canvas_user Hin Hu; [destruct Hin |].
  rewrite save_users_cons. destruct Hin as [-> | Hin].
  - apply save_users_keeps_key.
    apply (save_user_stores_key _ _ _ _ _ canvas_user Hu).
  - apply (IH _ _ canvas_user Hin Hu).
Qed.

(** X8: a course without quizzes.  [update] answers with the error "Sorry,
    there are no quizzes for this course." only after it has stored the
    course and the users: the Extension row of every requested user that
    the LMS knows is there when the error is returned.  No extension POST
    has been sent and the Quiz table is as it was. *)
Theorem update_without_quizzes (L : lms) (course_id percent : Z)
  (body : post_body) (user_ids : list Z) (course_json : CanvasCourse.t)
  (w : world) :
  not_post_json (Some body) = false ->
  get (body_percent body) = Some percent ->
  percent <> 0 ->
  get_default (body_user_ids body) [] = Some user_ids ->
  course_of L course_id = Some course_json ->
  page_quizzes (quizzes_of L course_id) = [] ->
  let final := snd (views.update L (Some course_id) (Some body) w) in
  fst (views.update L (Some course_id) (Some body) w)
  = Return (JsonError msg_no_quizzes)
  /\ List.filter is_post (calls final) = List.filter is_post (calls w)
  /\ quizzes (db final) = quizzes (db w)
  /\ (forall user_id canvas_user,
        In user_id user_ids ->
        user_of L user_id = Some canvas_user ->
        In (course_id, user_id) (map ext_key (extensions (db final)))).
Proof.
  intros Hjson Hpercent Hnz Hids Hcourse Hnone final.
  assert (Hrun :
            views.update L (Some course_id) (Some body) w
            = (Return (JsonError msg_no_quizzes),
               snd (utils.get_quizzes L course_id
                      (snd (views.save_users L course_id percent user_ids
                              (snd (views.save_course course_id
                                      (get_default
                                         (CanvasCourse.name course_json)
                                         "<UNNAMED COURSE>")
                                      (snd (utils.get_course L course_id
                                              w))))))))).
  { unfold views.update. rewrite Hjson.
    rewrite (bind_Return _ _ _ _ _ (get_course_ok L course_id course_json w
                                      Hcourse)).
    rewrite (bind_Return _ _ _ _ _ (save_course_ok _ _ _)).
    rewrite Hpercent, Hids.
    assert (Hp : not_percent (Some percent) = false)
      by (apply Z.eqb_neq; exact Hnz).
    rewrite Hp.
    rewrite (bind_Return _ _ _ _ _ (save_users_run _ _ _ _ _)).
    rewrite (bind_Return _ _ _ _ _ (get_quizzes_ok _ _ _)).
    rewrite Hnone. reflexivity. }
  subst final. rewrite Hrun.
  set (w1 := snd (views.save_course course_id
                    (get_default (CanvasCourse.name course_json)
                       "<UNNAMED COURSE>")
                    (snd (utils.get_course L course_id w)))).
  assert (Hw1c : calls w1 = calls w ++ [GetCourse course_id])
    by (subst w1; rewrite save_course_run, get_course_run; reflexivity).
  assert (Hw1q : quizzes (db w1) = quizzes (db w))
    by (subst w1; rewrite save_course_run, get_course_run; reflexivity).
  clearbody w1.
  destruct (save_users_returns L course_id percent user_ids w1) as [_ Hc].
  destruct (save_users_courses L course_id percent user_ids w1) as [_ Hq].
  rewrite get_quizzes_run. simpl.
  repeat split.
  - rewrite filter_app, page_calls_no_post, app_nil_r, Hc.
    rewrite filter_app, map_GetUser_no_post, app_nil_r, Hw1c.
    rewrite filter_app. simpl. apply app_nil_r.
  - rewrite Hq. exact Hw1q.
  - intros user_id canvas_user Hin Hu.
    apply (save_users_stores_key _ _ _ _ _ _ canvas_user Hin Hu).
Qed.

Lemma update_without_quizzes_witness :
  fst (views.update no_percent_lms (Some 1)
         (Some (mk_body (Val 200) (Val [11]) []))
         (mk_world empty_db []))
  = Return (JsonError msg_no_quizzes).
Proof.
  apply (update_without_quizzes no_percent_lms 1 200
           (mk_body (Val 200) (Val [11]) []) [11]
           (CanvasCourse.mk (Val "Example Course")) (mk_world empty_db []));
    try reflexivity.
  lia.
Defined.

(** X9: the course the LMS does not know.  [update] lets the [HTTPError]
    of [get_course] through to its caller; it has made that one GET and
    has written nothing.  A request without a course id is answered
    "course_id required" with no call and no write. *)
Theorem update_course_not_found (L : lms) (course_id : Z)
  (body : post_body) (w : world) :
  not_post_json (Some body) = false ->
  course_of L course_id = None ->
  views.update L (Some course_id) (Some body) w
  = (Raise HTTPError, mk_world (db w) (calls w ++ [GetCourse course_id]))
  /\ (forall post_json,
        views.update L None post_json w
        = (Return (Text "course_id required"), w)).
Proof.
  intros Hjson Hcourse. split; [| reflexivity].
  unfold views.update. rewrite Hjson.
  apply bind_Raise. rewrite get_course_run, Hcourse. reflexivity.
Qed.

Lemma update_course_not_found_witness :
  views.update no_percent_lms (Some 2) (Some extension_error_body)
    (mk_world empty_db [])
  = (Raise HTTPError, mk_world empty_db [GetCourse 2]).
Proof.
  apply (update_course_not_found no_percent_lms 2 extension_error_body
           (mk_world empty_db [])); reflexivity.
Defined.

(** ** Submitting the same users again *)

Lemma first_upsert_other {A : Type} (p q : A -> bool) (create : A)
  (assign : A -> A) (l : list A) :
  (forall x, p x = true -> q x = false) ->
  (forall x, p x = true -> q (assign x) = false) ->
  q create = false ->
  first q (upsert p create assign l) = first q l.
Proof.
  intros Hp Ha Hc. unfold upsert, first. destruct (find p l).
  - induction l as [| x l IH]; simpl; [reflexivity |].
    destruct (p x) eqn:Hx; simpl.
    + rewrite (Ha x Hx), (Hp x Hx). reflexivity.
    + rewrite IH. reflexivity.
  - induction l as [| x l IH]; simpl.
    + rewrite Hc. reflexivity.
    + rewrite IH. reflexivity.
Qed.

Lemma upsert_fixed {A : Type} (p : A -> bool) (create : A)
  (assign : A -> A) (l : list A) (x : A) :
  first p l = Some x -> assign x = x -> upsert p create assign l = l.
Proof.
  intros Hfirst Hx. unfold upsert. rewrite Hfirst.
  unfold first in Hfirst. induction l as [| y l IH]; simpl in *;
    [reflexivity |].
  destruct (p y).
  - injection Hfirst as ->. rewrite Hx. reflexivity.
  - rewrite (IH Hfirst). reflexivity.
Qed.

Lemma first_upsert_assign {A : Type} (p : A -> bool) (create : A)
  (assign : A -> A) (l : list A) :
  p create = true ->
  (forall x, p x = true -> p (assign x) = true) ->
  exists x,
    first p (upsert p create assign l) = Some x
    /\ (x = create \/ exists y, x = assign y).
Proof.
  intros Hc Ha. unfold upsert, first. destruct (find p l) as [a |] eqn:E.
  - revert a E. induction l as [| y l IH]; simpl; intros a E;
      [discriminate E |].
    destruct (p y) eqn:Hy; simpl.
    + rewrite (Ha y Hy). exists (assign y). split; [reflexivity |].
      right. exists y. reflexivity.
    + rewrite Hy. apply (IH a E).
  - exists create. split; [| left; reflexivity].
    induction l as [| y l IH]; simpl in *.
    + rewrite Hc. reflexivity.
    + destruct (p y); [discriminate E | apply IH; exact E].
Qed.

Lemma save_user_establishes (L : lms) (course_id percent user_id : Z)
  (w : world) :
  coherent_users L ->
  user_saved L course_id percent user_id
    (db (snd (views.save_user L course_id percent user_id w))).
Proof.
  intros Hco. unfold user_saved.
  destruct (user_of L user_id) as [canvas_user |] eqn:E; [| exact I].
  rewrite (save_user_found _ _ _ _ _ _ E). simpl. split.
  - apply first_upsert_const. unfold user_by_canvas_id. simpl.
    rewrite (Hco _ _ E). simpl. apply Z.eqb_refl.
  - destruct (first_upsert_assign (by_course_and_user course_id user_id)
                (Extension.mk course_id user_id percent true)
                (fun extension =>
                   Extension.mk (Extension.course_id extension)
                     (Extension.user_id extension) percent
                     (Extension.active extension))
                (extensions (db w))) as [e [He Hcase]].
    + unfold by_course_and_user. simpl. rewrite !Z.eqb_refl. reflexivity.
    + intros x Hx. exact Hx.
    + exists e. split; [exact He |].
      destruct Hcase as [-> | [y ->]]; reflexivity.
Qed.

Lemma save_user_preserves_saved (L : lms) (course_id percent u v : Z)
  (w : world) :
  coherent_users L ->
  user_saved L course_id percent u (db w) ->
  user_saved L course_id percent u
    (db (snd (views.save_user L course_id percent v w))).
Proof.
  intros Hco Hsaved. destruct (Z.eq_dec v u) as [-> | Hne].
  { apply save_user_establishes. exact Hco. }
  destruct (user_of L v) as [canvas_v |] eqn:Ev.
  2: { rewrite (save_user_skip _ _ _ _ _ Ev). exact Hsaved. }
  unfold user_saved in *.
  destruct (user_of L u) as [canvas_u |] eqn:Eu; [| exact I].
  rewrite (save_user_found _ _ _ _ _ _ Ev). simpl.
  assert (Hnew : option_Z_eqb (get (CanvasUser.id canvas_v)) (Some u)
                 = false).
  { rewrite (Hco _ _ Ev). simpl. apply Z.eqb_neq. exact Hne. }
  destruct Hsaved as [Huser [e [He Hp]]]. split.
  - rewrite first_upsert_other; [exact Huser | | |].
    + intros x Hx. unfold user_by_canvas_id in *.
      apply option_Z_eqb_eq in Hx. rewrite Hx. simpl.
      apply Z.eqb_neq. exact Hne.
    + intros x _. exact Hnew.
    + exact Hnew.
  - exists e. split; [| exact Hp].
    rewrite first_upsert_other; [exact He | | |].
    + intros x Hx. apply by_course_and_user_key in Hx.
      unfold by_course_and_user, ext_key in *. inversion Hx.
      apply andb_false_iff. right. apply Z.eqb_neq. congruence.
    + intros x Hx. apply by_course_and_user_key in Hx.
      unfold by_course_and_user, ext_key in *. inversion Hx. simpl.
      apply andb_false_iff. right. apply Z.eqb_neq. congruence.
    + unfold by_course_and_user. simpl.
      apply andb_false_iff. right. apply Z.eqb_neq. exact Hne.
Qed.

Lemma save_user_fixed (L : lms) (course_id percent user_id : Z) (w : world) :
  user_saved L course_id percent user_id (db w) ->
  db (snd (views.save_user L course_id percent user_id w)) = db w.
Proof.
  unfold user_saved. intros H.
  destruct (user_of L user_id) as [canvas_user |] eqn:E.
  - rewrite (save_user_found _ _ _ _ _ _ E). simpl.
    destruct H as [Huser [e [He Hp]]].
    rewrite (upsert_fixed _ _ _ _ _ Huser eq_refl).
    rewrite (upsert_fixed _ _ _ _ e He);
      [destruct (db w); reflexivity |].
    destruct e. simpl in Hp. subst. reflexivity.
  - rewrite (save_user_skip _ _ _ _ _ E). reflexivity.
Qed.

Lemma save_users_preserves_saved (L : lms) (course_id percent u : Z)
  (user_ids : list Z) :
  coherent_users L ->
  forall w,
    user_saved L course_id percent u (db w) ->
    user_saved L course_id percent u
      (db (snd (views.save_users L course_id percent user_ids w))).
Proof.
  intros Hco. induction user_ids as [| v user_ids IH]; intros w H;
    [exact H |].
  rewrite save_users_cons. apply IH.
  apply save_user_preserves_saved; assumption.
Qed.

Lemma save_users_establishes (L : lms) (course_id percent : Z)
  (user_ids : list Z) :
  coherent_users L ->
  forall w,
    Forall
      (fun u =>
         user_saved L course_id percent u
           (db (snd (views.save_users L course_id percent user_ids w))))
      user_ids.
Proof.
  intros Hco. induction user_ids as [| u user_ids IH]; intros w;
    constructor.
  - rewrite save_users_cons. apply save_users_preserves_saved; [exact Hco |].
    apply save_user_establishes. exact Hco.
  - rewrite save_users_cons. apply IH.
Qed.

Lemma save_users_fixed (L : lms) (course_id percent : Z)
  (user_ids : list Z) :
  forall w,
    Forall (fun u => user_saved L course_id percent u (db w)) user_ids ->
    db (snd (views.save_users L course_id percent user_ids w)) = db w.
Proof.
  induction user_ids as [| u user_ids IH]; intros w H; [reflexivity |].
  inversion H as [| ? ? Hu Hrest]; subst.
  rewrite save_users_cons.
  pose proof (save_user_fixed L course_id percent u w Hu) as Hdb.
  rewrite IH; [exact Hdb |]. rewrite Hdb. exact Hrest.
Qed.

(** X10: when the LMS answers each user fetch with the user asked for,
    storing the users of a request is idempotent: running the loop over the
    user ids a second time, with the same percent, leaves every table as the
    first run left it.  (Without that condition a second run can add a
    second User row: the lookup is by the id of the request, the row
    carries the id of the answer.) *)
Theorem save_users_idempotent (L : lms) (course_id percent : Z)
  (user_ids : list Z) (w : world) :
  coherent_users L ->
  db (snd (views.save_users L course_id percent user_ids
             (snd (views.save_users L course_id percent user_ids w))))
  = db (snd (views.save_users L course_id percent user_ids w)).
Proof.
  intros Hco. apply save_users_fixed. apply save_users_establishes.
  exact Hco.
Qed.

Lemma save_users_idempotent_witness :
  db (snd (views.save_users extension_error_lms 1 200 [11; 12; 13]
             (snd (views.save_users extension_error_lms 1 200 [11; 12; 13]
                     (mk_world extension_error_db [])))))
  = db (snd (views.save_users extension_error_lms 1 200 [11; 12; 13]
               (mk_world extension_error_db []))).
Proof.
  apply (save_users_idempotent extension_error_lms 1 200 [11; 12; 13]
           (mk_world extension_error_db [])).
  intros user_id canvas_user. unfold extension_error_lms. simpl.
  unfold extension_error_users.
  destruct (user_id =? 11) eqn:E11.
  - intros H. injection H as <-. simpl. apply Z.eqb_eq in E11.
    rewrite E11. reflexivity.
  - destruct (user_id =? 13) eqn:E13; [| discriminate].
    intros H. injection H as <-. simpl. apply Z.eqb_eq in E13.
    rewrite E13. reflexivity.
Defined.

(** ** Baseline time *)










(** ** Get or create *)

Lemma first_app_new {A : Type} (p : A -> bool) (l : list A) (x : A) :
  first p l = None -> p x = true -> first p (l ++ [x]) = Some x.
Proof.
  unfold first. intros Hnone Hx. induction l as [| y l IH]; simpl in *.
  - rewrite Hx. reflexivity.
  - destruct (p y); [discriminate Hnone | apply IH; exact Hnone].
Qed.

(** X12: [get_or_create] on a table whose constructor stores the keyword
    arguments it is given.  It reports [created = False] exactly when a row
    matched, and then returns the first such row and changes nothing;
    otherwise it adds the new row at the end of the table.  Either way the
    returned row matches the keyword arguments, the lookup finds it
    afterwards, and calling [get_or_create] again returns the same row with
    [created = False] and changes nothing. *)
Theorem get_or_create_round_trip {A : Type} (table : database -> list A)
  (with_table : database -> list A -> database) (filter_by : A -> bool)
  (model : A) (w : world) :
  (forall d l, table (with_table d l) = l) ->
  filter_by model = true ->
  exists instance created w1,
    get_or_create table with_table filter_by model w
    = (Return (instance, created), w1)
    /\ (created = false
        <-> exists row, first filter_by (table (db w)) = Some row)
    /\ (created = false ->
        w1 = w /\ first filter_by (table (db w)) = Some instance)
    /\ (created = true ->
        instance = model
        /\ table (db w1) = table (db w) ++ [model]
        /\ calls w1 = calls w)
    /\ filter_by instance = true
    /\ first filter_by (table (db w1)) = Some instance
    /\ get_or_create table with_table filter_by model w1
       = (Return (instance, false), w1).
Proof.
  intros Hlens Hmodel. unfold get_or_create, bind, read_db.
  destruct (first filter_by (table (db w))) as [row |] eqn:E.
  - exists row, false, w. simpl. rewrite E.
    repeat split; try discriminate; try reflexivity.
    + exists row. reflexivity.
    + apply (find_some _ _ E).
  - exists model, true,
      (mk_world (with_table (db w) (table (db w) ++ [model])) (calls w)).
    simpl. rewrite Hlens, (first_app_new _ _ _ E Hmodel).
    repeat split; try discriminate; try reflexivity; try assumption.
    intros [row Hrow]. discriminate Hrow.
Qed.

Lemma get_or_create_round_trip_witness :
  exists instance created w1,
    get_or_create quizzes with_quizzes
      (fun q => option_Z_eqb (Quiz.canvas_id q) (Some 5)
                && (Quiz.course_id q =? 1))
      (Quiz.mk (Some 5) 1 None) (mk_world quiz_2_db [])
    = (Return (instance, created), w1)
    /\ first
         (fun q => option_Z_eqb (Quiz.canvas_id q) (Some 5)
                   && (Quiz.course_id q =? 1))
         (quizzes (db w1))
       = Some instance.
Proof.
  destruct (get_or_create_round_trip quizzes with_quizzes
              (fun q => option_Z_eqb (Quiz.canvas_id q) (Some 5)
                        && (Quiz.course_id q =? 1))
              (Quiz.mk (Some 5) 1 None) (mk_world quiz_2_db []))
    as (instance & created & w1 & Hrun & _ & _ & _ & _ & Hfind & _).
  - intros d l. reflexivity.
  - reflexivity.
  - exists instance, created, w1. split; [exact Hrun | exact Hfind].
Defined.

(** ** Access control *)

(** X13: the decorator [check_valid_user] lets the handler run, or anything
    be written, only for a session that is logged in through LTI and has a
    Canvas user id, on a route with a course id, and whose user is an
    administrator or has a staff enrollment in the course according to the
    LMS.  An administrator is let in without any enrollment request; for
    anyone else who is let in exactly one was made.  Whenever the handler
    does not run the world is left as it was. *)
Theorem check_valid_user_guards {A : Type}
  (enrollments_of : Z -> Z -> enrollments_body) (s : session)
  (course_id : field Z) (f : M A) (w : world) :
  let run := handlers.check_valid_user enrollments_of s course_id f w in
  let asked := fst run in
  let outcome := fst (snd run) in
  let w' := snd (snd run) in
  let allowed :=
    lti_logged_in s = Some true
    /\ (exists user, canvas_user_id s = Some user /\ user <> 0)
    /\ exists c,
         course_id = Val c
         /\ (is_admin s = Some true /\ asked = []
             \/ is_admin s = Some false
                /\ asked = [(c, id_or_zero (canvas_user_id s))]
                /\ exists e es,
                     enrollments_of c (id_or_zero (canvas_user_id s))
                     = Enrollments (e :: es)) in
  (allowed
   /\ (outcome, w')
      = match f w with
        | (Return a, w1) => (Return (Handled a), w1)
        | (Raise e, w1) => (Raise e, w1)
        end)
  \/ (~ allowed
      /\ w' = w
      /\ (forall a, outcome <> Return (Handled a))
      /\ (is_admin s = Some true -> asked = [])).
Proof.
  intros run asked outcome w' allowed.
  subst allowed asked outcome w' run. unfold handlers.check_valid_user.
  destruct (lti_logged_in s) as [[|] |]; simpl;
    try (right; repeat split; try discriminate; intros [H _];
         discriminate H).
  destruct (canvas_user_id s) as [user |]; simpl.
  2: { right. repeat split; try discriminate.
       intros [_ [[u [H _]] _]]. discriminate H. }
  destruct (user =? 0) eqn:Huser; simpl.
  { right. repeat split; try discriminate.
    intros [_ [[u [H Hu]] _]]. injection H as <-.
    apply Z.eqb_eq in Huser. contradiction. }
  apply Z.eqb_neq in Huser.
  destruct course_id as [| | c].
  - right. repeat split; try discriminate.
    intros [_ [_ [c [H _]]]]. discriminate H.
  - right. repeat split; try discriminate.
    intros [_ [_ [c [H _]]]]. discriminate H.
  - destruct (is_admin s) as [[|] |].
    + left. split; [| destruct (f w) as [[a | e] w1]; reflexivity].
      split; [reflexivity |]. split; [exists user; split; trivial |].
      exists c. split; [reflexivity |]. left. split; reflexivity.
    + destruct (enrollments_of c user) as [| [| e es]] eqn:E.
      * right. repeat split; try discriminate.
        intros [_ [_ [c' [Hc [[H _] | [_ [_ [e [es He]]]]]]]]];
          [discriminate H |].
        injection Hc as <-. rewrite E in He. discriminate He.
      * right. repeat split; try discriminate.
        intros [_ [_ [c' [Hc [[H _] | [_ [_ [e [es He]]]]]]]]];
          [discriminate H |].
        injection Hc as <-. rewrite E in He. discriminate He.
      * left. split; [| destruct (f w) as [[a | e'] w1]; reflexivity].
        split; [reflexivity |]. split; [exists user; split; trivial |].
        exists c. split; [reflexivity |]. right.
        split; [reflexivity |]. split.
        -- destruct (f w) as [[a | e'] w1]; reflexivity.
        -- exists e, es. exact E.
    + right. repeat split; try discriminate.
      intros [_ [_ [c' [_ [[H _] | [H _]]]]]]; discriminate H.
Qed.

(** ** The student list *)

Lemma search_users_run (L : lms) (page_of_url : string -> result Z)
  (course_id per_page page : Z) (search_term : string) (w : world) :
  utils.search_users L page_of_url course_id per_page page search_term w
  = (match search_json
             (search_of L course_id per_page page search_term) with
     | NotJson => Raise ValueError
     | SearchError => Return ([], 0)
     | UserList user_list =>
         match last_url
                 (search_of L course_id per_page page search_term) with
         | None => Raise KeyError
         | Some url =>
             match page_of_url url with
             | Return num_pages => Return (user_list, num_pages)
             | Raise e => Raise e
             end
         end
     end,
     mk_world (db w)
       (calls w ++ [SearchUsers course_id per_page page search_term])).
Proof.
  unfold utils.search_users, bind, request, lift. simpl.
  destruct (search_json _); try reflexivity.
  destruct (last_url _); try reflexivity.
  destruct (page_of_url _); reflexivity.
Qed.

(** X14: the page that [filter] renders.  It never shows fewer than one
    page: [max_pages] is at least 1.  When it lists students, they are the
    students of the LMS response and [max_pages] is the page number of the
    response's [last] link; an empty result, or a page count below 1, is
    shown as no students and one page.  The current page is the [page]
    argument (1 by default), and exactly one search was sent, with the
    query in lower case; the database is not touched. *)
Theorem filter_renders_a_page (L : lms) (page_of_url : string -> result Z)
  (lower : string -> string) (py_int : string -> result Z)
  (DEFAULT_PER_PAGE course_id : Z) (args : filter_args) (w w' : world)
  (users : list CanvasUser.t) (current max_pages : Z) :
  handlers.filter L page_of_url lower py_int DEFAULT_PER_PAGE
    (Some course_id) args w
  = (Return (UserListPage users current max_pages), w') ->
  let query :=
    lower (match arg_query args with
           | Some q => q
           | None => ""
           end) in
  exists per_page,
    handlers.int_arg py_int (arg_page args) 1 = Return current
    /\ handlers.int_arg py_int (arg_per_page args) DEFAULT_PER_PAGE
       = Return per_page
    /\ w' = mk_world (db w)
              (calls w ++ [SearchUsers course_id per_page current query])
    /\ 1 <= max_pages
    /\ (users = [] -> max_pages = 1)
    /\ (users <> [] ->
        exists url,
          search_of L course_id per_page current query
          = mk_search (UserList users) (Some url)
          /\ page_of_url url = Return max_pages).
Proof.
  intros H query. unfold handlers.filter in H.
  apply bind_inv in H. destruct H as (page & w1 & Hpage & H).
  apply bind_inv in H. destruct H as (per_page & w2 & Hper & H).
  apply bind_inv in H. destruct H as ([user_list pages] & w3 & Hsearch & H).
  unfold lift in Hpage, Hper.
  injection Hpage as Hpage Hw1. injection Hper as Hper Hw2. subst w1 w2.
  fold query in Hsearch. rewrite search_users_run in Hsearch.
  injection Hsearch as Hfound Hw3. subst w3.
  assert (Hcur : page = current /\ w' = mk_world (db w)
                   (calls w ++ [SearchUsers course_id per_page page query])
                 /\ (users = [] /\ max_pages = 1
                     \/ users = user_list /\ max_pages = pages
                        /\ user_list <> [] /\ 1 <= pages)).
  { destruct user_list as [| u us].
    - injection H as <- <- <- <-. repeat split. left. split; reflexivity.
    - destruct (pages <? 1) eqn:Hp.
      + injection H as <- <- <- <-. repeat split. left. split; reflexivity.
      + injection H as <- <- <- <-. repeat split. right.
        repeat split; [discriminate | apply Z.ltb_ge in Hp; lia]. }
  destruct Hcur as [-> [-> Hcase]].
  exists per_page. repeat split; try assumption.
  - destruct Hcase as [[_ ->] | [_ [-> [_ Hp]]]]; [lia | exact Hp].
  - intros Hnil. destruct Hcase as [[_ ->] | [-> [_ [Hne _]]]];
      [reflexivity | contradiction].
  - intros Hne. destruct Hcase as [[-> _] | [-> [-> _]]]; [contradiction |].
    destruct (search_of L course_id per_page current query)
      as [json last] eqn:E.
    simpl in Hfound. destruct json as [| | l]; try discriminate Hfound.
    + injection Hfound as <- _. contradiction.
    + destruct last as [url |]; [| discriminate Hfound].
      exists url. destruct (page_of_url url) as [n | e] eqn:Hn;
        [| discriminate Hfound].
      injection Hfound as <- <-. split; reflexivity.
Qed.

Lemma filter_renders_a_page_witness :
  exists per_page,
    handlers.int_arg (fun _ => Return 2) (Some "2") 1 = Return 2
    /\ handlers.int_arg (fun _ => Return 2) None 10 = Return per_page
    /\ 1 <= 99.
Proof.
  destruct (filter_renders_a_page search_lms (fun _ => Return 99)
              (fun q => q) (fun _ => Return 2) 10 1
              (mk_args (Some "smith") (Some "2") None)
              (mk_world empty_db [])
              (mk_world empty_db [SearchUsers 1 10 2 "smith"])
              two_students 2 99)
    as (per_page & H1 & H2 & _ & H4 & _).
  - reflexivity.
  - exists per_page. repeat split; assumption.
Defined.

(** X15: what [filter] does not catch.  A [page] or [per_page] argument
    that [int] rejects ends the request with that exception before the LMS
    is called.  A response of the LMS that lists students without a [last]
    link (a result of a single page) ends it with the [KeyError] of
    [search_users], after the one search call. *)
Theorem filter_lets_errors_through (L : lms)
  (page_of_url : string -> result Z) (lower : string -> string)
  (py_int : string -> result Z) (DEFAULT_PER_PAGE course_id : Z)
  (args : filter_args) (w : world) :
  (forall e,
     handlers.int_arg py_int (arg_page args) 1 = Raise e
     \/ (exists page,
           handlers.int_arg py_int (arg_page args) 1 = Return page)
        /\ handlers.int_arg py_int (arg_per_page args) DEFAULT_PER_PAGE
           = Raise e ->
     handlers.filter L page_of_url lower py_int DEFAULT_PER_PAGE
       (Some course_id) args w
     = (Raise e, w))
  /\ (forall page per_page user_list,
        handlers.int_arg py_int (arg_page args) 1 = Return page ->
        handlers.int_arg py_int (arg_per_page args) DEFAULT_PER_PAGE
        = Return per_page ->
        search_of L course_id per_page page
          (lower (match arg_query args with
                  | Some q => q
                  | None => ""
                  end))
        = mk_search (UserList user_list) None ->
        fst (handlers.filter L page_of_url lower py_int DEFAULT_PER_PAGE
               (Some course_id) args w)
        = Raise KeyError).
Proof.
  split.
  - intros e [H | [[page Hpage] H]]; unfold handlers.filter, bind, lift.
    + rewrite H. reflexivity.
    + rewrite Hpage, H. reflexivity.
  - intros page per_page user_list Hpage Hper Hsearch.
    unfold handlers.filter.
    unfold bind at 1. unfold lift at 1. rewrite Hpage.
    unfold bind at 1. unfold lift at 1. rewrite Hper.
    unfold bind. rewrite search_users_run, Hsearch. reflexivity.
Qed.

Lemma filter_lets_errors_through_witness :
  fst (handlers.filter no_last_link_lms (fun _ => Return 99) (fun q => q)
         (fun _ => Return 1) 10 (Some 1) (mk_args None None None)
         (mk_world empty_db []))
  = Raise KeyError.
Proof.
  destruct (filter_lets_errors_through no_last_link_lms
              (fun _ => Return 99) (fun q => q) (fun _ => Return 1) 10 1
              (mk_args None None None) (mk_world empty_db [])) as [_ H].
  apply (H 1 10 [CanvasUser.mk (Val 1) (Val "John Smith") Absent]);
    reflexivity.
Defined.

(** ** The report *)

Section TallyFacts.

Context {A : Type}.
Variable num : A -> nat.

Lemma list_max_snoc (l : list nat) (n : nat) :
  list_max (l ++ [n]) = Nat.max (list_max l) n.
Proof. rewrite list_max_app. simpl. rewrite Nat.max_0_r. reflexivity. Qed.

Lemma below_list_max (l : list A) (n : nat) :
  (list_max (map num l) < n)%nat ->
  Forall (fun x => (num x < n)%nat) l.
Proof.
  induction l as [| x l IH]; simpl; intros H; constructor.
  - lia.
  - apply IH. lia.
Qed.

Lemma largest_step (l : list A) (x : A)
  (state : list (nat * nat) * (nat * option A)) :
  largest_of num l (snd state) ->
  largest_of num (l ++ [x]) (snd (reports.turn num state x)).
Proof.
  destruct state as [freqs [size best]]. unfold largest_of, reports.turn.
  simpl. intros [Hsize [Hnone Hfirst]].
  rewrite map_app. change (map num [x]) with [num x].
  rewrite list_max_snoc.
  destruct (Nat.eqb (num x) 0) eqn:Hzero; simpl.
  - apply Nat.eqb_eq in Hzero. rewrite Hzero, Nat.max_0_r.
    split; [exact Hsize |]. split; [exact Hnone |].
    intros item Hitem. destruct (Hfirst item Hitem)
      as (before & after & Hl & Hn & Hb).
    exists before, (after ++ [x]). rewrite Hl, <- app_assoc.
    repeat split; assumption.
  - apply Nat.eqb_neq in Hzero.
    destruct (Nat.ltb size (num x)) eqn:Hlt; simpl.
    + apply Nat.ltb_lt in Hlt. split; [lia |].
      split; [split; [discriminate | lia] |].
      intros item Hitem. injection Hitem as <-.
      exists l, []. repeat split.
      apply below_list_max. lia.
    + apply Nat.ltb_ge in Hlt. split; [lia |]. split; [exact Hnone |].
      intros item Hitem. destruct (Hfirst item Hitem)
        as (before & after & Hl & Hn & Hb).
      exists before, (after ++ [x]). rewrite Hl, <- app_assoc.
      repeat split; assumption.
Qed.

Lemma lookup_incr (n k : nat) (freqs : list (nat * nat)) :
  lookup_freq k (reports.incr n freqs)
  = if Nat.eqb k n then
      Some (S (match lookup_freq k freqs with
               | Some v => v
               | None => 0
               end))
    else lookup_freq k freqs.
Proof.
  induction freqs as [| [k' v] freqs IH]; simpl.
  - rewrite (Nat.eqb_sym n k). destruct (Nat.eqb k n); reflexivity.
  - destruct (Nat.eqb k' n) eqn:Hn; simpl.
    + apply Nat.eqb_eq in Hn. subst k'. rewrite (Nat.eqb_sym n k).
      destruct (Nat.eqb k n); reflexivity.
    + destruct (Nat.eqb k' k) eqn:Hk.
      * apply Nat.eqb_eq in Hk. subst k'. rewrite Hn. reflexivity.
      * exact IH.
Qed.

Lemma keys_incr (n : nat) (freqs : list (nat * nat)) :
  NoDup (map fst freqs) -> NoDup (map fst (reports.incr n freqs)).
Proof.
  induction freqs as [| [k v] freqs IH]; simpl; intros H.
  - constructor; [intros [] | constructor].
  - inversion H as [| ? ? Hnotin Hnd]; subst.
    destruct (Nat.eqb k n) eqn:Hn; simpl.
    + constructor; assumption.
    + constructor; [| apply IH; exact Hnd].
      intros Hin. apply Hnotin. clear IH Hnotin Hnd H.
      induction freqs as [| [k' v'] freqs IH]; simpl in *.
      * destruct Hin as [Hin | []]. subst n.
        rewrite Nat.eqb_refl in Hn. discriminate Hn.
      * destruct (Nat.eqb k' n); simpl in Hin; [exact Hin |].
        destruct Hin as [Hin | Hin]; [left; exact Hin | right].
        apply IH. exact Hin.
Qed.

Lemma count_with_snoc (k : nat) (l : list A) (x : A) :
  count_with num k (l ++ [x])
  = (count_with num k l + if Nat.eqb (num x) k then 1 else 0)%nat.
Proof.
  unfold count_with. rewrite filter_app, length_app. simpl.
  destruct (Nat.eqb (num x) k); reflexivity.
Qed.

Lemma frequencies_step (l : list A) (x : A)
  (state : list (nat * nat) * (nat * option A)) :
  frequencies_of num l (fst state) ->
  frequencies_of num (l ++ [x]) (fst (reports.turn num state x)).
Proof.
  destruct state as [freqs largest]. unfold frequencies_of, reports.turn.
  simpl. intros [Hnd Hlook].
  destruct (Nat.eqb (num x) 0) eqn:Hzero; simpl.
  - apply Nat.eqb_eq in Hzero. split; [exact Hnd |].
    intros k. rewrite Hlook, count_with_snoc, Hzero.
    destruct k; [reflexivity |]. simpl. rewrite Nat.add_0_r. reflexivity.
  - apply Nat.eqb_neq in Hzero. split; [apply keys_incr; exact Hnd |].
    intros k. rewrite lookup_incr, Hlook, count_with_snoc.
    rewrite (Nat.eqb_sym (num x) k).
    destruct (Nat.eqb k (num x)) eqn:Hk.
    + apply Nat.eqb_eq in Hk. subst k.
      destruct (num x) as [| n]; [contradiction |]. simpl.
      destruct (count_with num (S n) l); simpl;
        rewrite ?Nat.add_1_r; reflexivity.
    + rewrite Nat.add_0_r. reflexivity.
Qed.

Lemma tally_fold (items : list A) :
  forall (done : list A) (state : list (nat * nat) * (nat * option A)),
    largest_of num done (snd state) ->
    frequencies_of num done (fst state) ->
    largest_of num (done ++ items)
      (snd (fold_left (reports.turn num) items state))
    /\ frequencies_of num (done ++ items)
         (fst (fold_left (reports.turn num) items state)).
Proof.
  induction items as [| x items IH]; intros done state Hl Hf.
  - rewrite app_nil_r. split; assumption.
  - simpl fold_left.
    replace (done ++ x :: items) with ((done ++ [x]) ++ items)
      by (rewrite <- app_assoc; reflexivity).
    apply IH; [apply largest_step | apply frequencies_step]; assumption.
Qed.

End TallyFacts.

(** X16: the largest item of the report.  After the loop the recorded size
    is the greatest number of extensions of any item (zero for none); the
    recorded item is the first one with that many extensions; and no item
    is recorded exactly when no item has an extension, in which case the
    line of the summary that names it raises [AttributeError]. *)
Theorem tally_largest {A : Type} (num_extensions : A -> nat)
  (name : A -> option string) (items : list A) :
  let largest := snd (reports.tally num_extensions items) in
  fst largest = list_max (map num_extensions items)
  /\ (forall item,
        snd largest = Some item ->
        exists before after,
          items = before ++ item :: after
          /\ num_extensions item = fst largest
          /\ Forall (fun x => (num_extensions x < fst largest)%nat) before)
  /\ (Forall (fun x => num_extensions x = 0%nat) items
      <-> reports.largest_line name largest = Raise AttributeError).
Proof.
  intros largest.
  destruct (tally_fold num_extensions items [] ([], (0%nat, None)))
    as [[Hsize [Hnone Hfirst]] _].
  - unfold largest_of. simpl. repeat split; trivial. discriminate.
  - unfold frequencies_of. simpl. split; [constructor |].
    intros k. rewrite orb_true_r. reflexivity.
  - simpl app in *. fold (reports.tally num_extensions items) in *.
    fold largest in Hsize, Hnone, Hfirst.
    split; [exact Hsize |]. split; [exact Hfirst |].
    unfold reports.largest_line.
    assert (Hzero : Forall (fun x => num_extensions x = 0%nat) items
                    <-> list_max (map num_extensions items) = 0%nat).
    { clear. induction items as [| x items IH]; simpl.
      - split; trivial.
      - split.
        + intros H. inversion H; subst. apply IH in H3. lia.
        + intros H. constructor; [lia | apply IH; lia]. }
    rewrite Hzero, <- Hsize, <- Hnone.
    destruct (snd largest); split; try discriminate; trivial.
Qed.

(** X17: the frequencies of the report.  The dictionary has at most one
    entry per number of extensions and none for zero; the entry of [k]
    is the number of items that have exactly [k] extensions, and there is
    an entry exactly when that number is not zero. *)
Theorem tally_frequencies {A : Type} (num_extensions : A -> nat)
  (items : list A) (k : nat) :
  let freqs := fst (reports.tally num_extensions items) in
  NoDup (map fst freqs)
  /\ lookup_freq 0 freqs = None
  /\ lookup_freq k freqs
     = if Nat.eqb k 0 || Nat.eqb (count_with num_extensions k items) 0
       then None
       else Some (count_with num_extensions k items).
Proof.
  intros freqs.
  destruct (tally_fold num_extensions items [] ([], (0%nat, None)))
    as [_ [Hnd Hlook]].
  - unfold largest_of. simpl. repeat split; trivial. discriminate.
  - unfold frequencies_of. simpl. split; [constructor |].
    intros k'. rewrite orb_true_r. reflexivity.
  - simpl app in *. fold (reports.tally num_extensions items) in *.
    fold freqs in Hnd, Hlook.
    split; [exact Hnd |]. split; [rewrite Hlook; reflexivity | apply Hlook].
Qed.

Example course_report_example :
  reports.course_report (fun _ => true) false
    (mk_db [Course.mk 1 None; Course.mk 2 None; Course.mk 3 None] [] []
       [Extension.mk 1 11 200 true; Extension.mk 2 11 150 true;
        Extension.mk 2 12 100 true; Extension.mk 2 13 200 true;
        Extension.mk 3 11 100 true])
  = ([(1%nat, 1%nat); (2%nat, 1%nat)], (2%nat, Some (Course.mk 2 None))).
Proof. reflexivity. Qed.

(** ** The LTI launch *)

Lemma lti_tool_cases (LTI_KEY LTI_SECRET : string)
  (is_valid_request too_old is_outcome_service : bool)
  (oauth_nonce : string) (form : launch_form) (s : session) :
  let run :=
    handlers.lti_tool LTI_KEY LTI_SECRET is_valid_request too_old
      is_outcome_service oauth_nonce form s in
  let accepted :=
    launch_accepted LTI_KEY LTI_SECRET is_valid_request too_old form in
  (accepted
   /\ fst run
      = Return (if is_outcome_service then Assessment
                else RedirectToQuiz (custom_canvas_course_id form))
   /\ lti_logged_in (snd run) = Some true
   /\ canvas_user_id (snd run) = custom_canvas_user_id form)
  \/ (~ accepted
      /\ (fst run = Raise KeyError
          \/ exists m, fst run = Return (LaunchError m))
      /\ fst run <> Return (LaunchError "Why are you reusing the nonce?")
      /\ lti_logged_in (snd run) = lti_logged_in s
      /\ canvas_user_id (snd run) = canvas_user_id s).
Proof.
  intros run accepted. subst run accepted.
  unfold handlers.lti_tool, launch_accepted.
  destruct (ext_roles form) as [roles |] eqn:Hroles.
  2: { right. repeat split; try discriminate; [| left; reflexivity].
       intros [[r [H _]] _]. discriminate H. }
  destruct (contains "Administrator" roles) eqn:Hadmin;
    destruct (contains "Instructor" roles) eqn:Hinst; simpl negb;
    cbv iota.
  4: { right. simpl. repeat split; try discriminate.
       - intros [[r [Hr [H | H]]] _]; injection Hr as <-; congruence.
       - right. eexists. reflexivity. }
  all: destruct (oauth_consumer_key form) as [key |] eqn:Hkey;
    [| right; simpl; repeat split; try discriminate;
       [intros [_ [H _]]; discriminate H | right; eexists; reflexivity]].
  all: destruct key as [| c key'];
    [right; simpl; repeat split; try discriminate;
     [intros [_ [H [Hk _]]]; injection H as H; symmetry in H;
      contradiction
     | right; eexists; reflexivity] |].
  all: destruct (String.eqb (String c key') LTI_KEY) eqn:Heq;
    [apply String.eqb_eq in Heq
    | apply String.eqb_neq in Heq; right; simpl; repeat split;
      try discriminate;
      [intros [_ [H _]]; injection H as H; contradiction
      | right; eexists; reflexivity]].
  all: destruct (String.eqb LTI_SECRET "") eqn:Hsec; simpl negb; cbv iota;
    [apply String.eqb_eq in Hsec; right; simpl; repeat split;
     try discriminate;
     [intros [_ [_ [_ [H _]]]]; contradiction
     | right; eexists; reflexivity]
    | apply String.eqb_neq in Hsec].
  all: destruct is_valid_request; simpl negb; cbv iota;
    [| right; simpl; repeat split; try discriminate;
       [intros [_ [_ [_ [_ [H _]]]]]; discriminate H
       | right; eexists; reflexivity]].
  all: destruct too_old;
    [right; simpl; repeat split; try discriminate;
     [intros [_ [_ [_ [_ [_ H]]]]]; discriminate H
     | right; eexists; reflexivity] |].
  all: left; simpl; repeat split; try reflexivity; try assumption;
    try (rewrite Heq; reflexivity);
    try (rewrite <- Heq; discriminate).
  all: exists roles; split; [reflexivity |]; auto.
Qed.

(** X18: when [lti_tool] logs a session in.  The launch ends with the
    assessment page or the redirect to the quiz page exactly when the form
    names a staff role, carries the configured consumer key (with a
    configured secret), its signature is valid and its timestamp is not
    older than an hour; the session is then marked as logged in with the
    user id of the form.  In every other case the session's login flag and
    user id are left as they were; a used nonce is never a reason to
    refuse. *)
Theorem lti_tool_login (LTI_KEY LTI_SECRET : string)
  (is_valid_request too_old is_outcome_service : bool)
  (oauth_nonce : string) (form : launch_form) (s : session) :
  let run :=
    handlers.lti_tool LTI_KEY LTI_SECRET is_valid_request too_old
      is_outcome_service oauth_nonce form s in
  let accepted :=
    launch_accepted LTI_KEY LTI_SECRET is_valid_request too_old form in
  (accepted
   /\ fst run
      = Return (if is_outcome_service then Assessment
                else RedirectToQuiz (custom_canvas_course_id form))
   /\ lti_logged_in (snd run) = Some true
   /\ canvas_user_id (snd run) = custom_canvas_user_id form)
  \/ (~ accepted
      /\ (fst run = Raise KeyError
          \/ exists m, fst run = Return (LaunchError m))
      /\ fst run <> Return (LaunchError "Why are you reusing the nonce?")
      /\ lti_logged_in (snd run) = lti_logged_in s
      /\ canvas_user_id (snd run) = canvas_user_id s).
Proof. apply lti_tool_cases. Qed.

Lemma lti_tool_is_admin (LTI_KEY LTI_SECRET : string)
  (is_valid_request too_old is_outcome_service : bool)
  (oauth_nonce : string) (form : launch_form) (s : session)
  (roles : string) :
  ext_roles form = Some roles ->
  contains "Administrator" roles = true
  \/ contains "Instructor" roles = true ->
  is_admin
    (snd (handlers.lti_tool LTI_KEY LTI_SECRET is_valid_request too_old
            is_outcome_service oauth_nonce form s))
  = Some (contains "Administrator" roles).
Proof.
  intros Hroles Hstaff. unfold handlers.lti_tool. rewrite Hroles.
  assert (Hcheck : negb (contains "Administrator" roles)
                   && negb (contains "Instructor" roles) = false).
  { destruct Hstaff as [H | H]; rewrite H; simpl;
      [reflexivity | apply andb_false_r]. }
  rewrite Hcheck.
  destruct (oauth_consumer_key form) as [[| c key] |]; try reflexivity.
  destruct (String.eqb (String c key) LTI_KEY
            && negb (String.eqb LTI_SECRET ""));
    [| reflexivity].
  destruct (negb is_valid_request); [reflexivity |].
  destruct too_old; reflexivity.
Qed.

(** X19: [lti_tool] writes [is_admin] into the session as soon as it has
    read a staff role from the form, before it looks at the consumer key or
    the signature.  So a launch that is refused (no key, unknown key, bad
    signature, old timestamp) still leaves [is_admin] set from the roles
    the form claims; and for a session that was already logged in, the
    decorator [check_valid_user] then runs the handler without asking the
    LMS for the user's enrollments, whatever they are. *)
Theorem refused_launch_sets_is_admin {A : Type}
  (LTI_KEY LTI_SECRET : string)
  (is_valid_request too_old is_outcome_service : bool)
  (oauth_nonce : string) (form : launch_form) (s : session)
  (roles : string) (user course_id : Z)
  (enrollments_of : Z -> Z -> enrollments_body) (f : M A) (w : world) :
  ext_roles form = Some roles ->
  contains "Administrator" roles = true ->
  ~ launch_accepted LTI_KEY LTI_SECRET is_valid_request too_old form ->
  lti_logged_in s = Some true ->
  canvas_user_id s = Some user ->
  user <> 0 ->
  let run :=
    handlers.lti_tool LTI_KEY LTI_SECRET is_valid_request too_old
      is_outcome_service oauth_nonce form s in
  (exists m, fst run = Return (LaunchError m))
  /\ snd run = mk_session (Some true) (Some user) (Some true)
  /\ handlers.check_valid_user enrollments_of (snd run) (Val course_id) f w
     = ([],
        match f w with
        | (Return a, w') => (Return (Handled a), w')
        | (Raise e, w') => (Raise e, w')
        end).
Proof.
  intros Hroles Hadmin Hrefused Hlogin Huser Hnz run.
  destruct (lti_tool_cases LTI_KEY LTI_SECRET is_valid_request too_old
              is_outcome_service oauth_nonce form s)
    as [[Hacc _] | [_ [Hresp [_ [Hl Hu]]]]]; [contradiction |].
  fold run in Hresp, Hl, Hu.
  pose proof (lti_tool_is_admin LTI_KEY LTI_SECRET is_valid_request too_old
                is_outcome_service oauth_nonce form s roles Hroles
                (or_introl Hadmin)) as Ha.
  fold run in Ha. rewrite Hadmin in Ha.
  assert (Hs : snd run = mk_session (Some true) (Some user) (Some true)).
  { destruct (snd run) as [l u a]. simpl in *. congruence. }
  split; [| split; [exact Hs |]].
  - destruct Hresp as [Hraise | Hm]; [| exact Hm].
    exfalso. subst run. unfold handlers.lti_tool in Hraise.
    rewrite Hroles, Hadmin in Hraise. simpl in Hraise.
    destruct (oauth_consumer_key form) as [[| c key] |];
      try discriminate Hraise.
    destruct (String.eqb (String c key) LTI_KEY
              && negb (String.eqb LTI_SECRET ""));
      [| discriminate Hraise].
    destruct (negb is_valid_request); [discriminate Hraise |].
    destruct too_old; [discriminate Hraise |].
    destruct is_outcome_service; discriminate Hraise.
  - rewrite Hs. unfold handlers.check_valid_user. simpl.
    apply Z.eqb_neq in Hnz. rewrite Hnz. reflexivity.
Qed.

Lemma refused_launch_sets_is_admin_witness :
  handlers.check_valid_user (fun _ _ => Enrollments [])
    (snd (handlers.lti_tool "key" "secret" false false false "nonce"
            unsigned_admin_form
            (mk_session (Some true) (Some 7) (Some false))))
    (Val 1)
    (views.update extension_error_lms (Some 1) None)
    (mk_world extension_error_db [])
  = ([], (Return (Handled (Text "invalid request")),
          mk_world extension_error_db [])).
Proof.
  destruct (refused_launch_sets_is_admin "key" "secret" false false false
              "nonce" unsigned_admin_form
              (mk_session (Some true) (Some 7) (Some false))
              "urn:lti:instrole:ims/lis/Administrator" 7 1
              (fun _ _ => Enrollments [])
              (views.update extension_error_lms (Some 1) None)
              (mk_world extension_error_db [])) as [_ [_ H]].
  - reflexivity.
  - reflexivity.
  - intros [_ [H _]]. discriminate H.
  - reflexivity.
  - reflexivity.
  - lia.
  - rewrite H. reflexivity.
Defined.
